(** * pyberryimu: the accelerometer calibration of [StandardCalibration]

    A shallow embedding of [pyberryimu/calibration/standard.py]: the
    six-point zero-g/sensitivity pass, the Gauss-Newton optimisation of the
    scale factor matrix and bias vector, the forward transform, and the
    [save]/[load] pair.

    The Python code computes with numpy [float64] values.  The embedding is
    written once, over an interface of number operations ([Number]), and is
    read at two instances:
    - [binary64]: Rocq's primitive IEEE-754 double precision floats, which
      is the arithmetic the program runs on (signed zeros, infinities and
      NaN included);
    - [exact_real]: the real numbers, the reading under which the docstrings
      and the derivation of the Jacobian speak about the formulas. *)

From Stdlib Require Import ZArith QArith List String Bool Lia.
From Stdlib Require Import Floats.
From Stdlib Require Import Reals Lra.
From Stdlib Require Import Permutation DecimalString.
Import ListNotations.

Set Implicit Arguments.

(* A decimal literal such as [0.001] denotes the nearest double, as in
   Python. *)
Set Warnings "-inexact-float,-notation-for-abbreviation".

(** ** Numbers *)

(** The operations the source applies to numbers.  [of_Q] reads a numeric
    literal of the source ([5], [0.5], [1e-9]); the comparisons are the
    Python operators [<], [<=] and [==] (all false on a NaN). *)
Class Number (F : Type) : Type := {
  of_Q : Q -> F;
  add : F -> F -> F;
  sub : F -> F -> F;
  mul : F -> F -> F;
  div : F -> F -> F;
  absolute : F -> F;
  sqroot : F -> F;
  ltb : F -> F -> bool;
  leb : F -> F -> bool;
  eqb : F -> F -> bool
}.

Declare Scope num_scope.
Delimit Scope num_scope with num.
Infix "+" := add : num_scope.
Infix "-" := sub : num_scope.
Infix "*" := mul : num_scope.
Infix "/" := div : num_scope.
Infix "<?" := ltb : num_scope.
Infix "<=?" := leb : num_scope.
Infix "=?" := eqb : num_scope.
(** [a >? b] is Python's [a > b]. *)
Notation "a >? b" := (ltb b a) (at level 70) : num_scope.

(** *** IEEE-754 binary64 *)

(** An integer as a double, exact below [2^53] (the model reads no larger
    one). *)
Definition float_of_Z (z : Z) : float :=
  if (z <? 0)%Z
  then PrimFloat.opp (PrimFloat.of_uint63 (Uint63.of_Z (- z)))
  else PrimFloat.of_uint63 (Uint63.of_Z z).

(** A literal [n/d] with [n] and [d] below [2^53] is the correctly rounded
    quotient of two exact floats: the nearest double, which is how Python
    reads the literal. *)
Definition float_of_Q (q : Q) : float :=
  PrimFloat.div (float_of_Z (Qnum q)) (float_of_Z (Zpos (Qden q))).

#[export] Instance binary64 : Number float := {
  of_Q := float_of_Q;
  add := PrimFloat.add;
  sub := PrimFloat.sub;
  mul := PrimFloat.mul;
  div := PrimFloat.div;
  absolute := PrimFloat.abs;
  sqroot := PrimFloat.sqrt;
  ltb := PrimFloat.ltb;
  leb := PrimFloat.leb;
  eqb := PrimFloat.eqb
}.

(** *** Real numbers *)

Definition Rltb (a b : R) : bool := if Rlt_dec a b then true else false.
Definition Rleb (a b : R) : bool := if Rle_dec a b then true else false.
Definition Reqb (a b : R) : bool := if Req_dec_T a b then true else false.

#[export] Instance exact_real : Number R := {
  of_Q := Q2R;
  add := Rplus;
  sub := Rminus;
  mul := Rmult;
  div := Rdiv;
  absolute := Rabs;
  sqroot := sqrt;
  ltb := Rltb;
  leb := Rleb;
  eqb := Reqb
}.

(** ** Arrays

    The numpy arrays of the program have fixed shapes: [(3,)] for a
    reading, the zero-g levels, the sensitivities and the bias vector,
    [(3, 3)] for the scale factor matrix, [(9,)] for the optimisation vector
    and a row of the Jacobian, [(9, 9)] for the normal matrix.  A list of
    rows stands for an array with one row per calibration point. *)

Record vec3 (F : Type) : Type := V3 { c0 : F; c1 : F; c2 : F }.

Record mat3 (F : Type) : Type :=
  M3 { row0 : vec3 F; row1 : vec3 F; row2 : vec3 F }.

Record vec9 (F : Type) : Type :=
  V9 { p0 : F; p1 : F; p2 : F; p3 : F; p4 : F; p5 : F; p6 : F; p7 : F; p8 : F }.

Definition mat9 (F : Type) : Type := vec9 (vec9 F).

(** The three axes, in the order of [axes_names = ['x', 'y', 'z']], that is
    [index] 0, 1, 2 of [xrange(3)]. *)
Inductive axis : Type := AxisX | AxisY | AxisZ.

Section Arrays.
Context {F : Type} `{Number F}.
Local Open Scope num_scope.

Definition zero : F := of_Q 0.
Definition one : F := of_Q 1.
Definition two : F := of_Q 2.

(** [v[index]] and [v[index] = a]. *)
Definition v3_get (index : axis) (v : vec3 F) : F :=
  match index with AxisX => c0 v | AxisY => c1 v | AxisZ => c2 v end.

Definition v3_set (index : axis) (a : F) (v : vec3 F) : vec3 F :=
  match index with
  | AxisX => V3 a (c1 v) (c2 v)
  | AxisY => V3 (c0 v) a (c2 v)
  | AxisZ => V3 (c0 v) (c1 v) a
  end.

Definition v3_map2 (f : F -> F -> F) (a b : vec3 F) : vec3 F :=
  V3 (f (c0 a) (c0 b)) (f (c1 a) (c1 b)) (f (c2 a) (c2 b)).

(** Elementwise [a - b] and [a * b] of two [(3,)] arrays. *)
Definition v3_sub : vec3 F -> vec3 F -> vec3 F := v3_map2 sub.
Definition v3_mul : vec3 F -> vec3 F -> vec3 F := v3_map2 mul.

Definition v3_to_list (v : vec3 F) : list F := [c0 v; c1 v; c2 v].

(** [np.zeros((3, ), 'float')] *)
Definition np_zeros3 : vec3 F := V3 zero zero zero.

(** [M[i, j]] *)
Definition m00 (M : mat3 F) : F := c0 (row0 M).
Definition m01 (M : mat3 F) : F := c1 (row0 M).
Definition m02 (M : mat3 F) : F := c2 (row0 M).
Definition m10 (M : mat3 F) : F := c0 (row1 M).
Definition m11 (M : mat3 F) : F := c1 (row1 M).
Definition m12 (M : mat3 F) : F := c2 (row1 M).
Definition m20 (M : mat3 F) : F := c0 (row2 M).
Definition m21 (M : mat3 F) : F := c1 (row2 M).
Definition m22 (M : mat3 F) : F := c2 (row2 M).

(** [M.dot(v)] for a [(3, 3)] array and a [(3,)] array: one inner product
    per row. *)
Definition inner3 (r v : vec3 F) : F :=
  c0 r * c0 v + c1 r * c1 v + c2 r * c2 v.

Definition mat3_dot (M : mat3 F) (v : vec3 F) : vec3 F :=
  V3 (inner3 (row0 M) v) (inner3 (row1 M) v) (inner3 (row2 M) v).

(** [M.flatten()] (row-major) and [np.reshape(a, (3, 3))] of nine numbers. *)
Definition mat3_flatten (M : mat3 F) : list F :=
  v3_to_list (row0 M) ++ v3_to_list (row1 M) ++ v3_to_list (row2 M).

(** [np.eye(3)] *)
Definition np_eye3 : mat3 F :=
  M3 (V3 one zero zero) (V3 zero one zero) (V3 zero zero one).

Definition v9_to_list (v : vec9 F) : list F :=
  [p0 v; p1 v; p2 v; p3 v; p4 v; p5 v; p6 v; p7 v; p8 v].

(** [v[i]] for [i] in [0 .. 8], the only indices the model reads (an
    index past 8 reads the last entry). *)
Definition v9_get {A : Type} (i : nat) (v : vec9 A) : A :=
  match i with
  | 0 => p0 v | 1 => p1 v | 2 => p2 v | 3 => p3 v | 4 => p4 v
  | 5 => p5 v | 6 => p6 v | 7 => p7 v | _ => p8 v
  end%nat.

(** The array whose entry [i] is [f i], for [i] in [0 .. 8]. *)
Definition v9_init {A : Type} (f : nat -> A) : vec9 A :=
  V9 (f 0%nat) (f 1%nat) (f 2%nat) (f 3%nat) (f 4%nat)
     (f 5%nat) (f 6%nat) (f 7%nat) (f 8%nat).

Definition v9_map (f : F -> F) (a : vec9 F) : vec9 F :=
  v9_init (fun i => f (v9_get i a)).

Definition v9_map2 (f : F -> F -> F) (a b : vec9 F) : vec9 F :=
  v9_init (fun i => f (v9_get i a) (v9_get i b)).

(** A sum of the entries of an array, accumulated from the left. *)
Definition sum_list (l : list F) : F := fold_left add l zero.

(** [J.T.dot(J)] for an [(N, 9)] array [J]: entry [(i, j)] is the sum over
    the rows of [J[n, i] * J[n, j]]. *)
Definition JT_dot_J (J : list (vec9 F)) : mat9 F :=
  v9_init (fun i => v9_init (fun j =>
    sum_list (map (fun r => v9_get i r * v9_get j r) J))).

(** [J.T.dot(R)] for an [(N, 9)] array [J] and an [(N,)] array [R]. *)
Definition JT_dot (J : list (vec9 F)) (R : list F) : vec9 F :=
  v9_init (fun i =>
    sum_list (map (fun rn => v9_get i (fst rn) * snd rn) (combine J R))).

(** [D.dot(H)] for a [(9,)] array [D] and a [(9, 9)] array [H]: entry [j]
    is the sum over [i] of [D[i] * H[i, j]]. *)
Definition vec_dot_mat (D : vec9 F) (Hm : mat9 F) : vec9 F :=
  v9_init (fun j =>
    sum_list (map (fun i => v9_get i D * v9_get j (v9_get i Hm)) (seq 0 9))).

(** [np.linalg.norm(R)]: the Euclidean norm. *)
Definition linalg_norm (R : list F) : F :=
  sqroot (sum_list (map (fun r => r * r) R)).

(** Python's builtin [max] over the items of a sequence: the first item,
    replaced by each later item that compares greater.  An item that is
    not greater (a NaN never is) is passed over. *)
Definition py_max (first : F) (rest : list F) : F :=
  fold_left (fun m item => if item >? m then item else m) rest first.

(** Python's builtin [min], the same scan with [<]. *)
Definition py_min (first : F) (rest : list F) : F :=
  fold_left (fun m item => if item <? m then item else m) rest first.
End Arrays.

(** ** Exceptions and results *)

(** The exceptions the modelled code raises, itself or through Python and
    numpy: [PyBerryIMUError] and [ValueError] carry their message. *)
Inductive exn : Type :=
| PyBerryIMUError (msg : string)
| ValueError (msg : string)
| LinAlgError
| ZeroDivisionError
| TypeError
| AttributeError
| IOError.

Inductive result (A : Type) : Type :=
| Ok (a : A)
| Raise (e : exn).
Arguments Ok {A} a.
Arguments Raise {A} e.

Definition bind_result {A B : Type} (r : result A) (k : A -> result B) : result B :=
  match r with
  | Ok a => k a
  | Raise e => Raise e
  end.

Declare Scope result_scope.
Delimit Scope result_scope with result.
Notation "x <- r ;; k" :=
  (bind_result r (fun x => k))
  (at level 61, r at next level, right associativity) : result_scope.

(** ** JSON documents

    What [json.load] returns and [json.dump] writes: the calibration file
    and the settings of the client, which the calibration stores without
    reading them.  A dictionary is the list of its items. *)
#[warnings="-register-all"]
Inductive json (F : Type) : Type :=
| JNull
| JBool (b : bool)
| JInt (z : Z)
| JFloat (x : F)
| JString (s : string)
| JList (items : list (json F))
| JDict (items : list (string * json F)).
Arguments JNull {F}.
Arguments JBool {F} b.
Arguments JInt {F} z.
Arguments JString {F} s.

Section Json.
Context {F : Type} `{Number F}.

Fixpoint lookup (key : string) (items : list (string * json F)) : option (json F) :=
  match items with
  | [] => None
  | (k, v) :: rest => if String.eqb k key then Some v else lookup key rest
  end.

(** [doc.get(key, default)]; [doc] must be a dictionary. *)
Definition dict_get (doc : json F) (key : string) (default : json F)
  : result (json F) :=
  match doc with
  | JDict items =>
      match lookup key items with
      | Some v => Ok v
      | None => Ok default
      end
  | _ => Raise AttributeError
  end.

(** One entry of [np.array(..., 'float')]: a number, or a boolean read as
    [1.0] or [0.0]. *)
Definition to_float (j : json F) : result F :=
  match j with
  | JInt z => Ok (of_Q (inject_Z z))
  | JFloat x => Ok x
  | JBool b => Ok (if b then one else zero)
  | _ => Raise (ValueError "could not convert to float")
  end.

(** [np.array(j, 'float')] for a list of three numbers.  The model keeps
    the shape [(3,)] in the type: a value of another shape, which numpy
    would turn into an array of that shape, is reported as a
    [ValueError]. *)
Definition np_array3 (j : json F) : result (vec3 F) :=
  match j with
  | JList [a; b; c] =>
      (x <- to_float a ;;
       y <- to_float b ;;
       z <- to_float c ;;
       Ok (V3 x y z))%result
  | _ => Raise (ValueError "expected an array of shape (3,)")
  end.

(** [np.reshape(np.array(j, 'float'), (3, 3))] for a list of nine numbers,
    filled row by row. *)
Definition np_reshape33 (j : json F) : result (mat3 F) :=
  match j with
  | JList [a0; a1; a2; a3; a4; a5; a6; a7; a8] =>
      (r0 <- np_array3 (JList [a0; a1; a2]) ;;
       r1 <- np_array3 (JList [a3; a4; a5]) ;;
       r2 <- np_array3 (JList [a6; a7; a8]) ;;
       Ok (M3 r0 r1 r2))%result
  | _ => Raise (ValueError "total size of new array must be unchanged")
  end.

(** [a.tolist()] *)
Definition tolist (l : list F) : json F := JList (map (@JFloat F) l).
End Json.

(** ** The calibration object *)

(** The attributes of a [StandardCalibration] instance.  [None] is [JNull]
    for the settings and [None] for the four accelerometer parameters.  The
    two attributes that hold documents are untyped in Python, and [load]
    stores what it finds in the file. *)
Record StandardCalibration (F : Type) : Type := {
  pyberryimu_version : json F;
  _verbose : bool;
  berryimu_settings : json F;
  acc_zero_g : option (vec3 F);
  acc_sensitivity : option (vec3 F);
  acc_scale_factor_matrix : option (mat3 F);
  acc_bias_vector : option (vec3 F);
  gyro_zero : vec3 F;
  gyro_sensitivity : vec3 F
}.

(** The files the program opens: the document stored under each path. *)
Definition filesystem (F : Type) : Type := string -> option (json F).

(** What one interactive calibration run takes from the client and the
    operator: the settings [client.get_settings()] returns, for each axis
    [index] and each [side] (-1 downwards, 1 upwards) the mean of the
    samples read during the five seconds that follow the operator's
    confirmation, and the means recorded for the additional points, one per
    answer [y] until the answer [n].  The polling of [_wait_for_compliance]
    and the clock are not part of the model: a run is one in which the
    operator completes every pose. *)
Record session (F : Type) : Type := {
  get_settings : json F;
  mean_reading : axis -> Z -> vec3 F;
  additional_readings : list (vec3 F)
}.

(** The local variables of the optimisation loop that live across
    iterations. *)
Record loop_state (F : Type) : Type := {
  st_x : vec9 F;
  st_last_x : vec9 F;
  st_gain : F;
  st_R_prior : F
}.

(** How the [for] loop of the optimisation ends: by [break] with the
    accepted vector, by running out of iterations, or by an exception. *)
Inductive loop_outcome (F : Type) : Type :=
| Converged (x : vec9 F)
| Exhausted (st : loop_state F)
| Failed (e : exn).
Arguments Failed {F} e.

Section Object.
Context {F : Type} `{Number F}.
Local Open Scope num_scope.

(** [from pyberryimu import version]: the package's version string, which
    is defined outside the two modules modelled here. *)
Variable version : string.

Local Notation self_t := (StandardCalibration F).

Definition set_pyberryimu_version (v : json F) (self : self_t) : self_t :=
  {| pyberryimu_version := v;
     _verbose := _verbose self;
     berryimu_settings := berryimu_settings self;
     acc_zero_g := acc_zero_g self;
     acc_sensitivity := acc_sensitivity self;
     acc_scale_factor_matrix := acc_scale_factor_matrix self;
     acc_bias_vector := acc_bias_vector self;
     gyro_zero := gyro_zero self;
     gyro_sensitivity := gyro_sensitivity self |}.

Definition set_berryimu_settings (v : json F) (self : self_t) : self_t :=
  {| pyberryimu_version := pyberryimu_version self;
     _verbose := _verbose self;
     berryimu_settings := v;
     acc_zero_g := acc_zero_g self;
     acc_sensitivity := acc_sensitivity self;
     acc_scale_factor_matrix := acc_scale_factor_matrix self;
     acc_bias_vector := acc_bias_vector self;
     gyro_zero := gyro_zero self;
     gyro_sensitivity := gyro_sensitivity self |}.

Definition set_acc_zero_g (v : option (vec3 F)) (self : self_t) : self_t :=
  {| pyberryimu_version := pyberryimu_version self;
     _verbose := _verbose self;
     berryimu_settings := berryimu_settings self;
     acc_zero_g := v;
     acc_sensitivity := acc_sensitivity self;
     acc_scale_factor_matrix := acc_scale_factor_matrix self;
     acc_bias_vector := acc_bias_vector self;
     gyro_zero := gyro_zero self;
     gyro_sensitivity := gyro_sensitivity self |}.

Definition set_acc_sensitivity (v : option (vec3 F)) (self : self_t) : self_t :=
  {| pyberryimu_version := pyberryimu_version self;
     _verbose := _verbose self;
     berryimu_settings := berryimu_settings self;
     acc_zero_g := acc_zero_g self;
     acc_sensitivity := v;
     acc_scale_factor_matrix := acc_scale_factor_matrix self;
     acc_bias_vector := acc_bias_vector self;
     gyro_zero := gyro_zero self;
     gyro_sensitivity := gyro_sensitivity self |}.

Definition set_acc_scale_factor_matrix (v : option (mat3 F)) (self : self_t)
  : self_t :=
  {| pyberryimu_version := pyberryimu_version self;
     _verbose := _verbose self;
     berryimu_settings := berryimu_settings self;
     acc_zero_g := acc_zero_g self;
     acc_sensitivity := acc_sensitivity self;
     acc_scale_factor_matrix := v;
     acc_bias_vector := acc_bias_vector self;
     gyro_zero := gyro_zero self;
     gyro_sensitivity := gyro_sensitivity self |}.

Definition set_acc_bias_vector (v : option (vec3 F)) (self : self_t) : self_t :=
  {| pyberryimu_version := pyberryimu_version self;
     _verbose := _verbose self;
     berryimu_settings := berryimu_settings self;
     acc_zero_g := acc_zero_g self;
     acc_sensitivity := acc_sensitivity self;
     acc_scale_factor_matrix := acc_scale_factor_matrix self;
     acc_bias_vector := v;
     gyro_zero := gyro_zero self;
     gyro_sensitivity := gyro_sensitivity self |}.

Definition set_gyro_zero (v : vec3 F) (self : self_t) : self_t :=
  {| pyberryimu_version := pyberryimu_version self;
     _verbose := _verbose self;
     berryimu_settings := berryimu_settings self;
     acc_zero_g := acc_zero_g self;
     acc_sensitivity := acc_sensitivity self;
     acc_scale_factor_matrix := acc_scale_factor_matrix self;
     acc_bias_vector := acc_bias_vector self;
     gyro_zero := v;
     gyro_sensitivity := gyro_sensitivity self |}.

Definition set_gyro_sensitivity (v : vec3 F) (self : self_t) : self_t :=
  {| pyberryimu_version := pyberryimu_version self;
     _verbose := _verbose self;
     berryimu_settings := berryimu_settings self;
     acc_zero_g := acc_zero_g self;
     acc_sensitivity := acc_sensitivity self;
     acc_scale_factor_matrix := acc_scale_factor_matrix self;
     acc_bias_vector := acc_bias_vector self;
     gyro_zero := gyro_zero self;
     gyro_sensitivity := v |}.

(** [StandardCalibration.__init__] *)
Definition __init__ (verbose : bool) : self_t :=
  {| pyberryimu_version := JString version;
     _verbose := verbose;
     berryimu_settings := JNull;
     acc_zero_g := None;
     acc_sensitivity := None;
     acc_scale_factor_matrix := None;
     acc_bias_vector := None;
     gyro_zero := V3 zero zero zero;
     gyro_sensitivity := V3 one one one |}.

(** *** [load] and [save] *)

Definition int_list (l : list Z) : json F := JList (map (@JInt F) l).

(** [StandardCalibration.load]: [open] raises [IOError] when the file is
    missing; [json.load] returns the stored document. *)
Definition load (doc_path : string) (fs : filesystem F) : result self_t :=
  match fs doc_path with
  | None => Raise IOError
  | Some doc =>
      (let out := __init__ false in
       (* Transfer BerryIMU settings. *)
       settings <- dict_get doc "pyberryimu_version" (JString version) ;;
       let out := set_berryimu_settings settings out in
       vers <- dict_get doc "BerryIMU_settings" (JDict []) ;;
       let out := set_pyberryimu_version vers out in
       (* Parse accelerometer calibration values. *)
       acc_doc <- dict_get doc "accelerometer" (JDict []) ;;
       j <- dict_get acc_doc "zero" (int_list [0; 0; 0]%Z) ;;
       a <- np_array3 j ;;
       let out := set_acc_zero_g (Some a) out in
       j <- dict_get acc_doc "sensitivity" (int_list [1; 1; 1]%Z) ;;
       a <- np_array3 j ;;
       let out := set_acc_sensitivity (Some a) out in
       j <- dict_get acc_doc "scale_factor" (tolist (mat3_flatten np_eye3)) ;;
       a <- np_reshape33 j ;;
       let out := set_acc_scale_factor_matrix (Some a) out in
       j <- dict_get acc_doc "bias" (int_list [0; 0; 0]%Z) ;;
       a <- np_array3 j ;;
       let out := set_acc_bias_vector (Some a) out in
       (* Parse gyroscope calibration values. *)
       gyro_doc <- dict_get doc "gyroscope" (JDict []) ;;
       j <- dict_get gyro_doc "zero" (int_list [0; 0; 0]%Z) ;;
       a <- np_array3 j ;;
       let out := set_gyro_zero a out in
       j <- dict_get gyro_doc "sensitivity" (int_list [1; 1; 1]%Z) ;;
       a <- np_array3 j ;;
       let out := set_gyro_sensitivity a out in
       Ok out)%result
  end.

(** The document [save] builds inside its [try]: an attribute that is
    still [None] has no [tolist], and the [except] clause turns the
    failure into a [PyBerryIMUError]. *)
Definition save_doc (self : self_t) : result (json F) :=
  match acc_zero_g self, acc_sensitivity self,
        acc_scale_factor_matrix self, acc_bias_vector self with
  | Some z, Some s, Some M, Some b =>
      Ok (JDict
        [ ("BerryIMU_settings", berryimu_settings self);
          ("accelerometer", JDict
             [ ("zero", tolist (v3_to_list z));
               ("sensitivity", tolist (v3_to_list s));
               ("scale_factor", tolist (mat3_flatten M));
               ("bias", tolist (v3_to_list b)) ]);
          ("gyro", JDict
             [ ("zero", tolist (v3_to_list (gyro_zero self)));
               ("sensitivity", tolist (v3_to_list (gyro_sensitivity self))) ]) ]%string)
  | _, _, _, _ => Raise (PyBerryIMUError "Could not save ")
  end.

Definition write_file (path : string) (doc : json F) (fs : filesystem F)
  : filesystem F :=
  fun p => if String.eqb p path then Some doc else fs p.

(** [StandardCalibration.save]: [json.dump] writes the document to
    [save_path]. *)
Definition save (self : self_t) (save_path : string) (fs : filesystem F)
  : result (filesystem F) :=
  (doc <- save_doc self ;;
   Ok (write_file save_path doc fs))%result.

(** [StandardCalibration.to_json] *)
Definition to_json (self : self_t) : result (json F) :=
  match acc_zero_g self, acc_sensitivity self,
        acc_scale_factor_matrix self, acc_bias_vector self with
  | Some z, Some s, Some M, Some b =>
      Ok (JDict
        [ ("pyberryimu_version", JString version);
          ("BerryIMU_settings", berryimu_settings self);
          ("accelerometer", JDict
             [ ("zero", tolist (v3_to_list z));
               ("sensitivity", tolist (v3_to_list s));
               ("scale_factor", tolist (mat3_flatten M));
               ("bias", tolist (v3_to_list b)) ]);
          ("gyro", JDict
             [ ("zero", tolist (v3_to_list (gyro_zero self)));
               ("sensitivity", tolist (v3_to_list (gyro_sensitivity self))) ]) ]%string)
  | _, _, _, _ => Raise AttributeError
  end.

(** *** Methods that assign to attributes

    A method takes the object and returns the object as it leaves it,
    together with its value or the exception it raises.  What was
    assigned before a [raise] stays assigned. *)
Definition method (A : Type) : Type := self_t -> self_t * result A.

Definition ret {A : Type} (a : A) : method A := fun self => (self, Ok a).

Definition raise {A : Type} (e : exn) : method A := fun self => (self, Raise e).

Definition bind {A B : Type} (c : method A) (k : A -> method B) : method B :=
  fun self =>
    match c self with
    | (self', Ok a) => k a self'
    | (self', Raise e) => (self', Raise e)
    end.

Definition assign (f : self_t -> self_t) : method unit :=
  fun self => (f self, Ok tt).

Definition read {A : Type} (f : self_t -> A) : method A :=
  fun self => (self, Ok (f self)).
End Object.

Declare Scope method_scope.
Delimit Scope method_scope with method.
Notation "x <- c ;; k" :=
  (bind c (fun x => k))
  (at level 61, c at next level, right associativity) : method_scope.
Notation "c ;; k" :=
  (bind c (fun _ => k))
  (at level 61, right associativity) : method_scope.

Section Calibration.
Context {F : Type} `{Number F}.
Local Open Scope num_scope.

(** [np.linalg.inv], which raises [LinAlgError] on a singular matrix.
    numpy is not part of the repository: the routine is a parameter of
    the model. *)
Variable linalg_inv : mat9 F -> result (mat9 F).

Local Notation self_t := (StandardCalibration F).

(** *** The six-point pass *)

(** Python's true division of two floats ([from __future__ import
    division]): a zero divisor raises. *)
Definition py_div (a b : F) : result F :=
  if b =? zero then Raise ZeroDivisionError else Ok (a / b).

(** The two readings of one axis, [side] -1 first, as they are appended to
    [points]. *)
Definition axis_points (client : session F) (index : axis) : list (vec3 F) :=
  [mean_reading client index (-1)%Z; mean_reading client index 1%Z].

(** [v_max, v_min = max(this_axis_points), min(this_axis_points)], where
    [this_axis_points] holds [points[-1][index]] of the two points of the
    axis. *)
Definition v_max (client : session F) (index : axis) : F :=
  py_max (v3_get index (mean_reading client index (-1)%Z))
         [v3_get index (mean_reading client index 1%Z)].

Definition v_min (client : session F) (index : axis) : F :=
  py_min (v3_get index (mean_reading client index (-1)%Z))
         [v3_get index (mean_reading client index 1%Z)].

(** The body of [for index in xrange(3)] once the two points of the axis
    are recorded (lines 217-219): the assignments to
    [self.acc_zero_g[index]] and [self.acc_sensitivity[index]]. *)
Definition six_point_axis (client : session F) (index : axis) : method (F:=F) unit :=
  (let v_max := v_max client index in
   let v_min := v_min client index in
   zero_g <- read (@acc_zero_g F) ;;
   match zero_g with
   | None => raise TypeError
   | Some z =>
       assign (set_acc_zero_g (Some (v3_set index ((v_max + v_min) / two) z))) ;;
       match py_div two (v_max - v_min) with
       | Raise e => raise e
       | Ok s =>
           sensitivity <- read (@acc_sensitivity F) ;;
           match sensitivity with
           | None => raise TypeError
           | Some v => assign (set_acc_sensitivity (Some (v3_set index s v)))
           end
       end
   end)%method.

(** [_do_six_point_one_g_calibration] *)
Definition _do_six_point_one_g_calibration (client : session F)
  : method (F:=F) (list (vec3 F)) :=
  (assign (set_acc_zero_g (Some np_zeros3)) ;;
   assign (set_acc_sensitivity (Some np_zeros3)) ;;
   six_point_axis client AxisX ;;
   six_point_axis client AxisY ;;
   six_point_axis client AxisZ ;;
   ret (axis_points client AxisX ++ axis_points client AxisY
        ++ axis_points client AxisZ))%method.

(** [_add_additional_points]: the points recorded until the operator
    answers [n]. *)
Definition _add_additional_points (client : session F)
  : method (F:=F) (list (vec3 F)) :=
  ret (additional_readings client).

(** *** The optimisation *)

(** [error_function = lambda M, b, y: np.sum((M.dot((b - y)) ** 2)) - 1] *)
Definition error_function (M : mat3 F) (b y : vec3 F) : F :=
  let w := mat3_dot M (v3_sub b y) in
  c0 w * c0 w + c1 w * c1 w + c2 w * c2 w - one.

(** [_jacobian]: the nine entries of [jac], written as in the source with
    [Mij] for [M_mat[i, j]], [bi] for [b_vec[i]] and [yi] for
    [point[i]]. *)
Definition _jacobian (M_mat : mat3 F) (b_vec point : vec3 F) : vec9 F :=
  let M00 := m00 M_mat in let M01 := m01 M_mat in let M02 := m02 M_mat in
  let M11 := m11 M_mat in let M12 := m12 M_mat in let M22 := m22 M_mat in
  let b0 := c0 b_vec in let b1 := c1 b_vec in let b2 := c2 b_vec in
  let y0 := c0 point in let y1 := c1 point in let y2 := c2 point in
  {| p0 := two * (b0 - y0) * (
       M00 * (b0 - y0) + M01 * (b1 - y1) + M02 * (b2 - y2));
     p1 := two * (b1 - y1) * (
       M00 * (b0 - y0) + M01 * (b1 - y1) + M02 * (b2 - y2))
         + two * (b0 - y0) * (
       M01 * (b0 - y0) + M11 * (b1 - y1) + M12 * (b2 - y2));
     p2 := two * (b0 - y0) * (
       M02 * (b0 - y0) + M12 * (b1 - y1) + M22 * (b2 - y2))
         + two * (b2 - y2) * (
       M00 * (b0 - y0) + M01 * (b1 - y1) + M02 * (b2 - y2));
     p3 := two * (b1 - y1) * (
       M01 * (b0 - y0) + M11 * (b1 - y1) + M12 * (b2 - y2));
     p4 := two * (b1 - y1) * (
       M02 * (b0 - y0) + M12 * (b1 - y1) + M22 * (b2 - y2))
         + two * (b2 - y2) * (
       M01 * (b0 - y0) + M11 * (b1 - y1) + M12 * (b2 - y2));
     p5 := two * (b2 - y2) * (
       M02 * (b0 - y0) + M12 * (b1 - y1) + M22 * (b2 - y2));
     p6 := two * M00 * (
       M00 * (b0 - y0) + M01 * (b1 - y1) + M02 * (b2 - y2))
         + two * M01 * (
       M01 * (b0 - y0) + M11 * (b1 - y1) + M12 * (b2 - y2))
         + two * M02 * (
       M02 * (b0 - y0) + M12 * (b1 - y1) + M22 * (b2 - y2));
     p7 := two * M01 * (
       M00 * (b0 - y0) + M01 * (b1 - y1) + M02 * (b2 - y2))
         + two * M11 * (
       M01 * (b0 - y0) + M11 * (b1 - y1) + M12 * (b2 - y2))
         + two * M12 * (
       M02 * (b0 - y0) + M12 * (b1 - y1) + M22 * (b2 - y2));
     p8 := two * M02 * (
       M00 * (b0 - y0) + M01 * (b1 - y1) + M02 * (b2 - y2))
         + two * M12 * (
       M01 * (b0 - y0) + M11 * (b1 - y1) + M12 * (b2 - y2))
         + two * M22 * (
       M02 * (b0 - y0) + M12 * (b1 - y1) + M22 * (b2 - y2)) |}.

(** [optvec_to_M_and_b]:
    [np.array([[v[0], v[1], v[2]], [v[1], v[3], v[4]], [v[2], v[4], v[5]]]), v[6:].copy()] *)
Definition optvec_to_M_and_b (v : vec9 F) : mat3 F * vec3 F :=
  (M3 (V3 (p0 v) (p1 v) (p2 v))
      (V3 (p1 v) (p3 v) (p4 v))
      (V3 (p2 v) (p4 v) (p5 v)),
   V3 (p6 v) (p7 v) (p8 v)).

Definition damping : F := of_Q 0.01.
Definition tolerance : F := of_Q 1e-9.
Definition nbr_iterations : nat := 200.

(** The state on entry to the loop: [gain = 1], [R_prior = 100000],
    [x = np.array([5, 0.5, 0.5, 5, 0.5, 5, 0.5, 0.5, 0.5])] and
    [last_x = x.copy()]. *)
Definition initial_x : vec9 F :=
  V9 (of_Q 5) (of_Q 0.5) (of_Q 0.5) (of_Q 5) (of_Q 0.5) (of_Q 5)
     (of_Q 0.5) (of_Q 0.5) (of_Q 0.5).

Definition initial_state : loop_state F :=
  {| st_x := initial_x;
     st_last_x := initial_x;
     st_gain := of_Q 1;
     st_R_prior := of_Q 100000 |}.

(** The elementwise [2 * (x - last_x) / (x + last_x)].  numpy divides entry
    by entry; on a zero divisor it warns and stores the IEEE-754 quotient,
    it does not raise. *)
Definition relative_change (x last_x : vec9 F) : vec9 F :=
  v9_map2 div (v9_map (mul two) (v9_map2 sub x last_x)) (v9_map2 add x last_x).

(** The condition of line 360:
    [abs(max(2 * (x - last_x) / (x + last_x))) <= tolerance], and its left
    hand side. *)
Definition criterion_value (x last_x : vec9 F) : F :=
  let r := relative_change x last_x in
  absolute (py_max (p0 r) [p1 r; p2 r; p3 r; p4 r; p5 r; p6 r; p7 r; p8 r]).

Definition convergence_criterion (x last_x : vec9 F) : bool :=
  criterion_value x last_x <=? tolerance.

(** One pass through the body of [for n in xrange(nbr_iterations)]: the
    next state, or the vector at which the loop breaks. *)
Definition iteration (points : list (vec3 F)) (st : loop_state F)
  : result (loop_state F + vec9 F) :=
  (let '(M, b) := optvec_to_M_and_b (st_x st) in
   let R := map (fun point => error_function M b point) points in
   let J := map (fun point => _jacobian M b point) points in
   (* Calculate Hessian, Gain matrix and apply it to solution vector. *)
   Hm <- linalg_inv (JT_dot_J J) ;;
   let D := JT_dot J R in
   let x := v9_map2 sub (st_x st)
              (v9_map (mul (st_gain st)) (vec_dot_mat D Hm)) in
   let R_post := linalg_norm R in
   let gain :=
     if R_post <=? st_R_prior st
     then st_gain st - damping * st_gain st
     else st_gain st * damping in
   if convergence_criterion x (st_last_x st)
   then Ok (inr x)
   else Ok (inl {| st_x := x; st_last_x := x;
                   st_gain := gain; st_R_prior := R_post |}))%result.

(** The [for] loop, [n] iterations from the state [st]. *)
Fixpoint optimisation_loop (n : nat) (points : list (vec3 F))
  (st : loop_state F) : loop_outcome F :=
  match n with
  | O => Exhausted st
  | S n' =>
      match iteration points st with
      | Raise e => Failed e
      | Ok (inr x) => Converged x
      | Ok (inl st') => optimisation_loop n' points st'
      end
  end.

(** The values the criterion compares with the tolerance in the iterations
    after which the loop goes on, for reading a run. *)
Fixpoint criterion_values (n : nat) (points : list (vec3 F))
  (st : loop_state F) : list F :=
  match n with
  | O => []
  | S n' =>
      match iteration points st with
      | Ok (inl st') =>
          criterion_value (st_x st') (st_last_x st)
            :: criterion_values n' points st'
      | _ => []
      end
  end.

(** [_perform_calibration_optimisation] *)
Definition _perform_calibration_optimisation (points : list (vec3 F))
  : method (F:=F) unit :=
  let nbr_points := List.length points in
  if (nbr_points <? 9)%nat
  then raise (ValueError
         "Need at least 9 Measurements for the calibration procedure!")
  else
    match optimisation_loop nbr_iterations points initial_state with
    | Failed e => raise e
    | Converged x =>
        let '(M, b) := optvec_to_M_and_b x in
        (assign (set_acc_scale_factor_matrix (Some M)) ;;
         assign (set_acc_bias_vector (Some b)))%method
    | Exhausted _ => ret tt
    end.

(** [calibrate_accelerometer] *)
Definition calibrate_accelerometer (client : session F) : method (F:=F) unit :=
  (zero_g <- read (@acc_zero_g F) ;;
   match zero_g with
   | Some _ => raise (PyBerryIMUError "This object has already been calibrated!")
   | None =>
       assign (set_berryimu_settings (get_settings client)) ;;
       points <- _do_six_point_one_g_calibration client ;;
       more <- _add_additional_points client ;;
       let points := points ++ more in
       (* Apply the zero G and sensitivity knowledge and then run optimisation. *)
       zero_g <- read (@acc_zero_g F) ;;
       sensitivity <- read (@acc_sensitivity F) ;;
       match zero_g, sensitivity with
       | Some z, Some s =>
           _perform_calibration_optimisation
             (map (fun point => v3_mul (v3_sub point z) s) points)
       | _, _ => raise TypeError
       end
   end)%method.

(** [transform_accelerometer_values]: an attribute that is still [None]
    makes the arithmetic raise. *)
Definition transform_accelerometer_values (self : self_t) (acc_values : vec3 F)
  : result (vec3 F) :=
  match acc_zero_g self, acc_sensitivity self with
  | Some z, Some s =>
      let raw_g_values := v3_mul (v3_sub acc_values z) s in
      match acc_scale_factor_matrix self with
      | None => Raise AttributeError
      | Some M =>
          match acc_bias_vector self with
          | None => Raise TypeError
          | Some b => Ok (mat3_dot M (v3_sub raw_g_values b))
          end
      end
  | _, _ => Raise TypeError
  end.
End Calibration.

(** ** An inverse to run the model with

    [np.linalg.inv] is numpy's: LAPACK's LU factorisation with partial
    pivoting, which reports a pivot that is exactly zero as a singular
    matrix.  To evaluate the optimisation on concrete points the parameter
    [linalg_inv] is instantiated with the elimination below, Gauss-Jordan
    with partial pivoting on [[A | I]].  On [binary64] it can differ from
    LAPACK in the last bits of an entry; the decisions evaluated with it
    below are taken with margins many orders of magnitude wider. *)
Section Inverse.
Context {F : Type} `{Number F}.
Local Open Scope num_scope.

Definition row_scale (a : F) (r : list F) : list F :=
  map (fun e => e / a) r.

(** [r - f * pr], entry by entry. *)
Definition row_sub (r : list F) (f : F) (pr : list F) : list F :=
  map (fun ep => fst ep - f * snd ep) (combine r pr).

(** The index, among the rows [k ..], of an entry of column [k] of
    largest magnitude. *)
Fixpoint pivot_search (k : nat) (rows : list (list F)) (i best : nat)
  (best_mag : F) : nat :=
  match rows with
  | [] => best
  | r :: rest =>
      let mag := absolute (nth k r zero) in
      if Nat.leb k i && (best_mag <? mag)
      then pivot_search k rest (S i) i mag
      else pivot_search k rest (S i) best best_mag
  end.

Definition swap_rows (i j : nat) (A : list (list F)) : list (list F) :=
  let ri := nth i A [] in
  let rj := nth j A [] in
  map (fun nr => if Nat.eqb (fst nr) i then rj
                 else if Nat.eqb (fst nr) j then ri else snd nr)
      (combine (seq 0 (List.length A)) A).

(** Column [k]: bring the pivot to row [k], scale the row to a unit
    pivot, clear the column in the other rows. *)
Definition eliminate (k : nat) (A : list (list F)) : result (list (list F)) :=
  let piv := pivot_search k A 0 k (absolute (nth k (nth k A []) zero)) in
  let A := swap_rows k piv A in
  let pr := nth k A [] in
  let a := nth k pr zero in
  if a =? zero then Raise LinAlgError
  else
    let pr' := row_scale a pr in
    Ok (map (fun nr => if Nat.eqb (fst nr) k then pr'
                       else row_sub (snd nr) (nth k (snd nr) zero) pr')
            (combine (seq 0 (List.length A)) A)).

Fixpoint eliminate_columns (ks : list nat) (A : list (list F))
  : result (list (list F)) :=
  match ks with
  | [] => Ok A
  | k :: rest =>
      match eliminate k A with
      | Raise e => Raise e
      | Ok A' => eliminate_columns rest A'
      end
  end.

Definition unit_row (i : nat) : list F :=
  map (fun j => if Nat.eqb i j then one else zero) (seq 0 9).

Definition v9_of_list (l : list F) : vec9 F :=
  v9_init (fun i => nth i l zero).

Definition gauss_jordan_inv (A : mat9 F) : result (mat9 F) :=
  let rows := map (fun i => v9_to_list (v9_get i A) ++ unit_row i) (seq 0 9) in
  match eliminate_columns (seq 0 9) rows with
  | Raise e => Raise e
  | Ok R => Ok (v9_init (fun i => v9_of_list (skipn 9 (nth i R []))))
  end.
End Inverse.

(** ** Runs used in the statements below *)

(** A run in which every axis-aligned pose reads [lo] on the axis under
    test when it points downwards and [hi] when it points upwards, and
    nothing on the two other axes; [extra] are the additional points. *)
Definition axis_session {F : Type} `{Number F} (lo hi : F)
  (extra : list (vec3 F)) : session F :=
  {| get_settings := JDict [];
     mean_reading := fun index side =>
       v3_set index (if (side <? 0)%Z then lo else hi) np_zeros3;
     additional_readings := extra |}.

(** The optimisation read over the real numbers: the residual of one point
    as a function of the optimisation vector, and the row of the Jacobian
    the program computes for it. *)
Definition residual (x : vec9 R) (V : vec3 R) : R :=
  error_function (fst (optvec_to_M_and_b x)) (snd (optvec_to_M_and_b x)) V.

Definition jacobian_row (x : vec9 R) (V : vec3 R) : vec9 R :=
  _jacobian (fst (optvec_to_M_and_b x)) (snd (optvec_to_M_and_b x)) V.

(** An object with the four accelerometer parameters set. *)
Definition calibrated_example : StandardCalibration float :=
  {| pyberryimu_version := JString "0.1.0";
     _verbose := false;
     berryimu_settings := JDict [("acc_setup", JInt 1)]%string;
     acc_zero_g := Some (V3 200 200 200)%float;
     acc_sensitivity := Some (V3 0.001 0.001 0.001)%float;
     acc_scale_factor_matrix :=
       Some (M3 (V3 1 0.5 0) (V3 0.5 1 0) (V3 0 0 1))%float;
     acc_bias_vector := Some (V3 0.25 0 0)%float;
     gyro_zero := (V3 0 0 0)%float;
     gyro_sensitivity := (V3 1 1 1)%float |}.

(** A double that is NaN or plus infinity, read through its IEEE-754
    decoding. *)
Definition SF_nan_or_pinf (f : float) : Prop :=
  Prim2SF f = S754_nan \/ Prim2SF f = S754_infinity false.

(** The nine points of a run over the real numbers: the six unit points of
    the axes and three points off the unit sphere. *)
Definition real_points : list (vec3 R) :=
  ([V3 (-1) 0 0; V3 1 0 0; V3 0 (-1) 0; V3 0 1 0; V3 0 0 (-1); V3 0 0 1;
   V3 1 1 0; V3 0 1 1; V3 1 0 1])%R.

(** The Jacobian and the residuals of these points at the initial guess,
    their normal matrix [J.T.dot(J)] and its inverse. *)
Definition real_jacobian : list (vec9 R) :=
  ([V9 24 (37/2) (37/2) (7/2) 7 (7/2) 87 (93/2) (93/2);
   V9 2 (-9/2) (-9/2) (5/2) 5 (5/2) (-15) (51/2) (51/2);
   V9 (7/2) (37/2) 7 24 (37/2) (7/2) (93/2) 87 (93/2);
   V9 (5/2) (-9/2) 5 2 (-9/2) (5/2) (51/2) (-15) (51/2);
   V9 (7/2) 7 (37/2) (7/2) (37/2) 24 (93/2) (93/2) 87;
   V9 (5/2) 5 (-9/2) (5/2) (-9/2) 2 (51/2) (51/2) (-15);
   V9 (5/2) 5 (-9/2) (5/2) (-9/2) 2 (-51/2) (-51/2) 15;
   V9 2 (-9/2) (-9/2) (5/2) 5 (5/2) 15 (-51/2) (-51/2);
   V9 (5/2) (-9/2) 5 2 (-9/2) (5/2) (-51/2) 15 (-51/2)])%R.

Definition real_residuals : list R :=
  [175/2; 31/2; 175/2; 31/2; 175/2; 31/2; 31/2; 31/2; 31/2]%R.

Definition real_normal_matrix : mat9 R :=
  (V9 (V9 (1267/2) (2071/4) (2071/4) (851/4) (545/2) (851/4) (4827/2) (6333/4) (6333/4))
     (V9 (2071/4) (1729/2) (2207/4) (2071/4) (2207/4) (545/2) (11181/4) (11181/4) (4659/2))
     (V9 (2071/4) (2207/4) (1729/2) (545/2) (2207/4) (2071/4) (11181/4) (4659/2) (11181/4))
     (V9 (851/4) (2071/4) (545/2) (1267/2) (2071/4) (851/4) (6333/4) (4827/2) (6333/4))
     (V9 (545/2) (2207/4) (2207/4) (2071/4) (1729/2) (2071/4) (4659/2) (11181/4) (11181/4))
     (V9 (851/4) (545/2) (2071/4) (851/4) (2071/4) (1267/2) (6333/4) (6333/4) (4827/2))
     (V9 (4827/2) (11181/4) (11181/4) (6333/4) (4659/2) (6333/4) (29889/2) (40095/4) (40095/4))
     (V9 (6333/4) (11181/4) (4659/2) (4827/2) (11181/4) (6333/4) (40095/4) (29889/2) (40095/4))
     (V9 (6333/4) (4659/2) (11181/4) (6333/4) (11181/4) (4827/2) (40095/4) (40095/4) (29889/2)))%R.

Definition real_inverse : mat9 R :=
  (V9 (V9 (1679/285768) (-977/571536) (-977/571536) (67/285768) (341/190512) (67/285768) (-923/1469664) (-11/1469664) (-11/1469664))
     (V9 (-977/571536) (27289/4572288) (115/1524096) (-977/571536) (115/1524096) (341/190512) (-2141/5878656) (-2141/5878656) (-2333/5878656))
     (V9 (-977/571536) (115/1524096) (27289/4572288) (341/190512) (115/1524096) (-977/571536) (-2141/5878656) (-2333/5878656) (-2141/5878656))
     (V9 (67/285768) (-977/571536) (341/190512) (1679/285768) (-977/571536) (67/285768) (-11/1469664) (-923/1469664) (-11/1469664))
     (V9 (341/190512) (115/1524096) (115/1524096) (-977/571536) (27289/4572288) (-977/571536) (-2333/5878656) (-2141/5878656) (-2141/5878656))
     (V9 (67/285768) (341/190512) (-977/571536) (67/285768) (-977/571536) (1679/285768) (-11/1469664) (-11/1469664) (-923/1469664))
     (V9 (-923/1469664) (-2141/5878656) (-2141/5878656) (-11/1469664) (-2333/5878656) (-11/1469664) (209/629856) (17/629856) (17/629856))
     (V9 (-11/1469664) (-2141/5878656) (-2333/5878656) (-923/1469664) (-2141/5878656) (-11/1469664) (17/629856) (209/629856) (17/629856))
     (V9 (-11/1469664) (-2333/5878656) (-2141/5878656) (-11/1469664) (-2141/5878656) (-923/1469664) (17/629856) (17/629856) (209/629856)))%R.

(** The Gauss-Newton step [(J.T.dot(R)).dot(inverse)] at the initial guess,
    and the vector the first iteration moves to. *)
Definition first_step : vec9 R :=
  (V9 (43/18) (11/36) (11/36) (43/18) (11/36) (43/18) 0 0 0)%R.

Definition real_next_x : vec9 R :=
  v9_map2 sub initial_x (v9_map (mul (st_gain initial_state)) first_step).


(** * More of the calibration module

    The parts of [standard.py] that the statements above do not need: the
    gyroscope and magnetometer methods, the polling that precedes each
    axis-aligned point, and the dialogue that records the additional
    points. *)

(** The exceptions of this part and of the client: those above, and four
    more that Python raises here. *)
Inductive exception : Type :=
| Std (e : exn)
| IndexError
| EOFError
| NotImplementedError (msg : string)
| RuntimeError (msg : string).

Inductive outcome (A : Type) : Type :=
| Returns (a : A)
| Raises (e : exception).
Arguments Returns {A} a.
Arguments Raises {A} e.

(** Python 2's [cmp] on two integers. *)
Definition py_cmp (a b : Z) : Z :=
  match (a ?= b)%Z with
  | Lt => (-1)%Z
  | Eq => 0%Z
  | Gt => 1%Z
  end.

Section Polling.
Context {F : Type} `{Number F}.
Local Open Scope num_scope.

(** [transform_gyroscope_values] *)
Definition transform_gyroscope_values (self : StandardCalibration F)
  (gyro_values : vec3 F) : vec3 F :=
  v3_mul (v3_sub gyro_values (gyro_zero self)) (gyro_sensitivity self).

(** [transform_magnetometer_values] *)
Definition transform_magnetometer_values (self : StandardCalibration F)
  (mag_values : vec3 F) : vec3 F :=
  mag_values.

(** [calibrate_gyroscope] *)
Definition calibrate_gyroscope (self : StandardCalibration F)
  (client : session F) : StandardCalibration F * outcome unit :=
  (self, Raises (NotImplementedError "This has not been implemented yet.")).

(** An integer of the program as a number. *)
Definition of_int (z : Z) : F := of_Q (inject_Z z).

(** The test of [_wait_for_compliance] on one sample [a], a tuple of three
    integers as [read_accelerometer] returns it:
    [norm_a = np.linalg.norm(a)],
    [norm_diff = np.abs(np.abs(a[index]) - norm_a) / norm_a], and
    [norm_diff < 0.05 and cmp(a[index], 0) == side].  The sum of squares is
    exact for 16-bit readings. *)
Definition norm_diff (index : axis) (a : vec3 Z) : F :=
  let norm_a := sqroot (of_int (c0 a * c0 a + c1 a * c1 a + c2 a * c2 a)) in
  absolute (of_int (Z.abs (v3_get index a)) - norm_a) / norm_a.

Definition compliant (index : axis) (side : Z) (a : vec3 Z) : bool :=
  (norm_diff index a <? of_Q 0.05)
  && (py_cmp (v3_get index a) 0 =? side)%Z.

(** [_wait_for_compliance], run on the samples the client will return, in
    order: [keep_waiting] starts at 10, goes down by one on a compliant
    sample and back to 10 on any other, and the function returns when it
    reaches 0.  The value is the list of samples not yet read; [None] when
    the samples run out first (the function is still polling). *)
Fixpoint wait_for_compliance_from (index : axis) (side : Z)
  (samples : list (vec3 Z)) (keep_waiting : nat) : option (list (vec3 Z)) :=
  match keep_waiting with
  | O => Some samples
  | S k =>
      match samples with
      | [] => None
      | a :: rest =>
          if compliant index side a
          then wait_for_compliance_from index side rest k
          else wait_for_compliance_from index side rest 10
      end
  end.

Definition _wait_for_compliance (index : axis) (side : Z)
  (samples : list (vec3 Z)) : option (list (vec3 Z)) :=
  wait_for_compliance_from index side samples 10.

(** The loop of [_add_additional_points], run on the lines the operator
    types ([raw_input] raises [EOFError] when there is none left).  After
    an answer [y] one more line is read and discarded, and the mean of the
    samples of the next five seconds, [gathered k] for point number [k], is
    appended; [n] ends the loop; any other answer is passed over.  The
    value is the list of points and the lines not yet read. *)
Fixpoint additional_points_dialogue (gathered : nat -> vec3 F)
  (lines : list string) (points : list (vec3 F))
  : outcome (list (vec3 F) * list string) :=
  match lines with
  | [] => Raises EOFError
  | ch :: rest =>
      if String.eqb ch "y" then
        match rest with
        | [] => Raises EOFError
        | _ :: rest' =>
            additional_points_dialogue gathered rest'
              (points ++ [gathered (List.length points)])
        end
      else if String.eqb ch "n" then Returns (points, rest)
      else additional_points_dialogue gathered rest points
  end.
End Polling.

(** A matrix equal to its transpose. *)
Definition symmetric {F : Type} (M : mat3 F) : Prop :=
  c1 (row0 M) = c0 (row1 M) /\ c2 (row0 M) = c0 (row2 M)
  /\ c2 (row1 M) = c1 (row2 M).

(** A method that leaves an attribute as it found it, whatever it returns
    or raises. *)
Definition keeps {F A B : Type} (attribute : StandardCalibration F -> A)
  (m : method (F:=F) B) : Prop :=
  forall self, attribute (fst (m self)) = attribute self.

(** Runs of the polling used in the statements below: [n] samples of a
    board lying flat, z axis upwards. *)
Definition upright (n : nat) : list (vec3 Z) := repeat (V3 12 (-7) 1000)%Z n.

(** * The client

    [client.py]: the [BerryIMUClient] that reads the sensors over the I2C
    bus. *)
Module Client.

(** [pyberryimu.sensors] is not among the sources: the addresses and the
    registers of the two chips are parameters of the model. *)
Record LSM9DS0_t : Type := {
  ACC_ADDRESS : Z; GYR_ADDRESS : Z; MAG_ADDRESS : Z;
  CTRL_REG1_XM : Z; CTRL_REG2_XM : Z;
  CTRL_REG5_XM : Z; CTRL_REG6_XM : Z; CTRL_REG7_XM : Z;
  CTRL_REG1_G : Z; CTRL_REG4_G : Z;
  OUT_X_L_A : Z; OUT_X_H_A : Z; OUT_Y_L_A : Z; OUT_Y_H_A : Z;
  OUT_Z_L_A : Z; OUT_Z_H_A : Z;
  OUT_X_L_G : Z; OUT_X_H_G : Z; OUT_Y_L_G : Z; OUT_Y_H_G : Z;
  OUT_Z_L_G : Z; OUT_Z_H_G : Z;
  OUT_X_L_M : Z; OUT_X_H_M : Z; OUT_Y_L_M : Z; OUT_Y_H_M : Z;
  OUT_Z_L_M : Z; OUT_Z_H_M : Z
}.

Record BMP180_t : Type := {
  ADDRESS : Z; CALIB_DATA_REG : Z; CHIP_ID_REG : Z; WRITE_REG : Z; READ_REG : Z
}.

(** The [smbus] package is not among the sources either.  [world] is the
    state of the bus and of the chips on it, [handle] the object
    [SMBus(bus_no)] returns; every call may raise. *)
Record smbus_t (world handle : Type) : Type := {
  SMBus : Z -> world -> world * outcome handle;
  bus_close : handle -> world -> world * outcome unit;
  write_byte_data : handle -> Z -> Z -> Z -> world -> world * outcome unit;
  read_byte_data : handle -> Z -> Z -> world -> world * outcome Z;
  read_i2c_block_data :
    handle -> Z -> Z -> Z -> world -> world * outcome (list Z)
}.

(** The attributes of a [BerryIMUClient].  The five private attributes
    exist only once the initialisation that assigns them has run: [None]
    stands for an attribute that is not there. *)
Record BerryIMUClient (handle : Type) : Type := {
  _bus : option handle;
  _bus_no : Z;
  _acc_setup : Z;
  _gyro_setup : Z;
  _mag_setup : Z;
  _raw_output : bool;
  _bmp180_calibration : option (list Z);
  __G_GAIN : option float;
  __RAD_TO_DEG : option float;
  __PI : option float;
  __LP : option float;
  __OVERSAMPLING : option Z
}.

(** [str(z)] *)
Definition str (z : Z) : string := NilZero.string_of_int (Z.to_int z).

(** [l[::2]]; [l[1::2]] is [every_other (tl l)]. *)
Fixpoint every_other {A : Type} (l : list A) : list A :=
  match l with
  | [] => []
  | [a] => [a]
  | a :: _ :: rest => a :: every_other rest
  end.

(** [vals[i] = v] on a list that has an index [i]. *)
Fixpoint list_set (i : nat) (v : Z) (vals : list Z) : list Z :=
  match vals, i with
  | [], _ => []
  | _ :: rest, O => v :: rest
  | a :: rest, S i' => a :: list_set i' v rest
  end.

(** [a << n] and [a >> n] with a count that is not a literal: a negative
    one raises. *)
Definition lshift (a n : Z) : outcome Z :=
  if (n <? 0)%Z then Raises (Std (ValueError "negative shift count"))
  else Returns (Z.shiftl a n).

Definition rshift (a n : Z) : outcome Z :=
  if (n <? 0)%Z then Raises (Std (ValueError "negative shift count"))
  else Returns (Z.shiftr a n).

(** [a // b] on integers. *)
Definition floordiv (a b : Z) : outcome Z :=
  if (b =? 0)%Z then Raises (Std ZeroDivisionError) else Returns (a / b)%Z.

Section Monad.
Context {world handle : Type}.

Local Notation self_t := (BerryIMUClient handle).

Definition set__bus (v : option handle) (self : self_t) : self_t :=
  {| _bus := v;
     _bus_no := _bus_no self;
     _acc_setup := _acc_setup self;
     _gyro_setup := _gyro_setup self;
     _mag_setup := _mag_setup self;
     _raw_output := _raw_output self;
     _bmp180_calibration := _bmp180_calibration self;
     __G_GAIN := __G_GAIN self;
     __RAD_TO_DEG := __RAD_TO_DEG self;
     __PI := __PI self;
     __LP := __LP self;
     __OVERSAMPLING := __OVERSAMPLING self |}.

Definition set__bmp180_calibration (v : option (list Z)) (self : self_t)
  : self_t :=
  {| _bus := _bus self;
     _bus_no := _bus_no self;
     _acc_setup := _acc_setup self;
     _gyro_setup := _gyro_setup self;
     _mag_setup := _mag_setup self;
     _raw_output := _raw_output self;
     _bmp180_calibration := v;
     __G_GAIN := __G_GAIN self;
     __RAD_TO_DEG := __RAD_TO_DEG self;
     __PI := __PI self;
     __LP := __LP self;
     __OVERSAMPLING := __OVERSAMPLING self |}.

Definition set___OVERSAMPLING (v : option Z) (self : self_t) : self_t :=
  {| _bus := _bus self;
     _bus_no := _bus_no self;
     _acc_setup := _acc_setup self;
     _gyro_setup := _gyro_setup self;
     _mag_setup := _mag_setup self;
     _raw_output := _raw_output self;
     _bmp180_calibration := _bmp180_calibration self;
     __G_GAIN := __G_GAIN self;
     __RAD_TO_DEG := __RAD_TO_DEG self;
     __PI := __PI self;
     __LP := __LP self;
     __OVERSAMPLING := v |}.

(** The four assignments at the end of [_init_gyroscope]:
    [0.070], [math.degrees(1)], [math.pi] and [0.041]. *)
Definition set_gyroscope_constants (self : self_t) : self_t :=
  {| _bus := _bus self;
     _bus_no := _bus_no self;
     _acc_setup := _acc_setup self;
     _gyro_setup := _gyro_setup self;
     _mag_setup := _mag_setup self;
     _raw_output := _raw_output self;
     _bmp180_calibration := _bmp180_calibration self;
     __G_GAIN := Some 0.070%float;
     __RAD_TO_DEG := Some 57.29577951308232%float;
     __PI := Some 3.141592653589793%float;
     __LP := Some 0.041%float;
     __OVERSAMPLING := __OVERSAMPLING self |}.

(** [BerryIMUClient.__init__] *)
Definition __init__ (bus acc_setup gyro_setup mag_setup : Z)
  (raw_output : bool) : self_t :=
  {| _bus := None;
     _bus_no := bus;
     _acc_setup := acc_setup;
     _gyro_setup := gyro_setup;
     _mag_setup := mag_setup;
     _raw_output := raw_output;
     _bmp180_calibration := None;
     __G_GAIN := None;
     __RAD_TO_DEG := None;
     __PI := None;
     __LP := None;
     __OVERSAMPLING := None |}.

(** ** Methods

    A method takes the client and the world and returns both as it leaves
    them, with its value or the exception it raises.  [time.sleep] and
    [print] are not modelled. *)
Definition io (A : Type) : Type :=
  self_t * world -> (self_t * world) * outcome A.

Definition io_ret {A : Type} (a : A) : io A := fun s => (s, Returns a).

Definition io_raise {A : Type} (e : exception) : io A :=
  fun s => (s, Raises e).

Definition io_bind {A B : Type} (c : io A) (k : A -> io B) : io B :=
  fun s =>
    match c s with
    | (s', Returns a) => k a s'
    | (s', Raises e) => (s', Raises e)
    end.

(** Reading an attribute, assigning to one, a call into [smbus], and a
    value that may be an exception. *)
Definition attr {A : Type} (f : self_t -> A) : io A :=
  fun s => (s, Returns (f (fst s))).

Definition set (f : self_t -> self_t) : io unit :=
  fun s => ((f (fst s), snd s), Returns tt).

Definition call {A : Type} (op : world -> world * outcome A) : io A :=
  fun s => let (w, r) := op (snd s) in ((fst s, w), r).

Definition lift {A : Type} (r : outcome A) : io A := fun s => (s, r).
End Monad.

Declare Scope io_scope.
Delimit Scope io_scope with io.
Notation "x <- c ;; k" :=
  (io_bind c (fun x => k))
  (at level 61, c at next level, right associativity) : io_scope.
Notation "c ;; k" :=
  (io_bind c (fun _ => k))
  (at level 61, right associativity) : io_scope.
Notation "' pat <- c ;; k" :=
  (io_bind c (fun x => match x with pat => k end))
  (at level 61, pat pattern, c at next level, right associativity) : io_scope.

Section Methods.
Context {F : Type} `{Number F}.
Context {world handle : Type}.
Variable smbus : smbus_t world handle.
Variable LSM9DS0 : LSM9DS0_t.
Variable BMP180 : BMP180_t.

Local Notation io := (io (world:=world) (handle:=handle)).

(** [self.bus] as the methods see it: the property, defined below. *)
Variable bus : io handle.

(** *** Writing *)

Definition _write_to_accelerometer (register value : Z) : io Z :=
  (h <- bus ;;
   call (write_byte_data smbus h (ACC_ADDRESS LSM9DS0) register value) ;;
   io_ret (-1)%Z)%io.

Definition _write_to_gyroscope (register value : Z) : io Z :=
  (h <- bus ;;
   call (write_byte_data smbus h (GYR_ADDRESS LSM9DS0) register value) ;;
   io_ret (-1)%Z)%io.

Definition _write_to_magnetometer (register value : Z) : io Z :=
  (h <- bus ;;
   call (write_byte_data smbus h (MAG_ADDRESS LSM9DS0) register value) ;;
   io_ret (-1)%Z)%io.

(** *** Initialisation *)

(** The values written are [0b01100111] and [0b00100000]. *)
Definition _init_accelerometer : io unit :=
  (acc_setup <- attr (@_acc_setup handle) ;;
   if (acc_setup =? 1)%Z then
     _write_to_accelerometer (CTRL_REG1_XM LSM9DS0) 103 ;;
     _write_to_accelerometer (CTRL_REG2_XM LSM9DS0) 32 ;;
     io_ret tt
   else
     io_raise (Std (PyBerryIMUError
       ("Invalid Accelerometer setup flag: " ++ str acc_setup ++ "."))))%io.

(** The values written are [0b00001111] and [0b00110000]. *)
Definition _init_gyroscope : io unit :=
  (gyro_setup <- attr (@_gyro_setup handle) ;;
   if (gyro_setup =? 1)%Z then
     _write_to_gyroscope (CTRL_REG1_G LSM9DS0) 15 ;;
     _write_to_gyroscope (CTRL_REG4_G LSM9DS0) 48 ;;
     set set_gyroscope_constants
   else
     io_raise (Std (PyBerryIMUError
       ("Invalid Gyroscope setup flag: " ++ str gyro_setup ++ "."))))%io.

(** The values written are [0b11110000], [0b01100000] and [0b00000000]. *)
Definition _init_magnetometer : io unit :=
  (mag_setup <- attr (@_mag_setup handle) ;;
   if (mag_setup =? 1)%Z then
     _write_to_magnetometer (CTRL_REG5_XM LSM9DS0) 240 ;;
     _write_to_magnetometer (CTRL_REG6_XM LSM9DS0) 96 ;;
     _write_to_magnetometer (CTRL_REG7_XM LSM9DS0) 0 ;;
     io_ret tt
   else
     io_raise (Std (PyBerryIMUError
       ("Invalid Magnetometer setup flag: " ++ str mag_setup ++ "."))))%io.

Definition _init_barometric_pressure_sensor : io unit :=
  (h <- bus ;;
   block <- call (read_i2c_block_data smbus h
                    (ADDRESS BMP180) (CALIB_DATA_REG BMP180) 22) ;;
   set (set__bmp180_calibration (Some block)) ;;
   set (set___OVERSAMPLING (Some 3%Z)))%io.

(** [open]: an exception of [SMBus(...)] is raised again, and one of the
    [else] branch is not caught. *)
Definition open : io unit :=
  (bus_no <- attr (@_bus_no handle) ;;
   h <- call (SMBus smbus bus_no) ;;
   set (set__bus (Some h)) ;;
   _init_accelerometer ;;
   _init_gyroscope ;;
   _init_magnetometer ;;
   _init_barometric_pressure_sensor)%io.

(** [close]: whatever [self._bus.close()] raises is printed and dropped. *)
Definition close : io unit :=
  (b <- attr (@_bus handle) ;;
   match b with
   | None => io_ret tt
   | Some h =>
       fun s => let (w, _) := bus_close smbus h (snd s) in
                ((fst s, w), Returns tt)
   end)%io.

(** [__enter__] returns the client itself, which is the state here. *)
Definition __enter__ : io unit := open.

Definition __exit__ : io unit := close.

Definition get_bmp180_chip_id_and_version : io (list Z) :=
  (h <- bus ;;
   call (read_i2c_block_data smbus h (ADDRESS BMP180) (CHIP_ID_REG BMP180) 2))%io.

(** *** Reading *)

(** The value [_read] makes of the two bytes:
    [value = lo | (hi << 8)], then
    [value if value < 32768 else value - 65536]. *)
Definition _read_value (lo hi : Z) : Z :=
  let value := Z.lor lo (Z.shiftl hi 8) in
  if (value <? 32768)%Z then value else (value - 65536)%Z.

Definition _read (address register_low_bit register_high_bit : Z) : io Z :=
  (h <- bus ;;
   lo <- call (read_byte_data smbus h address register_low_bit) ;;
   h <- bus ;;
   hi <- call (read_byte_data smbus h address register_high_bit) ;;
   io_ret (_read_value lo hi))%io.

Definition read_accelerometer : io (vec3 Z) :=
  (x <- _read (ACC_ADDRESS LSM9DS0) (OUT_X_L_A LSM9DS0) (OUT_X_H_A LSM9DS0) ;;
   y <- _read (ACC_ADDRESS LSM9DS0) (OUT_Y_L_A LSM9DS0) (OUT_Y_H_A LSM9DS0) ;;
   z <- _read (ACC_ADDRESS LSM9DS0) (OUT_Z_L_A LSM9DS0) (OUT_Z_H_A LSM9DS0) ;;
   io_ret (V3 x y z))%io.

Definition read_gyroscope : io (vec3 Z) :=
  (x <- _read (GYR_ADDRESS LSM9DS0) (OUT_X_L_G LSM9DS0) (OUT_X_H_G LSM9DS0) ;;
   y <- _read (GYR_ADDRESS LSM9DS0) (OUT_Y_L_G LSM9DS0) (OUT_Y_H_G LSM9DS0) ;;
   z <- _read (GYR_ADDRESS LSM9DS0) (OUT_Z_L_G LSM9DS0) (OUT_Z_H_G LSM9DS0) ;;
   io_ret (V3 x y z))%io.

Definition read_magnetometer : io (vec3 Z) :=
  (x <- _read (MAG_ADDRESS LSM9DS0) (OUT_X_L_M LSM9DS0) (OUT_X_H_M LSM9DS0) ;;
   y <- _read (MAG_ADDRESS LSM9DS0) (OUT_Y_L_M LSM9DS0) (OUT_Y_H_M LSM9DS0) ;;
   z <- _read (MAG_ADDRESS LSM9DS0) (OUT_Z_L_M LSM9DS0) (OUT_Z_H_M LSM9DS0) ;;
   io_ret (V3 x y z))%io.

(** One step of [for i in [0, 1, 2, 6, 7, 8, 9, 10]] in
    [_get_bmp180_calib_values]. *)
Definition sign_extend (vals : outcome (list Z)) (i : nat) : outcome (list Z) :=
  match vals with
  | Raises e => Raises e
  | Returns vals =>
      match nth_error vals i with
      | None => Raises IndexError
      | Some v =>
          if (v >? 2 ^ 15 - 1)%Z
          then Returns (list_set i (v - 2 ^ 16)%Z vals)
          else Returns vals
      end
  end.

Definition _get_bmp180_calib_values : io (list Z) :=
  (calibration <- attr (@_bmp180_calibration handle) ;;
   match calibration with
   | None => io_raise (Std TypeError)
   | Some calibration =>
       let vals :=
         map (fun '(msb, lsb) => (msb + lsb)%Z)
             (combine (map (fun x => Z.shiftl x 8) (every_other calibration))
                      (every_other (tl calibration))) in
       lift (fold_left sign_extend [0; 1; 2; 6; 7; 8; 9; 10]%nat (Returns vals))
   end)%io.

(** [msb, lsb = ...] and [msb, lsb, xsb = ...] *)
Definition unpack2 (block : list Z) : io (Z * Z) :=
  match block with
  | [msb; lsb] => io_ret (msb, lsb)
  | [] => io_raise (Std (ValueError "need more than 0 values to unpack"))
  | [_] => io_raise (Std (ValueError "need more than 1 value to unpack"))
  | _ => io_raise (Std (ValueError "too many values to unpack"))
  end.

Definition unpack3 (block : list Z) : io (Z * Z * Z) :=
  match block with
  | [msb; lsb; xsb] => io_ret (msb, lsb, xsb)
  | [] => io_raise (Std (ValueError "need more than 0 values to unpack"))
  | [_] => io_raise (Std (ValueError "need more than 1 value to unpack"))
  | [_; _] => io_raise (Std (ValueError "need more than 2 values to unpack"))
  | _ => io_raise (Std (ValueError "too many values to unpack"))
  end.

(** [self.__OVERSAMPLING] *)
Definition oversampling : io Z :=
  (o <- attr (@__OVERSAMPLING handle) ;;
   match o with
   | Some o => io_ret o
   | None => io_raise (Std AttributeError)
   end)%io.

(** The command [0x2E] starts a temperature conversion. *)
Definition read_temperature : io (Z * F) :=
  (h <- bus ;;
   call (write_byte_data smbus h (ADDRESS BMP180) (WRITE_REG BMP180) 46) ;;
   h <- bus ;;
   block <- call (read_i2c_block_data smbus h
                    (ADDRESS BMP180) (READ_REG BMP180) 2) ;;
   '(msb, lsb) <- unpack2 block ;;
   let ut := (Z.shiftl msb 8 + lsb)%Z in
   vals <- _get_bmp180_calib_values ;;
   match vals with
   | [ac1; ac2; ac3; ac4; ac5; ac6; b1; b2; mb; mc; md] =>
       let x1 := Z.shiftr ((ut - ac6) * ac5) 15 in
       x2 <- lift (floordiv (Z.shiftl mc 11) (x1 + md)) ;;
       let b5 := (x1 + x2)%Z in
       let t := Z.shiftr (b5 + 8) 4 in
       io_ret (ut, (of_int t / of_Q 10)%num)
   | _ => io_raise (Std (ValueError "too many values to unpack"))
   end)%io.

(** The command written for the pressure is
    [0x34 + (self.__OVERSAMPLING << 6)]. *)
Definition read_pressure : io F :=
  (vals <- _get_bmp180_calib_values ;;
   match vals with
   | [ac1; ac2; ac3; ac4; ac5; ac6; b1; b2; mb; mc; md] =>
       h <- bus ;;
       call (write_byte_data smbus h (ADDRESS BMP180) (WRITE_REG BMP180) 46) ;;
       h <- bus ;;
       block <- call (read_i2c_block_data smbus h
                        (ADDRESS BMP180) (READ_REG BMP180) 2) ;;
       '(msb, lsb) <- unpack2 block ;;
       let ut := (Z.shiftl msb 8 + lsb)%Z in
       let x1 := Z.shiftr ((ut - ac6) * ac5) 15 in
       x2 <- lift (floordiv (Z.shiftl mc 11) (x1 + md)) ;;
       let b5 := (x1 + x2)%Z in
       let t := Z.shiftr (b5 + 8) 4 in
       h <- bus ;;
       o <- oversampling ;;
       call (write_byte_data smbus h (ADDRESS BMP180) (WRITE_REG BMP180)
               (52 + Z.shiftl o 6)) ;;
       h <- bus ;;
       block <- call (read_i2c_block_data smbus h
                        (ADDRESS BMP180) (READ_REG BMP180) 3) ;;
       '(msb, lsb, xsb) <- unpack3 block ;;
       o <- oversampling ;;
       up <- lift (rshift (Z.shiftl msb 16 + Z.shiftl lsb 8 + xsb) (8 - o)) ;;
       let x1 := Z.shiftr ((ut - ac6) * ac5) 15 in
       x2 <- lift (floordiv (Z.shiftl mc 11) (x1 + md)) ;;
       let b5 := (x1 + x2)%Z in
       let b6 := (b5 - 4000)%Z in
       let b62 := Z.shiftr (b6 * b6) 12 in
       let x1 := Z.shiftr (b2 * b62) 11 in
       let x2 := Z.shiftr (ac2 * b6) 11 in
       let x3 := (x1 + x2)%Z in
       o <- oversampling ;;
       shifted <- lift (lshift (ac1 * 4 + x3) o) ;;
       let b3 := Z.shiftr (shifted + 2) 2 in
       let x1 := Z.shiftr (ac3 * b6) 13 in
       let x2 := Z.shiftr (b1 * b62) 16 in
       let x3 := Z.shiftr ((x1 + x2) + 2) 2 in
       let b4 := Z.shiftr (ac4 * (x3 + 32768)) 15 in
       o <- oversampling ;;
       scale <- lift (rshift 50000 o) ;;
       let b7 := ((up - b3) * scale)%Z in
       p <- lift (floordiv (b7 * 2) b4) ;;
       let x1 := (Z.shiftr p 8 * Z.shiftr p 8)%Z in
       let x1 := Z.shiftr (x1 * 3038) 16 in
       let x2 := Z.shiftr (-7357 * p) 16 in
       let p := (p + Z.shiftr (x1 + x2 + 3791) 4)%Z in
       io_ret (of_int p / of_Q 100)%num
   | _ => io_raise (Std (ValueError "too many values to unpack"))
   end)%io.
End Methods.

(** The property [bus]: the handle when there is one, and otherwise
    [self.open()] followed by [self.bus] again.  [depth] is the number of
    nested calls of the property the interpreter still allows. *)
Fixpoint bus {world handle : Type} (smbus : smbus_t world handle)
  (LSM9DS0 : LSM9DS0_t) (BMP180 : BMP180_t) (depth : nat)
  : io (world:=world) handle :=
  (b <- attr (@_bus handle) ;;
   match b with
   | Some h => io_ret h
   | None =>
       match depth with
       | O => io_raise (RuntimeError "maximum recursion depth exceeded")
       | S depth' =>
           open smbus LSM9DS0 BMP180 (bus smbus LSM9DS0 BMP180 depth') ;;
           bus smbus LSM9DS0 BMP180 depth'
       end
   end)%io.
End Client.

(** A bus for running the client: the world is the list of the bytes
    written, last first, as (address, register, value); every register
    reads [200], and a block read returns the calibration and the
    temperature sample of the BMP180 data sheet. *)
Definition bench : Client.smbus_t (list (Z * Z * Z)) Z :=
  {| Client.SMBus := fun bus_no w => (w, Returns bus_no);
     Client.bus_close := fun _ w => (w, Returns tt);
     Client.write_byte_data := fun _ address register value w =>
       ((address, register, value) :: w, Returns tt);
     Client.read_byte_data := fun _ _ _ w => (w, Returns 200%Z);
     Client.read_i2c_block_data := fun _ _ _ n w =>
       (w, Returns (if (n =? 22)%Z
                    then [1; 152; 255; 184; 199; 209; 127; 229; 127; 245;
                          90; 113; 24; 46; 0; 4; 128; 0; 221; 249; 11; 52]
                    else if (n =? 2)%Z then [108; 250]
                    else [93; 35; 0])%Z) |}.

Definition bench_LSM9DS0 : Client.LSM9DS0_t :=
  {| Client.ACC_ADDRESS := 30; Client.GYR_ADDRESS := 106;
     Client.MAG_ADDRESS := 30;
     Client.CTRL_REG1_XM := 32; Client.CTRL_REG2_XM := 33;
     Client.CTRL_REG5_XM := 36; Client.CTRL_REG6_XM := 37;
     Client.CTRL_REG7_XM := 38;
     Client.CTRL_REG1_G := 32; Client.CTRL_REG4_G := 35;
     Client.OUT_X_L_A := 40; Client.OUT_X_H_A := 41;
     Client.OUT_Y_L_A := 42; Client.OUT_Y_H_A := 43;
     Client.OUT_Z_L_A := 44; Client.OUT_Z_H_A := 45;
     Client.OUT_X_L_G := 40; Client.OUT_X_H_G := 41;
     Client.OUT_Y_L_G := 42; Client.OUT_Y_H_G := 43;
     Client.OUT_Z_L_G := 44; Client.OUT_Z_H_G := 45;
     Client.OUT_X_L_M := 8; Client.OUT_X_H_M := 9;
     Client.OUT_Y_L_M := 10; Client.OUT_Y_H_M := 11;
     Client.OUT_Z_L_M := 12; Client.OUT_Z_H_M := 13 |}%Z.

Definition bench_BMP180 : Client.BMP180_t :=
  {| Client.ADDRESS := 119; Client.CALIB_DATA_REG := 170;
     Client.CHIP_ID_REG := 208; Client.WRITE_REG := 244;
     Client.READ_REG := 246 |}%Z.

(** Two methods of the client that do the same on a client that has a bus
    handle, and leave it with one. *)
Definition agree {world handle A : Type}
  (m m' : Client.io (world:=world) (handle:=handle) A) : Prop :=
  forall s : Client.BerryIMUClient handle * world,
    Client._bus (fst s) <> None ->
    m s = m' s /\ Client._bus (fst (fst (m s))) <> None.

(** A 16-bit word read as a signed number, as the loop of
    [_get_bmp180_calib_values] leaves it. *)
Definition signed (v : Z) : Z :=
  if (v >? 2 ^ 15 - 1)%Z then (v - 2 ^ 16)%Z else v.

(** The calibration bytes of the bench. *)
Definition bench_calibration : list Z :=
  [1; 152; 255; 184; 199; 209; 127; 229; 127; 245;
   90; 113; 24; 46; 0; 4; 128; 0; 221; 249; 11; 52]%Z.

(** * Properties *)

(** Splits a conjunction into its parts, and leaves the parts alone. *)
Ltac split_conjunction :=
  cbv zeta; repeat match goal with |- _ /\ _ => split end.

(** ** Literals *)

(** On doubles the literals of the optimisation are the doubles Python
    reads. *)
Lemma literals_on_doubles :
  (damping = 0.01 /\ tolerance = 1e-9 /\ two = 2 /\
   st_R_prior initial_state = 100000 /\ st_gain initial_state = 1 /\
   initial_x = V9 5 0.5 0.5 5 0.5 5 0.5 0.5 0.5)%float.
Proof. split_conjunction; vm_compute; reflexivity. Qed.

(** ** The Jacobian *)

Lemma derivable_pt_lim_quadratic (a b c t0 : R) :
  derivable_pt_lim (fun t => a * t * t + b * t + c)%R t0 (2 * a * t0 + b)%R.
Proof.
  assert (Hsq : derivable_pt_lim (fun t => t * t)%R t0 (2 * t0)%R).
  { replace (2 * t0)%R with (1 * t0 + t0 * 1)%R by ring.
    apply (derivable_pt_lim_mult id id); apply derivable_pt_lim_id. }
  assert (Ha : derivable_pt_lim (fun t => a * (t * t))%R t0 (a * (2 * t0))%R)
    by exact (derivable_pt_lim_scal (fun t => t * t)%R a t0 _ Hsq).
  assert (Hb : derivable_pt_lim (fun t => b * t)%R t0 (b * 1)%R)
    by exact (derivable_pt_lim_scal id b t0 _ (derivable_pt_lim_id t0)).
  assert (Hc : derivable_pt_lim (fun _ : R => c) t0 0%R)
    by apply derivable_pt_lim_const.
  replace (2 * a * t0 + b)%R with (a * (2 * t0) + b * 1 + 0)%R by ring.
  apply derivable_pt_lim_ext with
    (f := plus_fct (plus_fct (fun t => a * (t * t))%R (fun t => b * t)%R)
                   (fun _ => c)).
  - intro z. unfold plus_fct. ring.
  - apply derivable_pt_lim_plus; [apply derivable_pt_lim_plus|]; assumption.
Qed.

(** A function that agrees with the parabola through its values at -1, 0
    and 1 has the derivative of that parabola. *)
Lemma quadratic_derivative (f : R -> R) (t0 l : R) :
  (forall t, f t = ((f 1 + f (-1) - 2 * f 0) / 2 * t * t
                    + (f 1 - f (-1)) / 2 * t + f 0)%R) ->
  l = (2 * ((f 1 + f (-1) - 2 * f 0) / 2) * t0 + (f 1 - f (-1)) / 2)%R ->
  derivable_pt_lim f t0 l.
Proof.
  intros Hf Hl. subst l.
  eapply derivable_pt_lim_ext; [ | apply derivable_pt_lim_quadratic ].
  intro z. symmetry. apply Hf.
Qed.

Ltac expose_reals :=
  cbv [residual jacobian_row error_function _jacobian optvec_to_M_and_b fst snd
       mat3_dot inner3 v3_sub v3_map2 m00 m01 m02 m11 m12 m22 row0 row1 row2
       c0 c1 c2 p0 p1 p2 p3 p4 p5 p6 p7 p8 one two
       add sub mul of_Q exact_real Q2R Qnum Qden].

(** C1. Over the real numbers, for every optimisation vector
    [x = [Mxx, Mxy, Mxz, Myy, Myz, Mzz, Bx, By, Bz]] (so that [M] is the
    symmetric matrix [optvec_to_M_and_b] builds and [B] its bias) and every
    point [V], entry [k] of the row [_jacobian] computes is the partial
    derivative, with respect to parameter [k], of the residual
    [|M (B - V)|^2 - 1] that [error_function] computes. *)
Theorem jacobian_is_gradient_of_error_function
  (Mxx Mxy Mxz Myy Myz Mzz Bx By Bz : R) (V : vec3 R) :
  let jac := jacobian_row (V9 Mxx Mxy Mxz Myy Myz Mzz Bx By Bz) V in
  derivable_pt_lim
    (fun t => residual (V9 t Mxy Mxz Myy Myz Mzz Bx By Bz) V) Mxx (p0 jac) /\
  derivable_pt_lim
    (fun t => residual (V9 Mxx t Mxz Myy Myz Mzz Bx By Bz) V) Mxy (p1 jac) /\
  derivable_pt_lim
    (fun t => residual (V9 Mxx Mxy t Myy Myz Mzz Bx By Bz) V) Mxz (p2 jac) /\
  derivable_pt_lim
    (fun t => residual (V9 Mxx Mxy Mxz t Myz Mzz Bx By Bz) V) Myy (p3 jac) /\
  derivable_pt_lim
    (fun t => residual (V9 Mxx Mxy Mxz Myy t Mzz Bx By Bz) V) Myz (p4 jac) /\
  derivable_pt_lim
    (fun t => residual (V9 Mxx Mxy Mxz Myy Myz t Bx By Bz) V) Mzz (p5 jac) /\
  derivable_pt_lim
    (fun t => residual (V9 Mxx Mxy Mxz Myy Myz Mzz t By Bz) V) Bx (p6 jac) /\
  derivable_pt_lim
    (fun t => residual (V9 Mxx Mxy Mxz Myy Myz Mzz Bx t Bz) V) By (p7 jac) /\
  derivable_pt_lim
    (fun t => residual (V9 Mxx Mxy Mxz Myy Myz Mzz Bx By t) V) Bz (p8 jac).
Proof.
  intro jac. subst jac. destruct V as [y0 y1 y2].
  split_conjunction; apply quadratic_derivative; try intro t; expose_reals; field.
Qed.

(** ** The forward transform *)

(** C9. On an object whose four accelerometer parameters are set,
    [transform_accelerometer_values] returns [M . ((raw - zero) * sensitivity - B)],
    the subtraction of the zero-g levels and the product with the
    sensitivities taken entry by entry. *)
Theorem transform_accelerometer_values_formula {F : Type} `{Number F}
  (self : StandardCalibration F) (z s B : vec3 F) (M : mat3 F) (raw : vec3 F) :
  acc_zero_g self = Some z ->
  acc_sensitivity self = Some s ->
  acc_scale_factor_matrix self = Some M ->
  acc_bias_vector self = Some B ->
  transform_accelerometer_values self raw =
    Ok (V3 (m00 M * ((c0 raw - c0 z) * c0 s - c0 B)
            + m01 M * ((c1 raw - c1 z) * c1 s - c1 B)
            + m02 M * ((c2 raw - c2 z) * c2 s - c2 B))
           (m10 M * ((c0 raw - c0 z) * c0 s - c0 B)
            + m11 M * ((c1 raw - c1 z) * c1 s - c1 B)
            + m12 M * ((c2 raw - c2 z) * c2 s - c2 B))
           (m20 M * ((c0 raw - c0 z) * c0 s - c0 B)
            + m21 M * ((c1 raw - c1 z) * c1 s - c1 B)
            + m22 M * ((c2 raw - c2 z) * c2 s - c2 B)))%num.
Proof.
  intros Hz Hs HM HB. unfold transform_accelerometer_values.
  rewrite Hz, Hs, HM, HB. reflexivity.
Qed.

Lemma transform_accelerometer_values_formula_witness :
  acc_zero_g calibrated_example = Some (V3 200 200 200)%float /\
  transform_accelerometer_values calibrated_example (V3 1200 200 (-800))%float
    = Ok (V3 0.75 0.375 (-1))%float.
Proof.
  split; [ reflexivity | ].
  rewrite (@transform_accelerometer_values_formula float binary64
             calibrated_example
             (V3 200 200 200)%float (V3 0.001 0.001 0.001)%float
             (V3 0.25 0 0)%float
             (M3 (V3 1 0.5 0) (V3 0.5 1 0) (V3 0 0 1))%float
             (V3 1200 200 (-800))%float
             eq_refl eq_refl eq_refl eq_refl).
  vm_compute. reflexivity.
Defined.

(** ** The guards of the solver and of the calibration *)

(** C7. With fewer than nine points the solver raises its [ValueError]
    ("Need at least 9 Measurements ...") and leaves the object as it was,
    whatever the inversion routine is: the guard is the first statement,
    ahead of every residual, Jacobian row and inversion. *)
Theorem too_few_points_raise_before_optimisation {F : Type} `{Number F}
  (linalg_inv : mat9 F -> result (mat9 F)) (points : list (vec3 F))
  (self : StandardCalibration F) :
  (List.length points < 9)%nat ->
  _perform_calibration_optimisation linalg_inv points self =
    (self, Raise (ValueError
       "Need at least 9 Measurements for the calibration procedure!")).
Proof.
  intro Hlen. unfold _perform_calibration_optimisation.
  apply Nat.ltb_lt in Hlen. rewrite Hlen. reflexivity.
Qed.

Lemma too_few_points_raise_before_optimisation_witness :
  (List.length [V3 1 0 0; V3 0 1 0; V3 0 0 1]%float < 9)%nat /\
  _perform_calibration_optimisation (fun _ => Raise LinAlgError)
    [V3 1 0 0; V3 0 1 0; V3 0 0 1]%float calibrated_example =
    (calibrated_example, Raise (ValueError
       "Need at least 9 Measurements for the calibration procedure!")).
Proof.
  split.
  - simpl. lia.
  - apply (@too_few_points_raise_before_optimisation float binary64).
    simpl. lia.
Defined.

(** C8. On an object whose zero-g levels are set, [calibrate_accelerometer]
    raises [PyBerryIMUError] ("This object has already been calibrated!")
    at once and returns the object unchanged: no parameter is
    overwritten. *)
Theorem calibrate_accelerometer_already_calibrated {F : Type} `{Number F}
  (linalg_inv : mat9 F -> result (mat9 F)) (client : session F)
  (self : StandardCalibration F) (z : vec3 F) :
  acc_zero_g self = Some z ->
  calibrate_accelerometer linalg_inv client self =
    (self, Raise (PyBerryIMUError "This object has already been calibrated!")).
Proof.
  intro Hz. unfold calibrate_accelerometer, bind, read. rewrite Hz. reflexivity.
Qed.

Lemma calibrate_accelerometer_already_calibrated_witness :
  acc_zero_g calibrated_example = Some (V3 200 200 200)%float /\
  calibrate_accelerometer gauss_jordan_inv
    (axis_session (-1000) 1000 [])%float calibrated_example =
    (calibrated_example,
     Raise (PyBerryIMUError "This object has already been calibrated!")).
Proof.
  split; [ reflexivity | ].
  apply (@calibrate_accelerometer_already_calibrated float binary64
           gauss_jordan_inv _ calibrated_example (V3 200 200 200)%float).
  reflexivity.
Defined.

(** ** The six-point pass *)

Section SixPoint.
Context {F : Type} `{Number F}.
Local Open Scope num_scope.

Variable client : session F.

(** The two recorded values of every axis differ, so that no division
    raises. *)
Hypothesis span_not_zero :
  forall index, (v_max client index - v_min client index =? zero) = false.

Lemma six_point_axis_assigns (index : axis) (self : StandardCalibration F)
  (z s : vec3 F) :
  acc_zero_g self = Some z ->
  acc_sensitivity self = Some s ->
  six_point_axis client index self =
    (set_acc_sensitivity
       (Some (v3_set index (two / (v_max client index - v_min client index)) s))
       (set_acc_zero_g
          (Some (v3_set index
                   ((v_max client index + v_min client index) / two) z))
          self),
     Ok tt).
Proof.
  intros Hz Hs.
  unfold six_point_axis, bind, read, assign, raise, py_div.
  rewrite Hz, (span_not_zero index). cbn. rewrite Hs. reflexivity.
Qed.

(** The whole pass: the three axes in turn, each entry of the two arrays
    assigned once; the other attributes are not touched. *)
Lemma six_point_pass (self : StandardCalibration F) :
  _do_six_point_one_g_calibration client self =
    (set_acc_sensitivity
       (Some (V3 (two / (v_max client AxisX - v_min client AxisX))
                 (two / (v_max client AxisY - v_min client AxisY))
                 (two / (v_max client AxisZ - v_min client AxisZ))))
       (set_acc_zero_g
          (Some (V3 ((v_max client AxisX + v_min client AxisX) / two)
                    ((v_max client AxisY + v_min client AxisY) / two)
                    ((v_max client AxisZ + v_min client AxisZ) / two)))
          self),
     Ok (axis_points client AxisX ++ axis_points client AxisY
         ++ axis_points client AxisZ)).
Proof.
  unfold _do_six_point_one_g_calibration.
  unfold bind at 1. unfold assign at 1.
  unfold bind at 1. unfold assign at 1.
  unfold bind at 1.
  erewrite six_point_axis_assigns by reflexivity.
  unfold bind at 1.
  erewrite six_point_axis_assigns by reflexivity.
  unfold bind at 1.
  erewrite six_point_axis_assigns by reflexivity.
  reflexivity.
Qed.
End SixPoint.

(** C2, as the code has it.  When the two recorded values of each axis
    differ, the six-point pass sets [zero[axis] = (v_max + v_min) / 2] and
    [sensitivity[axis] = 2 / (v_max - v_min)], in any arithmetic; on
    doubles, readings of -1000 and +1000 give zero 0 and sensitivity
    0.001, and readings of -800 and 1200 give zero 200 and sensitivity
    0.001. *)
Theorem six_point_zero_and_sensitivity :
  (forall (F : Type) (N : Number F) (client : session F)
          (self : StandardCalibration F),
      (forall index,
          (v_max client index - v_min client index =? zero)%num = false) ->
      let self' := fst (_do_six_point_one_g_calibration client self) in
      acc_zero_g self' =
        Some (V3 ((v_max client AxisX + v_min client AxisX) / two)
                 ((v_max client AxisY + v_min client AxisY) / two)
                 ((v_max client AxisZ + v_min client AxisZ) / two))%num /\
      acc_sensitivity self' =
        Some (V3 (two / (v_max client AxisX - v_min client AxisX))
                 (two / (v_max client AxisY - v_min client AxisY))
                 (two / (v_max client AxisZ - v_min client AxisZ)))%num) /\
  (let self' := fst (_do_six_point_one_g_calibration
                       (axis_session (-1000) 1000 [])%float
                       (__init__ "0.1.0" false)) in
   acc_zero_g self' = Some (V3 0 0 0)%float /\
   acc_sensitivity self' = Some (V3 0.001 0.001 0.001)%float) /\
  (let self' := fst (_do_six_point_one_g_calibration
                       (axis_session (-800) 1200 [])%float
                       (__init__ "0.1.0" false)) in
   acc_zero_g self' = Some (V3 200 200 200)%float /\
   acc_sensitivity self' = Some (V3 0.001 0.001 0.001)%float).
Proof.
  split; [ | split; split; vm_compute; reflexivity ].
  intros F N client self Hspan self'. subst self'.
  rewrite (six_point_pass client Hspan self). split; reflexivity.
Qed.

Lemma six_point_zero_and_sensitivity_witness :
  (forall index,
      (v_max (axis_session (-800) 1200 [])%float index
       - v_min (axis_session (-800) 1200 [])%float index =? zero)%num = false) /\
  acc_sensitivity
    (fst (_do_six_point_one_g_calibration (axis_session (-800) 1200 [])%float
            calibrated_example)) =
    Some (V3 0.001 0.001 0.001)%float.
Proof.
  assert (Hspan : forall index,
      (v_max (axis_session (-800) 1200 [])%float index
       - v_min (axis_session (-800) 1200 [])%float index =? zero)%num = false)
    by (intros []; vm_compute; reflexivity).
  split; [ exact Hspan | ].
  rewrite (proj2 (proj1 six_point_zero_and_sensitivity float binary64
                    (axis_session (-800) 1200 [])%float calibrated_example Hspan)).
  vm_compute. reflexivity.
Defined.

(** The sensitivity the pass derives from readings of -1000 and +1000 is
    0.001, which is not 0.002. *)
Lemma six_point_sensitivity_of_1000_is_not_0_002 :
  let self' := fst (_do_six_point_one_g_calibration
                      (axis_session (-1000) 1000 [])%float
                      (__init__ "0.1.0" false)) in
  v_max (axis_session (-1000) 1000 [])%float AxisX = 1000%float /\
  v_min (axis_session (-1000) 1000 [])%float AxisX = (-1000)%float /\
  acc_zero_g self' = Some (V3 0 0 0)%float /\
  acc_sensitivity self' = Some (V3 0.001 0.001 0.001)%float /\
  acc_sensitivity self' <> Some (V3 0.002 0.002 0.002)%float.
Proof.
  split_conjunction; try (vm_compute; reflexivity).
  intro E.
  apply (f_equal (fun o => match o with
                           | Some v => (c0 v =? 0.002)%float
                           | None => false
                           end)) in E.
  vm_compute in E. discriminate E.
Qed.

(** Equal readings on an axis: the division raises, after the zero-g level
    of that axis has been assigned. *)
Lemma six_point_equal_readings_raise :
  let run := _do_six_point_one_g_calibration
               (axis_session 1000 1000 [])%float (__init__ "0.1.0" false) in
  snd run = Raise ZeroDivisionError /\
  acc_zero_g (fst run) = Some (V3 1000 0 0)%float /\
  acc_sensitivity (fst run) = Some (V3 0 0 0)%float.
Proof. split_conjunction; vm_compute; reflexivity. Qed.

(** ** A failed run *)

(** The solver assigns to the object only when the loop breaks: when it
    raises, the object is as it was. *)
Lemma optimisation_raise_keeps_object {F : Type} `{Number F}
  (linalg_inv : mat9 F -> result (mat9 F)) (points : list (vec3 F))
  (self self' : StandardCalibration F) (e : exn) :
  _perform_calibration_optimisation linalg_inv points self = (self', Raise e) ->
  self' = self.
Proof.
  unfold _perform_calibration_optimisation.
  destruct (List.length points <? 9)%nat.
  - unfold raise. intro E. now inversion E.
  - destruct (optimisation_loop linalg_inv nbr_iterations points initial_state)
      as [x | st | e'].
    + destruct (optvec_to_M_and_b x) as [M b].
      unfold bind, assign. intro E. inversion E.
    + unfold ret. intro E. inversion E.
    + unfold raise. intro E. now inversion E.
Qed.

(** C10, as the code has it.  On an object that is not yet calibrated, a
    run whose six-point pass completes and whose solver raises (too few
    points, or a singular system reported by the inversion) leaves the
    scale factor matrix and the bias vector as they were, and keeps the
    zero-g levels and the sensitivities derived during the pass, and the
    settings of the client: nothing is rolled back. *)
Theorem failed_run_keeps_zero_and_sensitivity {F : Type} `{Number F}
  (linalg_inv : mat9 F -> result (mat9 F)) (client : session F)
  (self self' : StandardCalibration F) (e : exn) :
  acc_zero_g self = None ->
  (forall index,
      (v_max client index - v_min client index =? zero)%num = false) ->
  calibrate_accelerometer linalg_inv client self = (self', Raise e) ->
  acc_scale_factor_matrix self' = acc_scale_factor_matrix self /\
  acc_bias_vector self' = acc_bias_vector self /\
  acc_zero_g self' =
    Some (V3 ((v_max client AxisX + v_min client AxisX) / two)
             ((v_max client AxisY + v_min client AxisY) / two)
             ((v_max client AxisZ + v_min client AxisZ) / two))%num /\
  acc_sensitivity self' =
    Some (V3 (two / (v_max client AxisX - v_min client AxisX))
             (two / (v_max client AxisY - v_min client AxisY))
             (two / (v_max client AxisZ - v_min client AxisZ)))%num /\
  berryimu_settings self' = get_settings client.
Proof.
  intros Hnone Hspan.
  unfold calibrate_accelerometer.
  unfold bind at 1. unfold read at 1. rewrite Hnone.
  unfold bind at 1. unfold assign at 1.
  unfold bind at 1. rewrite (six_point_pass client Hspan).
  unfold bind at 1. unfold _add_additional_points, ret.
  unfold bind at 1. unfold read at 1.
  unfold bind at 1. unfold read at 1.
  cbn [acc_zero_g acc_sensitivity set_acc_sensitivity set_acc_zero_g].
  intro E. apply optimisation_raise_keeps_object in E. subst self'.
  split_conjunction; reflexivity.
Qed.

Lemma failed_run_keeps_zero_and_sensitivity_witness :
  acc_zero_g (__init__ (F:=float) "0.1.0" false) = None /\
  acc_sensitivity
    (fst (calibrate_accelerometer gauss_jordan_inv
            (axis_session (-800) 1200
               [V3 800 1000 200; V3 200 800 1000])%float
            (__init__ "0.1.0" false))) =
    Some (V3 0.001 0.001 0.001)%float.
Proof.
  split; [ reflexivity | ].
  pose (client := (axis_session (-800) 1200
                     [V3 800 1000 200; V3 200 800 1000])%float).
  assert (Hspan : forall index,
      (v_max client index - v_min client index =? zero)%num = false)
    by (intros []; vm_compute; reflexivity).
  assert (Hrun : calibrate_accelerometer gauss_jordan_inv client
                   (__init__ "0.1.0" false) =
                 (fst (calibrate_accelerometer gauss_jordan_inv client
                         (__init__ "0.1.0" false)),
                  Raise (ValueError
                    "Need at least 9 Measurements for the calibration procedure!")))
    by (vm_compute; reflexivity).
  destruct (@failed_run_keeps_zero_and_sensitivity float binary64
              gauss_jordan_inv client (__init__ "0.1.0" false) _ _
              eq_refl Hspan Hrun) as (_ & _ & _ & Hs & _).
  fold client. rewrite Hs. vm_compute. reflexivity.
Defined.

(** A run with eight points: the solver raises, and the object keeps the
    zero-g levels and sensitivities of the six-point pass although it holds
    no scale factor matrix. *)
Lemma failed_run_leaves_zero_and_sensitivity_set :
  let run := calibrate_accelerometer gauss_jordan_inv
               (axis_session (-1000) 1000
                  [V3 600 800 0; V3 0 600 800])%float
               (__init__ "0.1.0" false) in
  snd run = Raise (ValueError
    "Need at least 9 Measurements for the calibration procedure!") /\
  acc_zero_g (fst run) = Some (V3 0 0 0)%float /\
  acc_sensitivity (fst run) = Some (V3 0.001 0.001 0.001)%float /\
  acc_scale_factor_matrix (fst run) = None /\
  acc_zero_g (__init__ (F:=float) "0.1.0" false) = None.
Proof.
  split_conjunction; vm_compute; reflexivity.
Qed.

(** ** [save] followed by [load] *)

Lemma np_array3_tolist {F : Type} `{Number F} (v : vec3 F) :
  np_array3 (tolist (v3_to_list v)) = Ok v.
Proof. destruct v. reflexivity. Qed.

Lemma np_reshape33_tolist {F : Type} `{Number F} (M : mat3 F) :
  np_reshape33 (tolist (mat3_flatten M)) = Ok M.
Proof. destruct M as [[] [] []]. reflexivity. Qed.

(** C6, what the code does.  For an object whose four accelerometer
    parameters are set, [save] writes a document from which [load] reads
    the same zero-g levels, sensitivities, scale factor matrix and bias
    vector.  The two other attributes do not come back in their fields:
    [save] writes no version, [load] stores under [berryimu_settings] what
    it looks up as the version (here the default, the package version) and
    under [pyberryimu_version] the saved settings; and the gyroscope values,
    written under [gyro] and looked up under [gyroscope], come back as the
    defaults. *)
Theorem save_load_swaps_settings_and_version {F : Type} `{Number F}
  (version path : string) (fs : filesystem F)
  (self : StandardCalibration F) (z s b : vec3 F) (M : mat3 F) :
  acc_zero_g self = Some z ->
  acc_sensitivity self = Some s ->
  acc_scale_factor_matrix self = Some M ->
  acc_bias_vector self = Some b ->
  exists fs',
    save self path fs = Ok fs' /\
    load version path fs' =
      Ok {| pyberryimu_version := berryimu_settings self;
            _verbose := false;
            berryimu_settings := JString version;
            acc_zero_g := Some z;
            acc_sensitivity := Some s;
            acc_scale_factor_matrix := Some M;
            acc_bias_vector := Some b;
            gyro_zero := V3 zero zero zero;
            gyro_sensitivity := V3 one one one |}.
Proof.
  intros Hz Hs HM Hb.
  unfold save, save_doc. rewrite Hz, Hs, HM, Hb. cbn [bind_result].
  eexists. split; [ reflexivity | ].
  unfold load, write_file. rewrite String.eqb_refl.
  cbn [dict_get lookup String.eqb Ascii.eqb Bool.eqb bind_result].
  rewrite !np_array3_tolist, np_reshape33_tolist.
  reflexivity.
Qed.

(** The settings saved with [calibrated_example] are read back as its
    version, and the version as its settings. *)
Lemma save_load_swaps_settings_and_version_witness :
  acc_zero_g calibrated_example = Some (V3 200 200 200)%float /\
  exists fs',
    save calibrated_example ".pyberryimu" (fun _ => None) = Ok fs' /\
    match load "0.1.0" ".pyberryimu" fs' with
    | Ok out =>
        berryimu_settings out = JString "0.1.0" /\
        pyberryimu_version out = JDict [("acc_setup", JInt 1)]%string /\
        berryimu_settings calibrated_example = JDict [("acc_setup", JInt 1)]%string /\
        pyberryimu_version calibrated_example = JString "0.1.0"
    | Raise _ => False
    end.
Proof.
  split; [ reflexivity | ].
  destruct (@save_load_swaps_settings_and_version float binary64
              "0.1.0" ".pyberryimu" (fun _ => None) calibrated_example
              _ _ _ _ eq_refl eq_refl eq_refl eq_refl) as (fs' & Hsave & Hload).
  exists fs'. split; [ exact Hsave | ].
  rewrite Hload. split_conjunction; reflexivity.
Defined.

(** ** The end of the optimisation loop *)

(** When the loop runs out of iterations the solver returns normally and
    assigns nothing. *)
Lemma optimisation_exhausted_returns_normally {F : Type} `{Number F}
  (linalg_inv : mat9 F -> result (mat9 F)) (points : list (vec3 F))
  (self : StandardCalibration F) (st : loop_state F) :
  (9 <= List.length points)%nat ->
  optimisation_loop linalg_inv nbr_iterations points initial_state = Exhausted st ->
  _perform_calibration_optimisation linalg_inv points self = (self, Ok tt).
Proof.
  intros Hlen Hloop. unfold _perform_calibration_optimisation.
  apply Nat.ltb_ge in Hlen. rewrite Hlen, Hloop. reflexivity.
Qed.

(** C3, what the code does.  Whenever the loop runs out of its 200
    iterations the solver returns normally and leaves the object as it was,
    for every point set and every inversion routine: nothing is raised.
    This happens: with readings of -1000 and +1000 on every axis and the
    three additional points (-2000, -2000, 1000), (1000, -2000, 2000) and
    (2000, 1000, -2000), the loop runs its 200 iterations without meeting the
    criterion (the value compared with the tolerance 1e-9 stays above 0.01),
    [calibrate_accelerometer] returns normally, the scale factor matrix and
    the bias vector are still [None] while the zero-g levels are set, and
    the transform then fails on the missing matrix. *)
Theorem non_convergence_returns_normally_with_matrix_unset :
  (forall (F : Type) (N : Number F) (linalg_inv : mat9 F -> result (mat9 F))
          (points : list (vec3 F)) (self : StandardCalibration F)
          (st : loop_state F),
      (9 <= List.length points)%nat ->
      optimisation_loop linalg_inv nbr_iterations points initial_state
        = Exhausted st ->
      _perform_calibration_optimisation linalg_inv points self = (self, Ok tt)) /\
  (let client := (axis_session (-1000) 1000
                    [V3 (-2000) (-2000) 1000; V3 1000 (-2000) 2000;
                     V3 2000 1000 (-2000)])%float in
   let points := [V3 (-1) 0 0; V3 1 0 0; V3 0 (-1) 0; V3 0 1 0;
                  V3 0 0 (-1); V3 0 0 1;
                  V3 (-2) (-2) 1; V3 1 (-2) 2; V3 2 1 (-2)]%float in
   let run := calibrate_accelerometer gauss_jordan_inv client
                (__init__ "0.1.0" false) in
   map (fun point => v3_mul (v3_sub point (V3 0 0 0)%float)
                       (V3 0.001 0.001 0.001)%float)
       (axis_points client AxisX ++ axis_points client AxisY
        ++ axis_points client AxisZ ++ additional_readings client)
     = points /\
   (exists st,
      optimisation_loop gauss_jordan_inv nbr_iterations points initial_state
        = Exhausted st) /\
   List.length (criterion_values gauss_jordan_inv nbr_iterations points
                  initial_state) = 200%nat /\
   forallb (fun c => (0.01 <? c)%float)
     (criterion_values gauss_jordan_inv nbr_iterations points initial_state)
     = true /\
   _perform_calibration_optimisation gauss_jordan_inv points
     (__init__ "0.1.0" false) = (__init__ "0.1.0" false, Ok tt) /\
   snd run = Ok tt /\
   acc_scale_factor_matrix (fst run) = None /\
   acc_bias_vector (fst run) = None /\
   acc_zero_g (fst run) = Some (V3 0 0 0)%float /\
   transform_accelerometer_values (fst run) (V3 1000 0 0)%float
     = Raise AttributeError).
Proof.
  split.
  - intros F N linalg_inv points self st Hlen Hloop.
    exact (optimisation_exhausted_returns_normally linalg_inv points self
             Hlen Hloop).
  - cbv zeta. split; [ vm_compute; reflexivity | ].
    split; [ | split_conjunction; vm_compute; reflexivity ].
    eexists. vm_compute. reflexivity.
Qed.

(** What the criterion computes, read over the real numbers: the absolute
    value of the largest signed ratio is compared with the tolerance. *)
Lemma py_max_real_is_Rmax (rest : list R) (first : R) :
  py_max first rest = fold_left Rmax rest first.
Proof.
  revert first. induction rest as [| item rest IH]; intro first.
  - reflexivity.
  - unfold py_max in *. cbn [fold_left]. rewrite <- IH. f_equal.
    cbn [ltb exact_real]. unfold Rltb, Rmax.
    destruct (Rlt_dec first item) as [Hlt | Hge], (Rle_dec first item) as [Hle | Hgt];
      try reflexivity; lra.
Qed.

Lemma criterion_over_reals (x last_x : vec9 R) :
  let r := relative_change x last_x in
  convergence_criterion x last_x = true <->
  (Rabs (fold_left Rmax [p1 r; p2 r; p3 r; p4 r; p5 r; p6 r; p7 r; p8 r] (p0 r))
   <= Q2R 1e-9)%R.
Proof.
  intro r. subst r. unfold convergence_criterion, criterion_value.
  rewrite py_max_real_is_Rmax. cbn [leb absolute exact_real]. unfold Rleb.
  match goal with |- context [Rle_dec ?a ?b] => destruct (Rle_dec a b) end;
    split; intro E; try assumption; try reflexivity; try discriminate; contradiction.
Qed.

(** *** One iteration in exact arithmetic

    The first iteration on [real_points], over the real numbers and for any
    inversion that returns a true inverse. *)

Ltac expose_point :=
  cbv [real_points real_jacobian real_residuals initial_x map fst snd
       error_function _jacobian optvec_to_M_and_b
       mat3_dot inner3 v3_sub v3_map2 m00 m01 m02 m11 m12 m22 row0 row1 row2
       c0 c1 c2 p0 p1 p2 p3 p4 p5 p6 p7 p8 zero one two
       add sub mul of_Q exact_real Q2R Qnum Qden].

Ltac expose_sums :=
  cbv [real_jacobian real_residuals real_normal_matrix real_inverse first_step
       JT_dot JT_dot_J vec_dot_mat sum_list v9_init v9_get
       map fold_left combine seq fst snd
       p0 p1 p2 p3 p4 p5 p6 p7 p8 zero
       add sub mul of_Q exact_real Q2R Qnum Qden].

Ltac rows_equal :=
  repeat match goal with
         | |- cons _ _ = cons _ _ => apply f_equal2
         | |- V9 _ _ _ _ _ _ _ _ _ = V9 _ _ _ _ _ _ _ _ _ => f_equal; field
         | |- @nil _ = @nil _ => reflexivity
         | |- _ = _ :> R => field
         end.

Lemma jacobian_at_initial_guess :
  map (fun point => _jacobian (fst (optvec_to_M_and_b initial_x))
                      (snd (optvec_to_M_and_b initial_x)) point) real_points
  = real_jacobian.
Proof. expose_point. rows_equal. Qed.

Lemma residuals_at_initial_guess :
  map (fun point => error_function (fst (optvec_to_M_and_b initial_x))
                      (snd (optvec_to_M_and_b initial_x)) point) real_points
  = real_residuals.
Proof. expose_point. rows_equal. Qed.

Lemma normal_matrix_at_initial_guess :
  JT_dot_J real_jacobian = real_normal_matrix.
Proof. expose_sums. f_equal; f_equal; field. Qed.

(** [first_step] solves the normal equations. *)
Lemma normal_equations_first_step :
  vec_dot_mat first_step real_normal_matrix
  = JT_dot real_jacobian real_residuals.
Proof. expose_sums. f_equal; field. Qed.

Lemma real_inverse_is_inverse (v : vec9 R) :
  vec_dot_mat (vec_dot_mat v real_normal_matrix) real_inverse = v.
Proof.
  destruct v as [v0 v1 v2 v3 v4 v5 v6 v7 v8].
  expose_sums. f_equal; field.
Qed.

Lemma real_next_x_value :
  real_next_x =
    (V9 (47/18) (7/36) (7/36) (47/18) (7/36) (47/18) (1/2) (1/2) (1/2))%R.
Proof.
  cbv [real_next_x first_step initial_x initial_state st_gain v9_map2 v9_map
       v9_init v9_get p0 p1 p2 p3 p4 p5 p6 p7 p8
       add sub mul of_Q exact_real Q2R Qnum Qden].
  f_equal; field.
Qed.

Lemma real_relative_change :
  relative_change real_next_x initial_x =
    (V9 (-86/137) (-22/25) (-22/25) (-86/137) (-22/25) (-86/137) 0 0 0)%R.
Proof.
  rewrite real_next_x_value.
  cbv [relative_change initial_x v9_map2 v9_map
       v9_init v9_get p0 p1 p2 p3 p4 p5 p6 p7 p8 two
       add sub mul div of_Q exact_real Q2R Qnum Qden].
  f_equal; field.
Qed.

Lemma real_criterion_holds : convergence_criterion real_next_x initial_x = true.
Proof.
  apply criterion_over_reals. rewrite real_relative_change.
  cbv [p0 p1 p2 p3 p4 p5 p6 p7 p8 fold_left].
  repeat match goal with
         | |- context [Rmax ?a ?b] =>
             first [ rewrite (Rmax_left a b) by lra
                   | rewrite (Rmax_right a b) by lra ]
         end.
  rewrite Rabs_R0. unfold Q2R. cbn. lra.
Qed.

Lemma exact_inverse_breaks_first_iteration
  (linalg_inv : mat9 R -> result (mat9 R)) (Hm : mat9 R) :
  linalg_inv real_normal_matrix = Ok Hm ->
  (forall v, vec_dot_mat (vec_dot_mat v real_normal_matrix) Hm = v) ->
  iteration linalg_inv real_points initial_state = Ok (inr real_next_x).
Proof.
  intros Hinv Hright. unfold iteration.
  change (st_x initial_state) with (initial_x (F:=R)).
  rewrite (surjective_pairing (optvec_to_M_and_b initial_x)).
  rewrite jacobian_at_initial_guess, residuals_at_initial_guess,
    normal_matrix_at_initial_guess, Hinv.
  cbn [bind_result].
  rewrite <- normal_equations_first_step, Hright.
  change (st_last_x initial_state) with (initial_x (F:=R)).
  fold real_next_x. rewrite real_criterion_holds. reflexivity.
Qed.

(** C4, what the code does.  The criterion takes the largest of the signed
    ratios and then its absolute value.  A vector whose first entry fell
    from 5 to 4 and whose other entries did not move is accepted, since the
    largest signed ratio is 0.  And in a run: with the six unit points of
    the axes and the points (1, 1, 0), (0, 1, 1), (1, 0, 1), the first
    iteration moves [Mxx] from 5 to 47/18 and the other matrix entries
    likewise, and leaves the three bias entries where they are (in exact
    arithmetic, for every inversion that returns a true inverse; up to
    rounding on doubles); the largest signed ratio is one of these, the
    criterion holds although [Mxx] changed by 86/137 in relative terms, the
    loop breaks, and the matrix is taken from this vector. *)
Theorem loop_breaks_while_a_parameter_still_moves :
  (let x := (V9 4 0.5 0.5 5 0.5 5 0.5 0.5 0.5)%float in
   convergence_criterion x initial_x = true /\
   (tolerance <? absolute (p0 (relative_change x initial_x)))%num = true) /\
  (let points := [V3 (-1) 0 0; V3 1 0 0; V3 0 (-1) 0; V3 0 1 0;
                  V3 0 0 (-1); V3 0 0 1;
                  V3 1 1 0; V3 0 1 1; V3 1 0 1]%float in
   let client := (axis_session (-1000) 1000
                    [V3 1000 1000 0; V3 0 1000 1000; V3 1000 0 1000])%float in
   exists x : vec9 float,
     iteration gauss_jordan_inv points initial_state = Ok (inr x) /\
     convergence_criterion x initial_x = true /\
     (0.6 <? absolute (p0 (relative_change x initial_x)))%float = true /\
     (tolerance <? absolute (p0 (relative_change x initial_x)))%num = true /\
     (p0 x <? 2.7)%float = true /\
     calibrate_accelerometer gauss_jordan_inv client (__init__ "0.1.0" false) =
       (set_acc_bias_vector (Some (snd (optvec_to_M_and_b x)))
          (set_acc_scale_factor_matrix (Some (fst (optvec_to_M_and_b x)))
             (set_acc_sensitivity (Some (V3 0.001 0.001 0.001)%float)
                (set_acc_zero_g (Some (V3 0 0 0)%float)
                   (set_berryimu_settings (JDict [])
                      (__init__ "0.1.0" false))))),
        Ok tt)) /\
  ((forall (linalg_inv : mat9 R -> result (mat9 R)) (Hm : mat9 R),
       linalg_inv real_normal_matrix = Ok Hm ->
       (forall v, vec_dot_mat (vec_dot_mat v real_normal_matrix) Hm = v) ->
       iteration linalg_inv real_points initial_state = Ok (inr real_next_x)) /\
   iteration (fun _ => Ok real_inverse) real_points initial_state
     = Ok (inr real_next_x) /\
   real_next_x =
     (V9 (47/18) (7/36) (7/36) (47/18) (7/36) (47/18) (1/2) (1/2) (1/2))%R /\
   relative_change real_next_x initial_x =
     (V9 (-86/137) (-22/25) (-22/25) (-86/137) (-22/25) (-86/137) 0 0 0)%R /\
   convergence_criterion real_next_x initial_x = true).
Proof.
  split; [ | split ].
  - split; vm_compute; reflexivity.
  - cbv zeta. eexists. split; [ vm_compute; reflexivity | ].
    split_conjunction; vm_compute; reflexivity.
  - split; [ exact exact_inverse_breaks_first_iteration | ].
    split; [ | split; [ exact real_next_x_value | split;
                        [ exact real_relative_change | exact real_criterion_holds ] ] ].
    apply exact_inverse_breaks_first_iteration with (Hm := real_inverse);
      [ reflexivity | exact real_inverse_is_inverse ].
Qed.

(** ** The criterion on a zero denominator

    Facts about doubles, from the specification of the primitive
    operations ([FloatAxioms]). *)

Lemma SFcompare_refl_not_nan (s : spec_float) :
  s <> S754_nan -> SFcompare s s = Some Eq.
Proof.
  destruct s as [sg | sg | | sg m e]; intro Hn; try congruence.
  - reflexivity.
  - destruct sg; reflexivity.
  - cbn. rewrite Z.compare_refl, Pos.compare_cont_refl. destruct sg; reflexivity.
Qed.

Lemma is_nan_SF (f : float) :
  PrimFloat.is_nan f = true <-> Prim2SF f = S754_nan.
Proof.
  unfold PrimFloat.is_nan. rewrite FloatAxioms.eqb_spec. unfold SFeqb.
  split.
  - intro E. destruct (Prim2SF f) eqn:Ef; try reflexivity;
      rewrite SFcompare_refl_not_nan in E by discriminate; discriminate.
  - intros ->. reflexivity.
Qed.

Lemma is_infinity_SF (f : float) :
  PrimFloat.is_infinity f = true <-> exists sg, Prim2SF f = S754_infinity sg.
Proof.
  unfold PrimFloat.is_infinity. rewrite FloatAxioms.eqb_spec, abs_spec.
  change (Prim2SF infinity) with (S754_infinity false).
  destruct (Prim2SF f) as [sg | sg | | sg m e]; cbn; split; intro E;
    try discriminate; try (destruct E; discriminate); eauto.
Qed.

Lemma eqb_infinity_SF (f : float) :
  PrimFloat.eqb f infinity = true <-> Prim2SF f = S754_infinity false.
Proof.
  rewrite FloatAxioms.eqb_spec.
  change (Prim2SF infinity) with (S754_infinity false).
  destruct (Prim2SF f) as [sg | [|] | | [|] m e]; cbn; split; intro E;
    try discriminate; reflexivity.
Qed.

Lemma eqb_zero_SF (d : float) :
  (d =? zero)%num = true -> exists sg, Prim2SF d = S754_zero sg.
Proof.
  change ((d =? zero)%num) with (PrimFloat.eqb d 0%float).
  rewrite FloatAxioms.eqb_spec.
  change (Prim2SF 0%float) with (S754_zero false).
  destruct (Prim2SF d) as [sg | [|] | | [|] m e]; cbn; intro E;
    try discriminate; eauto.
Qed.

Lemma div_by_zero_SF (n d : float) (sg : bool) :
  Prim2SF d = S754_zero sg ->
  Prim2SF (n / d)%float = S754_nan \/
  exists s, Prim2SF (n / d)%float = S754_infinity s.
Proof.
  intro Hd. rewrite div_spec, Hd. unfold SF64div.
  destruct (Prim2SF n) as [s | s | | s m e]; cbn; eauto.
Qed.

Lemma zero_over_zero_is_nan (a b : float) (sa sb : bool) :
  Prim2SF a = S754_zero sa -> Prim2SF b = S754_zero sb ->
  Prim2SF ((two * (a - b)) / (a + b))%num = S754_nan.
Proof.
  intros Ha Hb.
  change ((two * (a - b)) / (a + b))%num with ((2 * (a - b)) / (a + b))%float.
  rewrite div_spec, mul_spec, sub_spec, add_spec, Ha, Hb.
  change (Prim2SF 2%float) with (S754_finite false 4503599627370496 (-51)).
  destruct sa, sb; reflexivity.
Qed.

Lemma ltb_from_pinf_or_nan (m item : float) :
  SF_nan_or_pinf m -> (item >? m)%num = false.
Proof.
  change ((item >? m)%num) with (PrimFloat.ltb m item).
  rewrite ltb_spec. unfold SFltb.
  intros [-> | ->]; [ reflexivity | ].
  destruct (Prim2SF item) as [s | [|] | | s e e']; reflexivity.
Qed.

Lemma ltb_pinf_false (m item : float) :
  Prim2SF item = S754_infinity false ->
  (item >? m)%num = false -> SF_nan_or_pinf m.
Proof.
  change ((item >? m)%num) with (PrimFloat.ltb m item).
  rewrite ltb_spec. unfold SFltb, SF_nan_or_pinf. intros ->.
  destruct (Prim2SF m) as [s | [|] | | [|] e e']; cbn; intro E;
    try discriminate; auto.
Qed.

Lemma py_max_keeps_pinf_or_nan (rest : list float) (first : float) :
  SF_nan_or_pinf first -> SF_nan_or_pinf (py_max first rest).
Proof.
  revert first. induction rest as [| item rest IH]; intros first Hf.
  - exact Hf.
  - unfold py_max in *. cbn [fold_left].
    rewrite (@ltb_from_pinf_or_nan first item Hf). apply IH, Hf.
Qed.

Lemma py_max_with_pinf (rest : list float) (first e : float) :
  In e (first :: rest) -> Prim2SF e = S754_infinity false ->
  SF_nan_or_pinf (py_max first rest).
Proof.
  revert first. induction rest as [| item rest IH]; intros first Hin He.
  - destruct Hin as [-> | []]. right. exact He.
  - destruct Hin as [-> | [-> | Hin]].
    + apply py_max_keeps_pinf_or_nan. right. exact He.
    + unfold py_max. cbn [fold_left].
      destruct (e >? first)%num eqn:Hlt.
      * apply (py_max_keeps_pinf_or_nan rest). right. exact He.
      * apply (py_max_keeps_pinf_or_nan rest). exact (@ltb_pinf_false first e He Hlt).
    + unfold py_max. cbn [fold_left].
      apply (IH (if (item >? first)%num then item else first)); [ | exact He ].
      right. exact Hin.
Qed.

Lemma pinf_or_nan_exceeds_tolerance (m : float) :
  SF_nan_or_pinf m -> (absolute m <=? tolerance)%num = false.
Proof.
  change ((absolute m <=? tolerance)%num)
    with (PrimFloat.leb (abs m) (float_of_Q 1e-9)).
  rewrite leb_spec, abs_spec.
  change (Prim2SF (float_of_Q 1e-9))
    with (S754_finite false 4835703278458517 (-82)).
  intros [-> | ->]; reflexivity.
Qed.

Lemma v9_get_in (i : nat) (r : vec9 float) :
  In (v9_get i r) (p0 r :: [p1 r; p2 r; p3 r; p4 r; p5 r; p6 r; p7 r; p8 r]).
Proof.
  do 8 (destruct i as [| i]; [ cbn; tauto | ]). cbn. tauto.
Qed.

Lemma relative_change_entry (i : nat) (x last_x : vec9 float) :
  v9_get i (relative_change x last_x) =
  ((two * (v9_get i x - v9_get i last_x)) / (v9_get i x + v9_get i last_x))%num.
Proof.
  do 8 (destruct i as [| i]; [ reflexivity | ]). reflexivity.
Qed.

Lemma sum_entry (i : nat) (x last_x : vec9 float) :
  v9_get i (v9_map2 add x last_x) = (v9_get i x + v9_get i last_x)%num.
Proof.
  do 8 (destruct i as [| i]; [ reflexivity | ]). reflexivity.
Qed.

(** Entry 0 is where [max] starts: a NaN there is never replaced. *)
Lemma py_max_first_nan (rest : list float) (first : float) :
  PrimFloat.is_nan first = true ->
  (absolute (py_max first rest) <=? tolerance)%num = false.
Proof.
  intro Hn. apply is_nan_SF in Hn.
  apply pinf_or_nan_exceeds_tolerance, py_max_keeps_pinf_or_nan.
  left. exact Hn.
Qed.

(** C5, as the code has it.  The criterion has no guard: when entry [i] of
    [x + last_x] is zero the division is carried out by the rules of
    IEEE-754 and raises nothing.  The ratio of that parameter is then a NaN
    or an infinity, and a NaN when the old and the new value are both zero.
    A ratio of plus infinity, and a NaN ratio of parameter 0, make the
    criterion fail, so that the iteration goes on. *)
Theorem zero_denominator_is_divided (x last_x : vec9 float) (i : nat) :
  (v9_get i (v9_map2 add x last_x) =? zero)%num = true ->
  let r := v9_get i (relative_change x last_x) in
  (PrimFloat.is_nan r || PrimFloat.is_infinity r = true) /\
  ((v9_get i x =? zero)%num = true -> (v9_get i last_x =? zero)%num = true ->
   PrimFloat.is_nan r = true) /\
  (PrimFloat.eqb r infinity = true -> convergence_criterion x last_x = false) /\
  (i = 0%nat -> PrimFloat.is_nan r = true ->
   convergence_criterion x last_x = false).
Proof.
  intros Hz r. subst r. rewrite sum_entry in Hz.
  destruct (@eqb_zero_SF _ Hz) as [sg Hsg].
  split; [ | split; [ | split ] ].
  - rewrite relative_change_entry.
    destruct (@div_by_zero_SF (two * (v9_get i x - v9_get i last_x))%num _ _ Hsg)
      as [Hn | Hi].
    + apply is_nan_SF in Hn. change PrimFloat.div with (@div float binary64) in Hn.
      rewrite Hn. reflexivity.
    + apply is_infinity_SF in Hi. change PrimFloat.div with (@div float binary64) in Hi.
      rewrite Hi. apply orb_true_r.
  - intros Hx Hl. rewrite relative_change_entry.
    destruct (@eqb_zero_SF _ Hx) as [sa Ha], (@eqb_zero_SF _ Hl) as [sb Hb].
    apply is_nan_SF. exact (@zero_over_zero_is_nan _ _ _ _ Ha Hb).
  - intro Hinf. apply eqb_infinity_SF in Hinf.
    unfold convergence_criterion, criterion_value.
    apply pinf_or_nan_exceeds_tolerance.
    exact (@py_max_with_pinf _ _ _ (v9_get_in i _) Hinf).
  - intros -> Hn. unfold convergence_criterion, criterion_value.
    apply py_max_first_nan. exact Hn.
Qed.

(** Parameter 2 goes from -0.5 to 0.5 while the others stay: the ratio is
    plus infinity and the iteration is not accepted. *)
Lemma zero_denominator_is_divided_witness :
  let x := (V9 5 0.5 0.5 5 0.5 5 0.5 0.5 0.5)%float in
  let last_x := (V9 5 0.5 (-0.5) 5 0.5 5 0.5 0.5 0.5)%float in
  (v9_get 2 (v9_map2 add x last_x) =? zero)%num = true /\
  PrimFloat.eqb (v9_get 2 (relative_change x last_x)) infinity = true /\
  convergence_criterion x last_x = false.
Proof.
  cbv zeta. split; [ reflexivity | split; [ reflexivity | ] ].
  apply (proj1 (proj2 (proj2
    (@zero_denominator_is_divided
       (V9 5 0.5 0.5 5 0.5 5 0.5 0.5 0.5)%float
       (V9 5 0.5 (-0.5) 5 0.5 5 0.5 0.5 0.5)%float 2 eq_refl)))).
  reflexivity.
Defined.

(** Parameter 1 goes from 0.5 to -0.5 while the others stay: entry 1 of
    [x + last_x] is zero, neither value is zero, the ratio is minus
    infinity, which [max] passes over, and the criterion holds. *)
Lemma criterion_accepts_a_sign_flip :
  let x := (V9 5 (-0.5) 0.5 5 0.5 5 0.5 0.5 0.5)%float in
  let last_x : vec9 float := initial_x in
  (p1 (v9_map2 add x last_x) =? zero)%num = true /\
  (p1 x =? zero)%num = false /\
  (p1 last_x =? zero)%num = false /\
  PrimFloat.eqb (p1 (relative_change x last_x)) neg_infinity = true /\
  convergence_criterion x last_x = true.
Proof. split_conjunction; vm_compute; reflexivity. Qed.

(** * More properties of the calibration module *)

(** ** What the methods assign *)

Section Keeps.
Context {F A : Type} `{Number F}.
Variable attribute : StandardCalibration F -> A.

Lemma keeps_ret {B : Type} (b : B) : keeps attribute (ret b).
Proof. intro self. reflexivity. Qed.

Lemma keeps_raise {B : Type} (e : exn) : keeps attribute (raise (A:=B) e).
Proof. intro self. reflexivity. Qed.

Lemma keeps_read {B : Type} (f : StandardCalibration F -> B) :
  keeps attribute (read f).
Proof. intro self. reflexivity. Qed.

Lemma keeps_assign (f : StandardCalibration F -> StandardCalibration F) :
  (forall self, attribute (f self) = attribute self) ->
  keeps attribute (assign f).
Proof. intros Hf self. exact (Hf self). Qed.

Lemma keeps_bind {B C : Type} (m : method (F:=F) B) (k : B -> method (F:=F) C) :
  keeps attribute m -> (forall b, keeps attribute (k b)) ->
  keeps attribute (bind m k).
Proof.
  intros Hm Hk self. unfold bind. specialize (Hm self).
  destruct (m self) as [self' [b | e]]; cbn in *.
  - rewrite (Hk b self'). exact Hm.
  - exact Hm.
Qed.
End Keeps.

Ltac keeps_step :=
  first [ apply keeps_ret | apply keeps_raise | apply keeps_read
        | apply keeps_assign; intro; reflexivity
        | apply keeps_bind; [ | intro ] ].

Lemma six_point_axis_keeps {F A : Type} `{Number F}
  (attribute : StandardCalibration F -> A) (client : session F) (index : axis) :
  (forall v self, attribute (set_acc_zero_g v self) = attribute self) ->
  (forall v self, attribute (set_acc_sensitivity v self) = attribute self) ->
  keeps attribute (six_point_axis client index).
Proof.
  intros Hz Hs. unfold six_point_axis.
  apply keeps_bind; [ apply keeps_read | intros [z | ] ]; [ | apply keeps_raise ].
  apply keeps_bind; [ apply keeps_assign; intro; apply Hz | intros _ ].
  destruct (py_div _ _) as [s | e]; [ | apply keeps_raise ].
  apply keeps_bind; [ apply keeps_read | intros [v | ] ]; [ | apply keeps_raise ].
  apply keeps_assign. intro. apply Hs.
Qed.

Lemma six_point_pass_keeps {F A : Type} `{Number F}
  (attribute : StandardCalibration F -> A) (client : session F) :
  (forall v self, attribute (set_acc_zero_g v self) = attribute self) ->
  (forall v self, attribute (set_acc_sensitivity v self) = attribute self) ->
  keeps attribute (_do_six_point_one_g_calibration client).
Proof.
  intros Hz Hs. unfold _do_six_point_one_g_calibration.
  apply keeps_bind; [ apply keeps_assign; intro; apply Hz | intros _ ].
  apply keeps_bind; [ apply keeps_assign; intro; apply Hs | intros _ ].
  do 3 (apply keeps_bind; [ apply six_point_axis_keeps; assumption | intros _ ]).
  apply keeps_ret.
Qed.

(** X1. The solver assigns nothing but the scale factor matrix and the bias
    vector: whatever the points, the inversion routine and the way it ends,
    the version, the settings, the zero-g levels, the sensitivities and the
    gyroscope parameters of the object are as before. *)
Theorem optimisation_keeps_the_other_attributes {F : Type} `{Number F}
  (linalg_inv : mat9 F -> result (mat9 F)) (points : list (vec3 F))
  (self : StandardCalibration F) :
  let self' := fst (_perform_calibration_optimisation linalg_inv points self) in
  pyberryimu_version self' = pyberryimu_version self /\
  _verbose self' = _verbose self /\
  berryimu_settings self' = berryimu_settings self /\
  acc_zero_g self' = acc_zero_g self /\
  acc_sensitivity self' = acc_sensitivity self /\
  gyro_zero self' = gyro_zero self /\
  gyro_sensitivity self' = gyro_sensitivity self.
Proof.
  cbv zeta. unfold _perform_calibration_optimisation.
  destruct (List.length points <? 9)%nat; [ split_conjunction; reflexivity | ].
  destruct (optimisation_loop linalg_inv nbr_iterations points initial_state)
    as [x | st | e]; [ | split_conjunction; reflexivity .. ].
  destruct (optvec_to_M_and_b x) as [M b]. split_conjunction; reflexivity.
Qed.

(** A matrix the solver leaves on the object is the one it found there or
    a symmetric one. *)
Lemma optimisation_stores_a_symmetric_matrix {F : Type} `{Number F}
  (linalg_inv : mat9 F -> result (mat9 F)) (points : list (vec3 F))
  (self : StandardCalibration F) (M : mat3 F) :
  acc_scale_factor_matrix
    (fst (_perform_calibration_optimisation linalg_inv points self)) = Some M ->
  acc_scale_factor_matrix self = Some M \/ symmetric M.
Proof.
  unfold _perform_calibration_optimisation.
  destruct (List.length points <? 9)%nat; [ intro E; left; exact E | ].
  destruct (optimisation_loop linalg_inv nbr_iterations points initial_state)
    as [x | st | e]; try (intro E; left; exact E).
  cbn. intro E. injection E as <-. right. repeat split.
Qed.

(** X2. The scale factor matrix that [calibrate_accelerometer] leaves on an
    object that had none is symmetric. *)
Theorem calibrated_scale_factor_matrix_is_symmetric {F : Type} `{Number F}
  (linalg_inv : mat9 F -> result (mat9 F)) (client : session F)
  (self : StandardCalibration F) (M : mat3 F) :
  acc_scale_factor_matrix self = None ->
  acc_scale_factor_matrix (fst (calibrate_accelerometer linalg_inv client self))
    = Some M ->
  symmetric M.
Proof.
  intros Hnone. unfold calibrate_accelerometer.
  unfold bind at 1. unfold read at 1.
  destruct (acc_zero_g self) as [z | ].
  - cbn. rewrite Hnone. discriminate.
  - unfold bind at 1. unfold assign at 1.
    pose (s1 := set_berryimu_settings (get_settings client) self).
    fold s1. unfold bind at 1.
    pose proof (six_point_pass_keeps (@acc_scale_factor_matrix F) client
                  (fun _ _ => eq_refl) (fun _ _ => eq_refl) s1) as Hsix.
    destruct (_do_six_point_one_g_calibration client s1) as [s2 [pts | e]];
      cbn [fst] in Hsix.
    + unfold bind at 1. unfold _add_additional_points, ret.
      unfold bind at 1. unfold read at 1.
      unfold bind at 1. unfold read at 1.
      destruct (acc_zero_g s2) as [z | ], (acc_sensitivity s2) as [s | ];
        try (cbn; rewrite Hsix; subst s1; cbn; rewrite Hnone; discriminate).
      intro E. apply optimisation_stores_a_symmetric_matrix in E.
      destruct E as [E | E]; [ | exact E ].
      rewrite Hsix in E. subst s1. cbn in E. rewrite Hnone in E. discriminate.
    + cbn. rewrite Hsix. subst s1. cbn. rewrite Hnone. discriminate.
Qed.

Lemma calibrated_scale_factor_matrix_is_symmetric_witness :
  let run := calibrate_accelerometer gauss_jordan_inv
               (axis_session (-1000) 1000
                  [V3 600 800 0; V3 0 600 800; V3 800 0 600])%float
               (__init__ "0.1.0" false) in
  acc_scale_factor_matrix (__init__ (F:=float) "0.1.0" false) = None /\
  exists M, acc_scale_factor_matrix (fst run) = Some M /\ symmetric M.
Proof.
  cbv zeta. split; [ reflexivity | ].
  eexists. split; [ vm_compute; reflexivity | ].
  apply (@calibrated_scale_factor_matrix_is_symmetric float binary64
           gauss_jordan_inv
           (axis_session (-1000) 1000
              [V3 600 800 0; V3 0 600 800; V3 800 0 600])%float
           (__init__ "0.1.0" false)).
  - reflexivity.
  - vm_compute. reflexivity.
Defined.

(** X3. The six axis-aligned points are never enough: when the six-point
    pass completes and the operator records fewer than three additional
    points, [calibrate_accelerometer] raises the [ValueError] of the
    solver, whatever the readings are. *)
Theorem fewer_than_three_additional_points_raise {F : Type} `{Number F}
  (linalg_inv : mat9 F -> result (mat9 F)) (client : session F)
  (self : StandardCalibration F) :
  acc_zero_g self = None ->
  (forall index,
      (v_max client index - v_min client index =? zero)%num = false) ->
  (List.length (additional_readings client) < 3)%nat ->
  snd (calibrate_accelerometer linalg_inv client self) =
    Raise (ValueError
      "Need at least 9 Measurements for the calibration procedure!").
Proof.
  intros Hnone Hspan Hfew.
  unfold calibrate_accelerometer.
  unfold bind at 1. unfold read at 1. rewrite Hnone.
  unfold bind at 1. unfold assign at 1.
  unfold bind at 1. rewrite (six_point_pass client Hspan).
  unfold bind at 1. unfold _add_additional_points, ret.
  unfold bind at 1. unfold read at 1.
  unfold bind at 1. unfold read at 1.
  cbn [acc_zero_g acc_sensitivity set_acc_sensitivity set_acc_zero_g].
  unfold _perform_calibration_optimisation.
  assert (Hlen : (List.length
            (map (fun point =>
                    v3_mul (v3_sub point
                      (V3 ((v_max client AxisX + v_min client AxisX) / two)
                          ((v_max client AxisY + v_min client AxisY) / two)
                          ((v_max client AxisZ + v_min client AxisZ) / two))%num)
                      (V3 (two / (v_max client AxisX - v_min client AxisX))
                          (two / (v_max client AxisY - v_min client AxisY))
                          (two / (v_max client AxisZ - v_min client AxisZ)))%num)
               ((axis_points client AxisX ++ axis_points client AxisY
                 ++ axis_points client AxisZ) ++ additional_readings client))
            <? 9)%nat = true).
  { apply Nat.ltb_lt. rewrite length_map, !length_app. cbn. lia. }
  rewrite Hlen. reflexivity.
Qed.

Lemma fewer_than_three_additional_points_raise_witness :
  let client := (axis_session (-800) 1200
                   [V3 800 1000 200; V3 200 800 1000])%float in
  acc_zero_g (__init__ (F:=float) "0.1.0" false) = None /\
  (List.length (additional_readings client) < 3)%nat /\
  snd (calibrate_accelerometer gauss_jordan_inv client (__init__ "0.1.0" false)) =
    Raise (ValueError
      "Need at least 9 Measurements for the calibration procedure!").
Proof.
  cbv zeta. split; [ reflexivity | split; [ cbn; lia | ] ].
  apply (@fewer_than_three_additional_points_raise float binary64).
  - reflexivity.
  - intros []; vm_compute; reflexivity.
  - cbn. lia.
Defined.

(** ** The polling *)

Section PollingFacts.
Context {F : Type} `{Number F}.
Variables (index : axis) (side : Z).

Lemma wait_for_compliance_from_returns (samples : list (vec3 Z)) :
  forall (keep_waiting : nat) (rest : list (vec3 Z)),
  wait_for_compliance_from (F:=F) index side samples keep_waiting = Some rest ->
  exists before run,
    samples = before ++ run ++ rest /\
    forallb (compliant (F:=F) index side) run = true /\
    ((before = [] /\ List.length run = keep_waiting) \/
     (List.length run = 10%nat /\
      exists earlier a, before = earlier ++ [a] /\
                        compliant (F:=F) index side a = false)).
Proof.
  induction samples as [ | a samples IH]; intros k rest E.
  - destruct k as [ | k]; [ | discriminate ].
    injection E as <-. exists [], []. repeat split. left. split; reflexivity.
  - destruct k as [ | k].
    + injection E as <-. exists [], []. repeat split. left. split; reflexivity.
    + cbn [wait_for_compliance_from] in E.
      destruct (compliant index side a) eqn:Ca.
      * apply IH in E. destruct E as (before & run & -> & Hrun & Hcase).
        destruct Hcase as [[-> Hlen] | [Hlen (earlier & b & -> & Cb)]].
        -- exists [], (a :: run). cbn. rewrite Ca, Hrun. repeat split.
           left. split; [ reflexivity | now rewrite Hlen ].
        -- exists (a :: earlier ++ [b]), run. repeat split; try assumption.
           right. split; [ assumption | ].
           exists (a :: earlier), b. split; [ reflexivity | assumption ].
      * apply IH in E. destruct E as (before & run & -> & Hrun & Hcase).
        destruct Hcase as [[-> Hlen] | [Hlen (earlier & b & -> & Cb)]].
        -- exists [a], run. repeat split; try assumption.
           right. split; [ assumption | ].
           exists [], a. split; [ reflexivity | assumption ].
        -- exists (a :: earlier ++ [b]), run. repeat split; try assumption.
           right. split; [ assumption | ].
           exists (a :: earlier), b. split; [ reflexivity | assumption ].
Qed.

Lemma wait_for_compliance_from_run (run : list (vec3 Z)) :
  forall (rest : list (vec3 Z)) (keep_waiting : nat),
  forallb (compliant (F:=F) index side) run = true ->
  (keep_waiting <= List.length run)%nat ->
  wait_for_compliance_from (F:=F) index side (run ++ rest) keep_waiting =
    Some (skipn keep_waiting run ++ rest).
Proof.
  induction run as [ | a run IH]; intros rest k Hrun Hk.
  - cbn in Hk. assert (k = 0%nat) as -> by lia. destruct rest; reflexivity.
  - destruct k as [ | k]; [ reflexivity | ].
    cbn in Hrun. apply andb_prop in Hrun. destruct Hrun as [Ca Hrun].
    cbn [wait_for_compliance_from app]. rewrite Ca.
    rewrite IH; [ reflexivity | assumption | cbn in Hk; lia ].
Qed.

Lemma wait_for_compliance_from_reaches (before : list (vec3 Z)) :
  forall (run rest : list (vec3 Z)) (keep_waiting : nat),
  forallb (compliant (F:=F) index side) run = true ->
  List.length run = 10%nat -> (keep_waiting <= 10)%nat ->
  exists rest',
    wait_for_compliance_from (F:=F) index side (before ++ run ++ rest) keep_waiting
      = Some rest' /\
    (List.length rest <= List.length rest')%nat.
Proof.
  induction before as [ | a before IH]; intros run rest k Hrun Hlen Hk.
  - cbn [app]. rewrite wait_for_compliance_from_run by (assumption || lia).
    eexists. split; [ reflexivity | ]. rewrite length_app. lia.
  - destruct k as [ | k].
    + eexists. split; [ reflexivity | ]. cbn. rewrite !length_app. lia.
    + cbn [wait_for_compliance_from app].
      destruct (compliant index side a); apply IH; assumption || lia.
Qed.
End PollingFacts.

(** X4. [_wait_for_compliance] returns only on ten compliant samples in a
    row: when it returns, the samples it read end with ten consecutive
    compliant ones, and these are the first such ten, since what came
    before them is nothing or ends with a sample that is not compliant. *)
Theorem wait_for_compliance_returns_after_ten_in_a_row {F : Type} `{Number F}
  (index : axis) (side : Z) (samples rest : list (vec3 Z)) :
  _wait_for_compliance (F:=F) index side samples = Some rest ->
  exists before run,
    samples = before ++ run ++ rest /\
    List.length run = 10%nat /\
    forallb (compliant (F:=F) index side) run = true /\
    (before = [] \/
     exists earlier a, before = earlier ++ [a] /\
                       compliant (F:=F) index side a = false).
Proof.
  intro E. apply wait_for_compliance_from_returns in E.
  destruct E as (before & run & -> & Hrun & Hcase).
  exists before, run. split; [ reflexivity | ].
  destruct Hcase as [[-> Hlen] | [Hlen Hlast]].
  - split; [ exact Hlen | ]. split; [ exact Hrun | ]. left. reflexivity.
  - split; [ exact Hlen | ]. split; [ exact Hrun | ]. right. exact Hlast.
Qed.

Lemma wait_for_compliance_returns_after_ten_in_a_row_witness :
  let samples := ([V3 1000 0 0; V3 5 5 990] ++ upright 4
                  ++ [V3 0 700 700] ++ upright 10 ++ [V3 1 2 3])%Z in
  _wait_for_compliance (F:=float) AxisZ 1 samples = Some [V3 1 2 3]%Z /\
  exists before run,
    samples = before ++ run ++ [V3 1 2 3]%Z /\
    List.length run = 10%nat /\
    forallb (compliant (F:=float) AxisZ 1) run = true /\
    (before = [] \/
     exists earlier a, before = earlier ++ [a] /\
                       compliant (F:=float) AxisZ 1 a = false).
Proof.
  cbv zeta. split; [ vm_compute; reflexivity | ].
  apply (@wait_for_compliance_returns_after_ten_in_a_row float binary64).
  vm_compute. reflexivity.
Defined.

(** X5. [_wait_for_compliance] does return on ten compliant samples in a
    row: whatever was read before them, it has returned by the time they
    are read, and reads none of the samples after them. *)
Theorem wait_for_compliance_returns_at_ten_in_a_row {F : Type} `{Number F}
  (index : axis) (side : Z) (before run rest : list (vec3 Z)) :
  List.length run = 10%nat ->
  forallb (compliant (F:=F) index side) run = true ->
  exists rest',
    _wait_for_compliance (F:=F) index side (before ++ run ++ rest) = Some rest' /\
    (List.length rest <= List.length rest')%nat.
Proof.
  intros Hlen Hrun. unfold _wait_for_compliance.
  apply wait_for_compliance_from_reaches; [ assumption | assumption | lia ].
Qed.

Lemma wait_for_compliance_returns_at_ten_in_a_row_witness :
  List.length (upright 10) = 10%nat /\
  forallb (compliant (F:=float) AxisZ 1) (upright 10) = true /\
  exists rest',
    _wait_for_compliance (F:=float) AxisZ 1
      ([V3 0 0 (-1000); V3 0 0 0]%Z ++ upright 10 ++ [V3 1 2 3]%Z) = Some rest' /\
    (List.length [V3 1 2 3]%Z <= List.length rest')%nat.
Proof.
  split; [ reflexivity | ]. split; [ vm_compute; reflexivity | ].
  apply (@wait_for_compliance_returns_at_ten_in_a_row float binary64).
  - reflexivity.
  - vm_compute. reflexivity.
Defined.

Lemma of_int_real (z : Z) : of_int (F:=R) z = IZR z.
Proof. unfold of_int. cbn. unfold Q2R, inject_Z. cbn. field. Qed.

Lemma Rltb_true (a b : R) : Rltb a b = true <-> (a < b)%R.
Proof. unfold Rltb. destruct (Rlt_dec a b); split; intro; try assumption; try reflexivity; try discriminate; contradiction. Qed.

Lemma py_cmp_sign (a side : Z) :
  side <> 0%Z -> py_cmp a 0 = side -> a <> 0%Z.
Proof.
  intros Hside E ->. apply Hside. rewrite <- E. reflexivity.
Qed.

Lemma within_five_percent (x n : R) :
  (0 <= x)%R -> (0 < n)%R -> (x <= n)%R ->
  (Rabs (x - n) / n < 5 / 100)%R <-> (361 * (n * n) < 400 * (x * x))%R.
Proof.
  intros Hx Hn Hxn.
  rewrite Rabs_left1 by lra.
  split; intro Hlt.
  - assert (Hm : (- (x - n) < 5 / 100 * n)%R).
    { apply (Rmult_lt_compat_r n) in Hlt; [ | exact Hn ].
      replace (- (x - n) / n * n)%R with (- (x - n))%R in Hlt by (field; lra).
      exact Hlt. }
    nra.
  - apply (Rmult_lt_reg_r n); [ exact Hn | ].
    replace (- (x - n) / n * n)%R with (- (x - n))%R by (field; lra).
    nra.
Qed.

(** X6. The test of [_wait_for_compliance] in exact arithmetic, for a
    [side] of -1 or 1: a sample passes exactly when the reading of the axis
    has the sign asked for and exceeds 95 percent of the norm of the sample,
    that is [400 * a[index]^2 > 361 * |a|^2].  A zero reading on the axis
    never passes. *)
Theorem compliant_in_exact_arithmetic (index : axis) (side : Z) (a : vec3 Z) :
  side <> 0%Z ->
  compliant (F:=R) index side a = true <->
  py_cmp (v3_get index a) 0 = side /\
  (361 * (c0 a * c0 a + c1 a * c1 a + c2 a * c2 a)
   < 400 * (v3_get index a * v3_get index a))%Z.
Proof.
  intro Hside. unfold compliant. rewrite andb_true_iff, Z.eqb_eq.
  change (@ltb R exact_real) with Rltb. rewrite Rltb_true.
  set (S := (c0 a * c0 a + c1 a * c1 a + c2 a * c2 a)%Z).
  set (ai := v3_get index a).
  assert (HS : (ai * ai <= S)%Z).
  { subst S ai. destruct index; cbn; nia. }
  enough (Hmain : py_cmp ai 0 = side ->
            ((norm_diff (F:=R) index a < Q2R 0.05)%R <->
             (361 * S < 400 * (ai * ai))%Z)).
  { split; intros [H1 H2]; (split; [ | apply Hmain ]; assumption) || 
    (split; [ apply Hmain | ]; assumption). }
  intro Hcmp. pose proof (py_cmp_sign Hside Hcmp) as Hai.
  unfold norm_diff. fold S. fold ai.
  change (@absolute R exact_real) with Rabs.
  change (@sqroot R exact_real) with sqrt.
  change (@div R exact_real) with Rdiv.
  change (@sub R exact_real) with Rminus.
  rewrite !of_int_real.
  replace (Q2R 0.05) with (5 / 100)%R by (unfold Q2R; cbn; field).
  assert (Hai2 : (0 < ai * ai)%Z) by nia.
  assert (HSpos : (0 < IZR S)%R) by (apply IZR_lt; lia).
  pose proof (sqrt_lt_R0 (IZR S) HSpos) as Hn.
  pose proof (sqrt_sqrt (IZR S) (Rlt_le _ _ HSpos)) as Hnn.
  assert (Hx : (0 <= IZR (Z.abs ai))%R) by (apply IZR_le; lia).
  assert (Hxx : (IZR (Z.abs ai) * IZR (Z.abs ai) = IZR (ai * ai))%R).
  { rewrite <- mult_IZR. f_equal. lia. }
  assert (Hxn : (IZR (Z.abs ai) <= sqrt (IZR S))%R).
  { apply Rsqr_incr_0_var; [ | lra ]. unfold Rsqr. rewrite Hxx, Hnn.
    apply IZR_le. exact HS. }
  rewrite (within_five_percent Hx Hn Hxn), Hnn, Hxx.
  rewrite <- !mult_IZR. split; intro Hlt.
  - apply lt_IZR. exact Hlt.
  - apply IZR_lt. exact Hlt.
Qed.

Lemma compliant_in_exact_arithmetic_witness :
  (1 <> 0)%Z /\ compliant (F:=R) AxisZ 1 (V3 300 0 1000)%Z = true.
Proof.
  split; [ lia | ].
  apply (@compliant_in_exact_arithmetic AxisZ 1 (V3 300 0 1000)%Z).
  - lia.
  - split; [ reflexivity | ]. cbn. lia.
Defined.

(** ** The dialogue for the additional points *)

Lemma additional_points_dialogue_returns {F : Type}
  (gathered : nat -> vec3 F) (n : nat) :
  forall (lines : list string) (points pts : list (vec3 F)) (rest : list string),
  (List.length lines <= n)%nat ->
  additional_points_dialogue gathered lines points = Returns (pts, rest) ->
  exists (k : nat) (read : list string),
    pts = points ++ map gathered (seq (List.length points) k) /\
    lines = read ++ "n"%string :: rest /\
    (2 * k <= List.length read)%nat.
Proof.
  induction n as [ | n IH]; intros lines points pts rest Hn E.
  - destruct lines; [ discriminate | cbn in Hn; lia ].
  - destruct lines as [ | ch lines]; [ discriminate | ].
    cbn [additional_points_dialogue] in E. cbn in Hn.
    destruct (String.eqb ch "y") eqn:Hy.
    + destruct lines as [ | ok lines]; [ discriminate | ].
      apply IH in E; [ | cbn in Hn; lia ].
      destruct E as (k & read & -> & -> & Hk).
      exists (S k), (ch :: ok :: read). split; [ | split ].
      * rewrite <- app_assoc. cbn [app map seq]. rewrite length_app. cbn.
        now rewrite Nat.add_1_r.
      * reflexivity.
      * cbn. lia.
    + destruct (String.eqb ch "n") eqn:Hch.
      * injection E as <- <-. apply String.eqb_eq in Hch. subst ch.
        exists 0%nat, []. cbn. rewrite app_nil_r. repeat split. lia.
      * apply IH in E; [ | lia ].
        destruct E as (k & read & -> & -> & Hk).
        exists k, (ch :: read). repeat split. cbn. lia.
Qed.

(** X7. What [_add_additional_points] returns: the means gathered after
    the answers [y], in the order they were gathered, and as many of them
    as the operator asked for; the dialogue ended on an answer [n], every
    point cost two lines, and no number of points is required of the
    operator here. *)
Theorem additional_points_are_the_means_in_order {F : Type}
  (gathered : nat -> vec3 F) (lines rest : list string) (pts : list (vec3 F)) :
  additional_points_dialogue gathered lines [] = Returns (pts, rest) ->
  exists (k : nat) (read : list string),
    pts = map gathered (seq 0 k) /\
    lines = read ++ "n"%string :: rest /\
    (2 * k <= List.length read)%nat.
Proof.
  intro E.
  apply (@additional_points_dialogue_returns F gathered (List.length lines)) in E;
    [ | lia ].
  exact E.
Qed.

Lemma additional_points_are_the_means_in_order_witness :
  let gathered := fun k : nat => V3 (Z.of_nat k) 0%Z 1%Z in
  let lines := ["y"; ""; ""; "yes"; "y"; "n"; "n"; "y"]%string in
  additional_points_dialogue gathered lines [] =
    Returns ([V3 0 0 1; V3 1 0 1]%Z, ["y"]%string) /\
  exists (k : nat) (read : list string),
    [V3 0 0 1; V3 1 0 1]%Z = map gathered (seq 0 k) /\
    lines = read ++ "n"%string :: ["y"]%string /\
    (2 * k <= List.length read)%nat.
Proof.
  cbv zeta. split; [ reflexivity | ].
  apply (@additional_points_are_the_means_in_order Z
           (fun k : nat => V3 (Z.of_nat k) 0%Z 1%Z)
           ["y"; ""; ""; "yes"; "y"; "n"; "n"; "y"]%string ["y"]%string
           [V3 0 0 1; V3 1 0 1]%Z).
  reflexivity.
Defined.

Lemma additional_points_dialogue_raises {F : Type}
  (gathered : nat -> vec3 F) (n : nat) :
  forall (lines : list string) (points : list (vec3 F)) (e : exception),
  (List.length lines <= n)%nat ->
  additional_points_dialogue gathered lines points = Raises e ->
  e = EOFError.
Proof.
  induction n as [ | n IH]; intros lines points e Hn E.
  - destruct lines; [ | cbn in Hn; lia ]. cbn in E. congruence.
  - destruct lines as [ | ch lines]; [ cbn in E; congruence | ].
    cbn [additional_points_dialogue] in E. cbn in Hn.
    destruct (String.eqb ch "y").
    + destruct lines as [ | ok lines]; [ congruence | ].
      apply IH in E; [ exact E | cbn in Hn; lia ].
    + destruct (String.eqb ch "n"); [ discriminate | ].
      apply IH in E; [ exact E | lia ].
Qed.

Lemma additional_points_dialogue_without_n {F : Type}
  (gathered : nat -> vec3 F) (n : nat) :
  forall (lines : list string) (points : list (vec3 F)),
  (List.length lines <= n)%nat ->
  existsb (String.eqb "n") lines = false ->
  additional_points_dialogue gathered lines points = Raises EOFError.
Proof.
  induction n as [ | n IH]; intros lines points Hn Hno.
  - destruct lines; [ reflexivity | cbn in Hn; lia ].
  - destruct lines as [ | ch lines]; [ reflexivity | ].
    cbn [additional_points_dialogue]. cbn in Hn.
    cbn [existsb] in Hno. apply orb_false_elim in Hno. destruct Hno as [Hch Hno].
    destruct (String.eqb ch "y").
    + destruct lines as [ | ok lines]; [ reflexivity | ].
      cbn [existsb] in Hno. apply orb_false_elim in Hno.
      apply IH; [ cbn in Hn; lia | apply Hno ].
    + rewrite String.eqb_sym, Hch. apply IH; [ lia | exact Hno ].
Qed.

(** X8. Only the answer [n] ends the dialogue of
    [_add_additional_points]: on input that holds no line [n] it reads all
    the lines and fails with [EOFError], whatever else was typed. *)
Theorem additional_points_dialogue_ends_only_on_n {F : Type}
  (gathered : nat -> vec3 F) (lines : list string) :
  existsb (String.eqb "n") lines = false ->
  additional_points_dialogue gathered lines [] = Raises EOFError.
Proof.
  intro Hno.
  apply (@additional_points_dialogue_without_n F gathered (List.length lines));
    [ lia | exact Hno ].
Qed.

Lemma additional_points_dialogue_ends_only_on_n_witness :
  existsb (String.eqb "n") ["y"; "ok"; "no"; "N"; "y"; "q"]%string = false /\
  additional_points_dialogue (fun k : nat => V3 (Z.of_nat k) 0%Z 1%Z)
    ["y"; "ok"; "no"; "N"; "y"; "q"]%string [] = Raises EOFError.
Proof.
  split; [ reflexivity | ].
  apply (@additional_points_dialogue_ends_only_on_n Z).
  reflexivity.
Defined.

(** ** Loading *)

Ltac load_steps E :=
  repeat match type of E with
  | bind_result ?r _ = Ok _ =>
      let a := fresh "a" in
      let Ea := fresh "E" a in
      destruct r as [a | ] eqn:Ea; cbn [bind_result] in E; [ | discriminate E ]
  end.




(** X10. A document without an [accelerometer] entry loads as the identity
    calibration: in exact arithmetic [transform_accelerometer_values]
    returns the raw values unchanged. *)
Theorem load_without_accelerometer_entry_is_identity
  (version doc_path : string) (fs : filesystem R)
  (items : list (string * json R)) (out : StandardCalibration R)
  (acc_values : vec3 R) :
  fs doc_path = Some (JDict items) ->
  lookup "accelerometer" items = None ->
  load version doc_path fs = Ok out ->
  transform_accelerometer_values out acc_values = Ok acc_values.
Proof.
  intros Hdoc Hacc. unfold load. rewrite Hdoc. cbv zeta.
  unfold dict_get at 1 2 3. rewrite Hacc.
  cbn [bind_result dict_get lookup int_list map np_array3 to_float tolist
       mat3_flatten np_eye3 v3_to_list row0 row1 row2 c0 c1 c2 app np_reshape33].
  intro E. load_steps E. injection E as <-.
  unfold transform_accelerometer_values. cbn.
  destruct acc_values as [x y z]. unfold v3_sub, v3_mul, v3_map2, inner3, one, zero.
  cbn. unfold Q2R. cbn. unfold mat3_dot, inner3. cbn.
  match goal with
  | |- Ok (V3 ?a ?b ?c) = _ =>
      replace a with x by field; replace b with y by field;
      replace c with z by field
  end.
  reflexivity.
Qed.

Lemma load_without_accelerometer_entry_is_identity_witness :
  let fs : filesystem R :=
    fun _ => Some (JDict [("BerryIMU_settings", JDict [])]%string) in
  exists out,
    load "0.1.0" ".pyberryimu" fs = Ok out /\
    transform_accelerometer_values out (V3 12 (-7) 1000)%R = Ok (V3 12 (-7) 1000)%R.
Proof.
  cbv zeta. eexists. split; [ reflexivity | ].
  apply (@load_without_accelerometer_entry_is_identity "0.1.0" ".pyberryimu"
           (fun _ => Some (JDict [("BerryIMU_settings", JDict [])]%string))
           [("BerryIMU_settings", JDict [])]%string).
  - reflexivity.
  - reflexivity.
  - reflexivity.
Defined.

(** X11. [to_json] followed by [load]: the version that [to_json] writes
    is read back as the settings, whichever version reads the document, the
    settings are read back as the version, the four accelerometer
    parameters come back as they were, and the gyroscope parameters, written
    under [gyro], are the defaults. *)
Theorem to_json_load_reads_version_as_settings {F : Type} `{Number F}
  (written_by read_by doc_path : string) (fs : filesystem F)
  (self : StandardCalibration F) (doc : json F) :
  to_json written_by self = Ok doc ->
  fs doc_path = Some doc ->
  load read_by doc_path fs =
    Ok {| pyberryimu_version := berryimu_settings self;
          _verbose := false;
          berryimu_settings := JString written_by;
          acc_zero_g := acc_zero_g self;
          acc_sensitivity := acc_sensitivity self;
          acc_scale_factor_matrix := acc_scale_factor_matrix self;
          acc_bias_vector := acc_bias_vector self;
          gyro_zero := V3 zero zero zero;
          gyro_sensitivity := V3 one one one |}.
Proof.
  unfold to_json.
  destruct (acc_zero_g self) as [z | ]; [ | discriminate ].
  destruct (acc_sensitivity self) as [s | ]; [ | discriminate ].
  destruct (acc_scale_factor_matrix self) as [M | ]; [ | discriminate ].
  destruct (acc_bias_vector self) as [b | ]; [ | discriminate ].
  intro E. injection E as <-. intro Hdoc.
  unfold load. rewrite Hdoc.
  cbn [dict_get lookup String.eqb Ascii.eqb Bool.eqb bind_result].
  rewrite !np_array3_tolist, np_reshape33_tolist.
  reflexivity.
Qed.

Lemma to_json_load_reads_version_as_settings_witness :
  exists doc,
    to_json "0.2.0" calibrated_example = Ok doc /\
    match load "0.1.0" ".pyberryimu" (fun _ => Some doc) with
    | Ok out => berryimu_settings out = JString "0.2.0"
    | Raise _ => False
    end.
Proof.
  eexists. split; [ reflexivity | ].
  rewrite (@to_json_load_reads_version_as_settings float binary64
             "0.2.0" "0.1.0" ".pyberryimu" _ calibrated_example _
             eq_refl eq_refl).
  reflexivity.
Defined.

(** X12. The residual the solver drives to zero is the one of the
    transformation: in exact arithmetic [error_function], which takes
    [b - y], is the squared norm of what [transform_accelerometer_values],
    which takes [y - b], returns, minus one. *)
Theorem error_function_is_squared_norm_of_transform_minus_one
  (self : StandardCalibration R) (z s b : vec3 R) (M : mat3 R)
  (acc_values : vec3 R) :
  acc_zero_g self = Some z ->
  acc_sensitivity self = Some s ->
  acc_scale_factor_matrix self = Some M ->
  acc_bias_vector self = Some b ->
  exists g,
    transform_accelerometer_values self acc_values = Ok g /\
    error_function M b (v3_mul (v3_sub acc_values z) s) =
      (c0 g * c0 g + c1 g * c1 g + c2 g * c2 g - 1)%R.
Proof.
  intros Hz Hs HM Hb. unfold transform_accelerometer_values.
  rewrite Hz, Hs, HM, Hb. eexists. split; [ reflexivity | ].
  destruct M as [[a00 a01 a02] [a10 a11 a12] [a20 a21 a22]],
           b as [b0 b1 b2], z as [z0 z1 z2], s as [s0 s1 s2],
           acc_values as [v0 v1 v2].
  unfold error_function, mat3_dot, inner3, v3_mul, v3_sub, v3_map2, one.
  cbn. unfold Q2R. cbn. field.
Qed.

Lemma error_function_is_squared_norm_of_transform_minus_one_witness :
  let self := {| pyberryimu_version := JNull; _verbose := false;
                 berryimu_settings := JNull;
                 acc_zero_g := Some (V3 200 200 200)%R;
                 acc_sensitivity := Some (V3 (/ 1000) (/ 1000) (/ 1000))%R;
                 acc_scale_factor_matrix :=
                   Some (M3 (V3 1 0 0) (V3 0 1 0) (V3 0 0 1))%R;
                 acc_bias_vector := Some (V3 0 0 0)%R;
                 gyro_zero := V3 0 0 0; gyro_sensitivity := V3 1 1 1 |}%R in
  exists g,
    transform_accelerometer_values self (V3 200 200 1200)%R = Ok g /\
    error_function (M3 (V3 1 0 0) (V3 0 1 0) (V3 0 0 1))%R (V3 0 0 0)%R
      (v3_mul (v3_sub (V3 200 200 1200)%R (V3 200 200 200)%R)
              (V3 (/ 1000) (/ 1000) (/ 1000))%R) =
      (c0 g * c0 g + c1 g * c1 g + c2 g * c2 g - 1)%R.
Proof.
  cbv zeta.
  apply (@error_function_is_squared_norm_of_transform_minus_one
           _ (V3 200 200 200)%R (V3 (/ 1000) (/ 1000) (/ 1000))%R (V3 0 0 0)%R
           (M3 (V3 1 0 0) (V3 0 1 0) (V3 0 0 1))%R (V3 200 200 1200)%R);
    reflexivity.
Defined.

(** ** The six-point pass in exact arithmetic *)

Lemma v_max_real (client : session R) (index : axis) :
  v_max client index =
    Rmax (v3_get index (mean_reading client index (-1)%Z))
         (v3_get index (mean_reading client index 1%Z)).
Proof. unfold v_max. rewrite py_max_real_is_Rmax. reflexivity. Qed.

Lemma v_min_real (client : session R) (index : axis) :
  v_min client index =
    Rmin (v3_get index (mean_reading client index (-1)%Z))
         (v3_get index (mean_reading client index 1%Z)).
Proof.
  unfold v_min, py_min. cbn [fold_left ltb exact_real]. unfold Rltb, Rmin.
  destruct (Rlt_dec _ _), (Rle_dec _ _); try reflexivity; lra.
Qed.

Lemma Reqb_false (a b : R) : a <> b -> Reqb a b = false.
Proof. intro Hab. unfold Reqb. destruct (Req_dec_T a b); [ contradiction | reflexivity ]. Qed.

(** X13. The six-point pass in exact arithmetic: when the two readings of
    each axis differ, every sensitivity is positive and the normalisation
    [(v - zero) * sensitivity] sends the larger reading of the axis to 1 and
    the smaller to -1, whichever of the two sides gave the larger one. *)
Theorem six_point_maps_the_larger_reading_to_one
  (client : session R) (self : StandardCalibration R) :
  (forall index,
      v3_get index (mean_reading client index (-1)%Z) <>
      v3_get index (mean_reading client index 1%Z)) ->
  exists z s,
    let self' := fst (_do_six_point_one_g_calibration client self) in
    acc_zero_g self' = Some z /\ acc_sensitivity self' = Some s /\
    forall index,
      let normalised := fun v : R =>
        ((v - v3_get index z) * v3_get index s)%R in
      (0 < v3_get index s)%R /\
      normalised (v_max client index) = 1%R /\
      normalised (v_min client index) = (-1)%R.
Proof.
  intro Hdiff.
  assert (Hspan : forall index,
             (v_max client index - v_min client index =? zero)%num = false).
  { intro index. cbn [eqb sub exact_real]. apply Reqb_false.
    rewrite v_max_real, v_min_real. specialize (Hdiff index).
    unfold zero. cbn. unfold Q2R. cbn. unfold Rmax, Rmin.
    destruct (Rle_dec _ _); lra. }
  rewrite (six_point_pass client Hspan). cbn [fst acc_zero_g acc_sensitivity
    set_acc_zero_g set_acc_sensitivity].
  do 2 eexists. split; [ reflexivity | ]. split; [ reflexivity | ].
  intro index. cbv zeta.
  assert (Hlt : (v_min client index < v_max client index)%R).
  { rewrite v_max_real, v_min_real. specialize (Hdiff index).
    unfold Rmax, Rmin. destruct (Rle_dec _ _); lra. }
  assert (Htwo : @two R exact_real = 2%R).
  { unfold two. cbn. unfold Q2R. cbn. field. }
  destruct index; cbn [v3_get c0 c1 c2 add sub mul div exact_real];
    rewrite Htwo; (split; [ | split; field; lra ]);
    apply Rdiv_lt_0_compat; lra.
Qed.

Lemma six_point_maps_the_larger_reading_to_one_witness :
  let client : session R :=
    {| get_settings := JNull;
       mean_reading := fun index side =>
         v3_set index (if (side <? 0)%Z then 1200 else (-800))%R (V3 200 200 200)%R;
       additional_readings := [] |} in
  exists z s,
    let self' := fst (_do_six_point_one_g_calibration client (__init__ "0.1.0" false)) in
    acc_zero_g self' = Some z /\ acc_sensitivity self' = Some s /\
    forall index,
      let normalised := fun v : R =>
        ((v - v3_get index z) * v3_get index s)%R in
      (0 < v3_get index s)%R /\
      normalised (v_max client index) = 1%R /\
      normalised (v_min client index) = (-1)%R.
Proof.
  cbv zeta.
  apply (@six_point_maps_the_larger_reading_to_one
           {| get_settings := JNull;
              mean_reading := fun index side =>
                v3_set index (if (side <? 0)%Z then 1200 else (-800))%R
                  (V3 200 200 200)%R;
              additional_readings := [] |}).
  intros []; cbn; lra.
Defined.

(** ** The order of the points *)

Lemma fold_left_Rplus_shift (l : list R) (a b : R) :
  fold_left Rplus l (a + b)%R = (fold_left Rplus l a + b)%R.
Proof.
  revert a. induction l as [ | x l IH]; intro a; cbn [fold_left].
  - reflexivity.
  - replace (a + b + x)%R with (a + x + b)%R by ring. apply IH.
Qed.

Lemma sum_list_permutation (l l' : list R) :
  Permutation l l' -> sum_list l = sum_list l'.
Proof.
  unfold sum_list. cbn [add exact_real]. generalize (@zero R exact_real).
  intros a Hp. revert a.
  induction Hp as [ | x l l' _ IH | x y l | l l' l'' _ IH1 _ IH2]; intro a;
    cbn [fold_left].
  - reflexivity.
  - apply IH.
  - f_equal. ring.
  - rewrite IH1. apply IH2.
Qed.

Lemma combine_map_map {A B C : Type} (f : A -> B) (g : A -> C) (l : list A) :
  combine (map f l) (map g l) = map (fun a => (f a, g a)) l.
Proof. induction l as [ | a l IH]; cbn; [ reflexivity | now rewrite IH ]. Qed.

Lemma iteration_permutation (linalg_inv : mat9 R -> result (mat9 R))
  (points points' : list (vec3 R)) (st : loop_state R) :
  Permutation points points' ->
  iteration linalg_inv points st = iteration linalg_inv points' st.
Proof.
  intro Hp. unfold iteration.
  destruct (optvec_to_M_and_b (st_x st)) as [M b].
  assert (HJJ : JT_dot_J (map (fun point => _jacobian M b point) points) =
                JT_dot_J (map (fun point => _jacobian M b point) points')).
  { unfold JT_dot_J, v9_init.
    f_equal; f_equal; apply sum_list_permutation;
      apply Permutation_map, Permutation_map, Hp. }
  assert (HJR : JT_dot (map (fun point => _jacobian M b point) points)
                       (map (fun point => error_function M b point) points) =
                JT_dot (map (fun point => _jacobian M b point) points')
                       (map (fun point => error_function M b point) points')).
  { unfold JT_dot, v9_init. rewrite !combine_map_map.
    f_equal; apply sum_list_permutation;
      apply Permutation_map, Permutation_map, Hp. }
  assert (HR : linalg_norm (map (fun point => error_function M b point) points) =
               linalg_norm (map (fun point => error_function M b point) points')).
  { unfold linalg_norm. f_equal. apply sum_list_permutation.
    apply Permutation_map, Permutation_map, Hp. }
  rewrite HJJ, HJR, HR. reflexivity.
Qed.

Lemma optimisation_loop_permutation (linalg_inv : mat9 R -> result (mat9 R))
  (points points' : list (vec3 R)) (n : nat) :
  Permutation points points' ->
  forall st,
    optimisation_loop linalg_inv n points st =
    optimisation_loop linalg_inv n points' st.
Proof.
  intro Hp. induction n as [ | n IH]; intro st; cbn [optimisation_loop].
  - reflexivity.
  - rewrite (iteration_permutation linalg_inv st Hp).
    destruct (iteration linalg_inv points' st) as [[st' | x] | e];
      [ apply IH | reflexivity | reflexivity ].
Qed.

(** X14. In exact arithmetic the solver does not depend on the order in
    which the points were recorded: on a permutation of the points it
    leaves the same object and ends the same way. *)
Theorem optimisation_ignores_the_order_of_the_points
  (linalg_inv : mat9 R -> result (mat9 R))
  (points points' : list (vec3 R)) (self : StandardCalibration R) :
  Permutation points points' ->
  _perform_calibration_optimisation linalg_inv points self =
  _perform_calibration_optimisation linalg_inv points' self.
Proof.
  intro Hp. unfold _perform_calibration_optimisation.
  rewrite (Permutation_length Hp).
  rewrite (optimisation_loop_permutation linalg_inv nbr_iterations Hp).
  reflexivity.
Qed.

Lemma optimisation_ignores_the_order_of_the_points_witness :
  Permutation real_points (rev real_points) /\
  _perform_calibration_optimisation (fun _ => Ok real_inverse) real_points
    (__init__ "0.1.0" false) =
  _perform_calibration_optimisation (fun _ => Ok real_inverse) (rev real_points)
    (__init__ "0.1.0" false).
Proof.
  split; [ apply Permutation_rev | ].
  apply (@optimisation_ignores_the_order_of_the_points
           (fun _ => Ok real_inverse) real_points (rev real_points)).
  apply Permutation_rev.
Defined.

(** X15. [calibrate_accelerometer] never touches the gyroscope
    parameters: [transform_gyroscope_values] is the same function before
    and after it, however the calibration ends. *)
Theorem calibrate_accelerometer_keeps_the_gyroscope_transform
  {F : Type} `{Number F}
  (linalg_inv : mat9 F -> result (mat9 F)) (client : session F)
  (self : StandardCalibration F) (gyro_values : vec3 F) :
  transform_gyroscope_values
    (fst (calibrate_accelerometer linalg_inv client self)) gyro_values =
  transform_gyroscope_values self gyro_values.
Proof.
  assert (Hkeeps : forall (A : Type) (attribute : StandardCalibration F -> A),
    (forall v s, attribute (set_berryimu_settings v s) = attribute s) ->
    (forall v s, attribute (set_acc_zero_g v s) = attribute s) ->
    (forall v s, attribute (set_acc_sensitivity v s) = attribute s) ->
    (forall v s, attribute (set_acc_scale_factor_matrix v s) = attribute s) ->
    (forall v s, attribute (set_acc_bias_vector v s) = attribute s) ->
    keeps attribute (calibrate_accelerometer linalg_inv client)).
  { intros A attribute H1 H2 H3 H4 H5. unfold calibrate_accelerometer.
    apply keeps_bind; [ apply keeps_read | intros [z | ] ];
      [ apply keeps_raise | ].
    apply keeps_bind; [ apply keeps_assign; intro; apply H1 | intros _ ].
    apply keeps_bind; [ apply six_point_pass_keeps; assumption | intro pts ].
    apply keeps_bind; [ apply keeps_ret | intro more ].
    apply keeps_bind; [ apply keeps_read | intros [z | ] ];
      (apply keeps_bind; [ apply keeps_read | intros [s | ] ]);
      try apply keeps_raise.
    unfold _perform_calibration_optimisation.
    destruct (_ <? _)%nat; [ apply keeps_raise | ].
    destruct (optimisation_loop _ _ _ _) as [x | st | e];
      [ | apply keeps_ret | apply keeps_raise ].
    destruct (optvec_to_M_and_b x) as [M b].
    apply keeps_bind; [ apply keeps_assign; intro; apply H4 | intros _ ].
    apply keeps_assign; intro; apply H5. }
  unfold transform_gyroscope_values.
  rewrite (Hkeeps _ (@gyro_zero F)), (Hkeeps _ (@gyro_sensitivity F));
    reflexivity.
Qed.

(** * Properties of the client *)

(** ** The 16-bit readings *)

Lemma byte_lor_shiftl (lo hi : Z) :
  (0 <= lo < 256)%Z -> (0 <= hi)%Z ->
  Z.lor lo (Z.shiftl hi 8) = (lo + 256 * hi)%Z.
Proof.
  intros Hlo Hhi.
  assert (Hland : Z.land lo (Z.shiftl hi 8) = 0%Z).
  { apply Z.bits_inj'. intros n Hn. rewrite Z.land_spec, Z.bits_0.
    destruct (Z.ltb_spec n 8) as [Hlt | Hge].
    - rewrite (Z.shiftl_spec_low hi 8 n Hlt). apply andb_false_r.
    - replace (Z.testbit lo n) with false; [ reflexivity | ].
      symmetry. destruct (Z.eq_dec lo 0) as [-> | Hnz]; [ apply Z.bits_0 | ].
      apply Z.bits_above_log2; [ lia | ].
      apply Z.log2_lt_pow2; [ lia | ].
      apply Z.lt_le_trans with (2 ^ 8)%Z; [ cbn; lia | ].
      apply Z.pow_le_mono_r; lia. }
  rewrite <- Z.lxor_lor by exact Hland.
  rewrite <- Z.add_nocarry_lxor by exact Hland.
  rewrite Z.shiftl_mul_pow2 by lia. change (2 ^ 8)%Z with 256%Z. lia.
Qed.

(** X16. [_read] puts the two bytes together as a 16-bit two's complement
    number: the value lies in [-32768, 32767], it is congruent to
    [lo + 256 * hi] modulo 65536, and it is negative exactly when bit 7 of
    the high byte is set. *)
Theorem read_value_is_twos_complement (lo hi : Z) :
  (0 <= lo < 256)%Z -> (0 <= hi < 256)%Z ->
  (-32768 <= Client._read_value lo hi < 32768)%Z /\
  (Client._read_value lo hi mod 65536 = lo + 256 * hi)%Z /\
  (Client._read_value lo hi <? 0)%Z = Z.testbit hi 7.
Proof.
  intros Hlo Hhi. unfold Client._read_value. cbv zeta.
  rewrite (byte_lor_shiftl Hlo) by lia.
  assert (Hbit : Z.testbit hi 7 = (128 <=? hi)%Z).
  { destruct (Z.leb_spec 128 hi) as [Hge | Hlt].
    - apply Z.testbit_true; [ lia | ]. change (2 ^ 7)%Z with 128%Z.
      assert (hi / 128 = 1)%Z as ->
        by (symmetry; apply Z.div_unique with (hi - 128)%Z; lia).
      reflexivity.
    - apply Z.testbit_false; [ lia | ]. change (2 ^ 7)%Z with 128%Z.
      rewrite Z.div_small by lia. reflexivity. }
  rewrite Hbit.
  destruct (Z.ltb_spec (lo + 256 * hi) 32768) as [Hlt | Hge].
  - split; [ lia | ]. split.
    + apply Z.mod_small. lia.
    + destruct (Z.ltb_spec (lo + 256 * hi) 0), (Z.leb_spec 128 hi); lia || reflexivity.
  - split; [ lia | ]. split.
    + symmetry. apply Z.mod_unique with (-1)%Z; lia.
    + destruct (Z.ltb_spec (lo + 256 * hi - 65536) 0), (Z.leb_spec 128 hi);
        lia || reflexivity.
Qed.

Lemma read_value_is_twos_complement_witness :
  (0 <= 200 < 256)%Z /\ Client._read_value 200 200 = (-14136)%Z /\
  (Client._read_value 200 200 mod 65536 = 200 + 256 * 200)%Z.
Proof.
  split; [ lia | ]. split; [ reflexivity | ].
  apply (@read_value_is_twos_complement 200 200); lia.
Defined.

(** X17. Every 16-bit signed number is read back from its two bytes. *)
Theorem read_value_round_trip (v : Z) :
  (-32768 <= v < 32768)%Z ->
  Client._read_value (v mod 256) ((v / 256) mod 256) = v.
Proof.
  intro Hv. unfold Client._read_value. cbv zeta.
  pose proof (Z.mod_pos_bound v 256 ltac:(lia)) as Hlo.
  pose proof (Z.mod_pos_bound (v / 256) 256 ltac:(lia)) as Hhi.
  rewrite (byte_lor_shiftl Hlo) by lia.
  pose proof (Z.div_mod v 256 ltac:(lia)) as Hv256.
  pose proof (Z.div_mod (v / 256) 256 ltac:(lia)) as Hq.
  assert (Hrange : (-128 <= v / 256 < 128)%Z).
  { split.
    - apply Z.div_le_lower_bound; lia.
    - apply Z.div_lt_upper_bound; lia. }
  destruct (Z_lt_le_dec v 0) as [Hneg | Hpos].
  - assert (Hm : ((v / 256) mod 256 = v / 256 + 256)%Z).
    { symmetry. apply Z.mod_unique with (-1)%Z; lia. }
    rewrite Hm.
    destruct (Z.ltb_spec (v mod 256 + 256 * (v / 256 + 256)) 32768); lia.
  - assert (H0 : (0 <= v / 256)%Z) by (apply Z.div_pos; lia).
    rewrite (Z.mod_small (v / 256) 256) by lia.
    destruct (Z.ltb_spec (v mod 256 + 256 * (v / 256)) 32768); lia.
Qed.

Lemma read_value_round_trip_witness :
  (-32768 <= -14136 < 32768)%Z /\
  ((-14136) mod 256 = 200)%Z /\ (((-14136) / 256) mod 256 = 200)%Z /\
  Client._read_value ((-14136) mod 256) (((-14136) / 256) mod 256) = (-14136)%Z.
Proof.
  split; [ lia | ]. split; [ reflexivity | ]. split; [ reflexivity | ].
  apply (@read_value_round_trip (-14136)). lia.
Defined.

(** ** The bus *)

Section Bus.
Context {world handle : Type}.
Variable smbus : Client.smbus_t world handle.
Variable LSM9DS0 : Client.LSM9DS0_t.
Variable BMP180 : Client.BMP180_t.

Local Notation io := (Client.io (world:=world) (handle:=handle)).
Local Notation state := (Client.BerryIMUClient handle * world)%type.
Local Notation agree := (@agree world handle _).

Lemma io_bind_returns {A B : Type} (c : io A) (k : A -> io B)
  (s s' : state) (b : B) :
  Client.io_bind c k s = (s', Returns b) ->
  exists a s1, c s = (s1, Returns a) /\ k a s1 = (s', Returns b).
Proof.
  unfold Client.io_bind. destruct (c s) as [s1 [a | e]]; [ | discriminate ].
  intro E. exists a, s1. split; [ reflexivity | exact E ].
Qed.

Lemma agree_ret {A : Type} (a : A) : agree (Client.io_ret a) (Client.io_ret a).
Proof. intros s Hs. split; [ reflexivity | exact Hs ]. Qed.

Lemma agree_raise {A : Type} (e : exception) :
  agree (Client.io_raise (A:=A) e) (Client.io_raise e).
Proof. intros s Hs. split; [ reflexivity | exact Hs ]. Qed.

Lemma agree_attr {A : Type} (f : Client.BerryIMUClient handle -> A) :
  agree (Client.attr f) (Client.attr f).
Proof. intros s Hs. split; [ reflexivity | exact Hs ]. Qed.

Lemma agree_call {A : Type} (op : world -> world * outcome A) :
  agree (Client.call op) (Client.call op).
Proof.
  intros s Hs. split; [ reflexivity | ].
  unfold Client.call. destruct (op (snd s)). exact Hs.
Qed.

Lemma agree_set (f : Client.BerryIMUClient handle -> Client.BerryIMUClient handle) :
  (forall self, Client._bus (f self) = Client._bus self) ->
  agree (Client.set f) (Client.set f).
Proof.
  intros Hf s Hs. split; [ reflexivity | ]. cbn. rewrite Hf. exact Hs.
Qed.

Lemma agree_bind {A B : Type} (m m' : io A) (k k' : A -> io B) :
  agree m m' -> (forall a, agree (k a) (k' a)) ->
  agree (Client.io_bind m k) (Client.io_bind m' k').
Proof.
  intros Hm Hk s Hs. destruct (Hm s Hs) as [E Hs']. unfold Client.io_bind.
  rewrite <- E. destruct (m s) as [s1 [a | e]].
  - exact (Hk a s1 Hs').
  - split; [ reflexivity | exact Hs' ].
Qed.

Lemma bus_with_a_handle (depth : nat) (s : state) (h : handle) :
  Client._bus (fst s) = Some h ->
  Client.bus smbus LSM9DS0 BMP180 depth s = (s, Returns h).
Proof.
  intro Hs. destruct depth; cbn; unfold Client.io_bind, Client.attr;
    rewrite Hs; reflexivity.
Qed.

Lemma agree_bus (depth depth' : nat) :
  agree (Client.bus smbus LSM9DS0 BMP180 depth)
        (Client.bus smbus LSM9DS0 BMP180 depth').
Proof.
  intros s Hs. destruct (Client._bus (fst s)) as [h | ] eqn:E; [ | contradiction ].
  rewrite !(bus_with_a_handle _ s E). split; [ reflexivity | ].
  cbn. rewrite E. discriminate.
Qed.

Ltac agree_step :=
  first [ apply agree_ret | apply agree_raise | apply agree_attr
        | apply agree_call | apply agree_set; intro; reflexivity
        | assumption
        | apply agree_bind; [ | intro ] ].

(** What [open] runs once the handle is stored. *)
Let inits (bus : io handle) : io unit :=
  Client.io_bind (Client._init_accelerometer smbus LSM9DS0 bus) (fun _ =>
  Client.io_bind (Client._init_gyroscope smbus LSM9DS0 bus) (fun _ =>
  Client.io_bind (Client._init_magnetometer smbus LSM9DS0 bus) (fun _ =>
  Client._init_barometric_pressure_sensor smbus BMP180 bus))).

Lemma agree_inits (bus bus' : io handle) :
  agree bus bus' -> agree (inits bus) (inits bus').
Proof.
  intro Hbus.
  unfold inits, Client._init_accelerometer, Client._init_gyroscope,
    Client._init_magnetometer, Client._init_barometric_pressure_sensor,
    Client._write_to_accelerometer, Client._write_to_gyroscope,
    Client._write_to_magnetometer.
  apply agree_bind; [ | intro ].
  { apply agree_bind; [ apply agree_attr | intro flag ].
    destruct (flag =? 1)%Z; repeat agree_step. }
  apply agree_bind; [ | intro ].
  { apply agree_bind; [ apply agree_attr | intro flag ].
    destruct (flag =? 1)%Z; repeat agree_step. }
  apply agree_bind; [ | intro ].
  { apply agree_bind; [ apply agree_attr | intro flag ].
    destruct (flag =? 1)%Z; repeat agree_step. }
  repeat agree_step.
Qed.

Lemma open_steps (bus : io handle) (s : state) :
  Client.open smbus LSM9DS0 BMP180 bus s =
    match Client.SMBus smbus (Client._bus_no (fst s)) (snd s) with
    | (w, Returns h) => inits bus (Client.set__bus (Some h) (fst s), w)
    | (w, Raises e) => ((fst s, w), Raises e)
    end.
Proof.
  unfold Client.open, inits.
  unfold Client.io_bind at 1. unfold Client.attr at 1.
  unfold Client.io_bind at 1. unfold Client.call at 1. cbn [fst snd].
  destruct (Client.SMBus smbus (Client._bus_no (fst s)) (snd s)) as [w [h | e]];
    reflexivity.
Qed.

Lemma open_any_depth (bus bus' : io handle) (s : state) :
  agree bus bus' ->
  Client.open smbus LSM9DS0 BMP180 bus s = Client.open smbus LSM9DS0 BMP180 bus' s /\
  (forall s' a, Client.open smbus LSM9DS0 BMP180 bus s = (s', Returns a) ->
                Client._bus (fst s') <> None).
Proof.
  intro Hbus. rewrite !open_steps.
  destruct (Client.SMBus smbus (Client._bus_no (fst s)) (snd s)) as [w [h | e]].
  - assert (Hs : Client._bus
                   (fst (Client.set__bus (Some h) (fst s), w)) <> None)
      by (cbn; discriminate).
    destruct (agree_inits Hbus _ Hs) as [E Hopened].
    split; [ exact E | ].
    intros s' a Es. rewrite Es in Hopened. exact Hopened.
  - split; [ reflexivity | ]. intros s' a Es. discriminate Es.
Qed.

Lemma bus_steps (depth : nat) (s : state) :
  Client.bus smbus LSM9DS0 BMP180 (S depth) s =
    match Client._bus (fst s) with
    | Some h => (s, Returns h)
    | None =>
        Client.io_bind
          (Client.open smbus LSM9DS0 BMP180
             (Client.bus smbus LSM9DS0 BMP180 depth))
          (fun _ => Client.bus smbus LSM9DS0 BMP180 depth) s
    end.
Proof.
  change (Client.bus smbus LSM9DS0 BMP180 (S depth) s) with
    (Client.io_bind (Client.attr (@Client._bus handle))
       (fun b => match b with
                 | Some h => Client.io_ret h
                 | None =>
                     Client.io_bind
                       (Client.open smbus LSM9DS0 BMP180
                          (Client.bus smbus LSM9DS0 BMP180 depth))
                       (fun _ => Client.bus smbus LSM9DS0 BMP180 depth)
                 end) s).
  unfold Client.io_bind at 1. unfold Client.attr at 1.
  destruct (Client._bus (fst s)); reflexivity.
Qed.

(** X18. The property [bus] calls itself at most once: with any room for
    nested calls it does what it does with room for one.  After
    [self.open()] returned there is a handle, and the second call returns
    it. *)
Theorem bus_opens_at_most_once (depth : nat) (s : state) :
  Client.bus smbus LSM9DS0 BMP180 (S depth) s =
  Client.bus smbus LSM9DS0 BMP180 1 s.
Proof.
  rewrite !bus_steps.
  destruct (Client._bus (fst s)) as [h | ]; [ reflexivity | ].
  destruct (open_any_depth s (agree_bus depth 0)) as [Eopen Hopened].
  unfold Client.io_bind. rewrite <- Eopen.
  destruct (Client.open smbus LSM9DS0 BMP180
              (Client.bus smbus LSM9DS0 BMP180 depth) s) as [s' [a | e]] eqn:Es;
    [ | reflexivity ].
  apply (agree_bus depth 0). exact (Hopened s' a eq_refl).
Qed.

(** X19. A setup flag that is not 1 is reported after the bus is opened:
    the first access to [bus] raises the [PyBerryIMUError] of
    [_init_accelerometer] with the handle already stored, and the next
    access returns that handle without opening or initialising anything. *)
Theorem failed_open_leaves_the_handle (depth : nat)
  (self : Client.BerryIMUClient handle) (w w' : world) (h : handle) :
  Client._bus self = None ->
  Client._acc_setup self <> 1%Z ->
  Client.SMBus smbus (Client._bus_no self) w = (w', Returns h) ->
  let s' := (Client.set__bus (Some h) self, w') in
  Client.bus smbus LSM9DS0 BMP180 (S depth) (self, w) =
    (s', Raises (Std (PyBerryIMUError
           ("Invalid Accelerometer setup flag: "
            ++ Client.str (Client._acc_setup self) ++ ".")))) /\
  Client.bus smbus LSM9DS0 BMP180 (S depth) s' = (s', Returns h).
Proof.
  intros Hnone Hflag Hbus. cbv zeta. split.
  - rewrite bus_steps. cbn [fst]. rewrite Hnone.
    unfold Client.io_bind at 1. rewrite open_steps. cbn [fst snd].
    rewrite Hbus. unfold inits. unfold Client.io_bind at 1.
    unfold Client._init_accelerometer. unfold Client.io_bind at 1.
    unfold Client.attr at 1. cbn [fst Client.set__bus Client._acc_setup].
    apply Z.eqb_neq in Hflag. rewrite Hflag. reflexivity.
  - apply bus_with_a_handle. reflexivity.
Qed.

(** X20. [read_pressure] asks for the calibration values before it touches
    [bus]: on a client whose bus was never opened it raises [TypeError] and
    leaves the client and the bus as they were. *)
Theorem read_pressure_before_the_bus_is_opened {F : Type} `{Number F}
  (bus : io handle) (s : state) :
  Client._bmp180_calibration (fst s) = None ->
  Client.read_pressure (F:=F) smbus BMP180 bus s = (s, Raises (Std TypeError)).
Proof.
  intro Hnone. unfold Client.read_pressure.
  unfold Client.io_bind at 1. unfold Client._get_bmp180_calib_values.
  unfold Client.io_bind at 1. unfold Client.attr at 1. rewrite Hnone.
  reflexivity.
Qed.

(** X21. [close] never raises and assigns nothing: the client keeps its
    handle, and a client without one leaves the bus alone. *)
Theorem close_never_raises_and_keeps_the_handle (s : state) :
  exists w' : world,
    Client.close smbus s = ((fst s, w'), Returns tt) /\
    (Client._bus (fst s) = None -> w' = snd s).
Proof.
  unfold Client.close, Client.io_bind, Client.attr.
  destruct (Client._bus (fst s)) as [h | ].
  - destruct (Client.bus_close smbus h (snd s)) as [w r].
    exists w. split; [ reflexivity | discriminate ].
  - exists (snd s). destruct s. split; reflexivity.
Qed.

(** ** The readings *)

Lemma read_value_range (lo hi : Z) :
  (0 <= lo < 256)%Z -> (0 <= hi < 256)%Z ->
  (-32768 <= Client._read_value lo hi < 32768)%Z.
Proof.
  intros Hlo Hhi. unfold Client._read_value. cbv zeta.
  rewrite (byte_lor_shiftl Hlo) by lia.
  destruct (Z.ltb_spec (lo + 256 * hi) 32768); lia.
Qed.

Hypothesis bytes :
  forall (h : handle) (address register : Z) (w w' : world) (b : Z),
    Client.read_byte_data smbus h address register w = (w', Returns b) ->
    (0 <= b < 256)%Z.

Lemma _read_range (bus : io handle) (address lo_reg hi_reg : Z)
  (s s' : state) (v : Z) :
  Client._read smbus bus address lo_reg hi_reg s = (s', Returns v) ->
  (-32768 <= v < 32768)%Z.
Proof.
  unfold Client._read. intro E.
  apply io_bind_returns in E. destruct E as (h & s1 & _ & E).
  apply io_bind_returns in E. destruct E as (lo & s2 & Elo & E).
  apply io_bind_returns in E. destruct E as (h' & s3 & _ & E).
  apply io_bind_returns in E. destruct E as (hi & s4 & Ehi & E).
  injection E as _ <-.
  unfold Client.call in Elo, Ehi.
  destruct (Client.read_byte_data smbus h address lo_reg (snd s1))
    as [w1 r1] eqn:E1.
  destruct (Client.read_byte_data smbus h' address hi_reg (snd s3))
    as [w3 r3] eqn:E3.
  injection Elo as _ ->. injection Ehi as _ ->.
  apply read_value_range; [ exact (bytes _ _ _ _ E1) | exact (bytes _ _ _ _ E3) ].
Qed.

(** X22. On a bus that returns bytes, every component of what
    [read_accelerometer] returns is a 16-bit signed number. *)
Theorem read_accelerometer_is_16_bit (bus : io handle) (s s' : state)
  (a : vec3 Z) :
  Client.read_accelerometer smbus LSM9DS0 bus s = (s', Returns a) ->
  (-32768 <= c0 a < 32768)%Z /\ (-32768 <= c1 a < 32768)%Z /\
  (-32768 <= c2 a < 32768)%Z.
Proof.
  unfold Client.read_accelerometer. intro E.
  apply io_bind_returns in E. destruct E as (x & s1 & Ex & E).
  apply io_bind_returns in E. destruct E as (y & s2 & Ey & E).
  apply io_bind_returns in E. destruct E as (z & s3 & Ez & E).
  injection E as _ <-. cbn [c0 c1 c2].
  apply _read_range in Ex, Ey, Ez. repeat split; lia.
Qed.
End Bus.

(** ** The calibration of the pressure sensor *)

Lemma list_set_same (vals : list Z) :
  forall (i : nat) (v : Z), nth_error vals i = Some v -> Client.list_set i v vals = vals.
Proof.
  induction vals as [ | a vals IH]; intros [ | i] v E; cbn in *;
    try discriminate.
  - injection E as ->. reflexivity.
  - rewrite (IH i v E). reflexivity.
Qed.

Lemma sign_extend_at (vals : list Z) (i : nat) (v : Z) :
  nth_error vals i = Some v ->
  Client.sign_extend (Returns vals) i = Returns (Client.list_set i (signed v) vals).
Proof.
  intro E. unfold Client.sign_extend, signed. rewrite E.
  destruct (v >? 2 ^ 15 - 1)%Z; [ reflexivity | ].
  rewrite (list_set_same vals i E). reflexivity.
Qed.

Lemma sign_extend_raises (e : exception) (indices : list nat) :
  fold_left Client.sign_extend indices (Raises e) = Raises e.
Proof. induction indices as [ | i indices IH]; [ reflexivity | exact IH ]. Qed.

Lemma length_list_set (vals : list Z) :
  forall (i : nat) (v : Z), List.length (Client.list_set i v vals) = List.length vals.
Proof.
  induction vals as [ | a vals IH]; intros [ | i] v; cbn; try reflexivity.
  now rewrite IH.
Qed.

Lemma sign_extend_out_of_range (indices : list nat) :
  forall vals : list Z,
  (exists i, In i indices /\ (List.length vals <= i)%nat) ->
  fold_left Client.sign_extend indices (Returns vals) = Raises IndexError.
Proof.
  induction indices as [ | j indices IH]; intros vals (i & Hin & Hi).
  - destruct Hin.
  - cbn [fold_left]. destruct (nth_error vals j) as [v | ] eqn:E.
    + rewrite (sign_extend_at vals j E).
      destruct Hin as [-> | Hin].
      * exfalso. assert (Hsome : nth_error vals i <> None) by congruence.
        apply nth_error_Some in Hsome. lia.
      * apply IH. exists i. split; [ exact Hin | ].
        rewrite length_list_set. exact Hi.
    + unfold Client.sign_extend. rewrite E. apply sign_extend_raises.
Qed.

Lemma length_every_other {A : Type} (n : nat) :
  forall l : list A, (List.length l <= n)%nat ->
  (2 * List.length (Client.every_other l) <= List.length l + 1)%nat /\
  (2 * List.length (Client.every_other (tl l)) <= List.length l)%nat.
Proof.
  induction n as [ | n IH]; intros l Hn.
  - destruct l; [ cbn; lia | cbn in Hn; lia ].
  - destruct l as [ | a [ | b l]].
    + cbn. lia.
    + cbn. lia.
    + assert (Hl : (List.length l <= n)%nat) by (cbn in Hn; lia).
      assert (Hbl : (List.length (b :: l) <= n)%nat) by (cbn in *; lia).
      destruct (IH l Hl) as [H1 H2]. destruct (IH (b :: l) Hbl) as [H3 H4].
      cbn [Client.every_other tl List.length] in *. split; lia.
Qed.

Section CalibrationBlock.
Context {world handle : Type}.

Local Notation state := (Client.BerryIMUClient handle * world)%type.

(** X23. [_get_bmp180_calib_values] needs the 22 calibration bytes: on a
    shorter block it raises [IndexError]. *)
Theorem calib_values_of_a_short_block (s : state) (calibration : list Z) :
  Client._bmp180_calibration (fst s) = Some calibration ->
  (List.length calibration < 22)%nat ->
  Client._get_bmp180_calib_values s = (s, Raises IndexError).
Proof.
  intros Hcal Hlen. unfold Client._get_bmp180_calib_values.
  unfold Client.io_bind, Client.attr. rewrite Hcal. unfold Client.lift.
  rewrite sign_extend_out_of_range; [ reflexivity | ].
  exists 10%nat. split; [ cbn; tauto | ].
  rewrite length_map, length_combine, length_map.
  pose proof (@length_every_other Z (List.length calibration) calibration
                (le_n _)) as [_ H2].
  lia.
Qed.

(** X24. On 22 calibration bytes [_get_bmp180_calib_values] returns eleven
    numbers, each congruent modulo 65536 to the big-endian word of its two
    bytes: AC1, AC2, AC3, B1, B2, MB, MC and MD as signed 16-bit numbers,
    AC4, AC5 and AC6 as unsigned ones. *)
Theorem calib_values_are_16_bit_words (s : state) (calibration : list Z) :
  Client._bmp180_calibration (fst s) = Some calibration ->
  List.length calibration = 22%nat ->
  Forall (fun b => 0 <= b < 256)%Z calibration ->
  exists ac1 ac2 ac3 ac4 ac5 ac6 b1 b2 mb mc md : Z,
    Client._get_bmp180_calib_values s =
      (s, Returns [ac1; ac2; ac3; ac4; ac5; ac6; b1; b2; mb; mc; md]) /\
    Forall (fun v => -32768 <= v < 32768)%Z [ac1; ac2; ac3; b1; b2; mb; mc; md] /\
    Forall (fun v => 0 <= v < 65536)%Z [ac4; ac5; ac6] /\
    Forall2 (fun v raw => (v - raw) mod 65536 = 0)%Z
      [ac1; ac2; ac3; ac4; ac5; ac6; b1; b2; mb; mc; md]
      (map (fun i => 256 * nth (2 * i) calibration 0
                     + nth (2 * i + 1) calibration 0)%Z (seq 0 11)).
Proof.
  intros Hcal Hlen Hbytes.
  do 22 (destruct calibration as [ | ? calibration]; [ discriminate Hlen | ]).
  destruct calibration; [ | discriminate Hlen ].
  repeat match goal with
  | Hb : Forall _ (_ :: _) |- _ => inversion Hb; clear Hb; subst
  end.
  unfold Client._get_bmp180_calib_values, Client.io_bind, Client.attr.
  rewrite Hcal. unfold Client.lift.
  cbn [Client.every_other tl map combine fold_left].
  repeat (erewrite sign_extend_at by reflexivity; cbn [Client.list_set]).
  do 11 eexists. split; [ reflexivity | ].
  unfold signed. rewrite !Z.shiftl_mul_pow2 by lia.
  change (2 ^ 8)%Z with 256%Z. change (2 ^ 15 - 1)%Z with 32767%Z.
  change (2 ^ 16)%Z with 65536%Z.
  split; [ | split ].
  - repeat constructor;
      match goal with |- context [(?v >? 32767)%Z] =>
        destruct (Z.gtb_spec v 32767); lia end.
  - repeat constructor; lia.
  - cbn [seq map nth Nat.mul Nat.add].
    repeat constructor;
      try match goal with |- context [(?v >? 32767)%Z] =>
        destruct (Z.gtb_spec v 32767) end;
      match goal with
      | |- ((?a - ?b) mod 65536 = 0)%Z =>
          first [ replace (a - b)%Z with 0%Z by lia; reflexivity
                | replace (a - b)%Z with (-1 * 65536)%Z by lia;
                  apply Z.mod_mul; lia ]
      end.
Qed.
End CalibrationBlock.

(** ** Runs on the bench *)

Lemma failed_open_leaves_the_handle_witness :
  let self := Client.__init__ (handle:=Z) 1 2 1 1 false in
  let s' := (Client.set__bus (Some 1%Z) self, @nil (Z * Z * Z)) in
  Client._acc_setup self <> 1%Z /\
  Client.bus bench bench_LSM9DS0 bench_BMP180 1 (self, []) =
    (s', Raises (Std (PyBerryIMUError "Invalid Accelerometer setup flag: 2."))) /\
  Client.bus bench bench_LSM9DS0 bench_BMP180 1 s' = (s', Returns 1%Z).
Proof.
  cbv zeta. split; [ cbn; lia | ].
  apply (@failed_open_leaves_the_handle _ _ bench bench_LSM9DS0 bench_BMP180
           0%nat (Client.__init__ (handle:=Z) 1 2 1 1 false) [] [] 1%Z).
  - reflexivity.
  - cbn. lia.
  - reflexivity.
Defined.

(** On the same new client [read_temperature] opens the bus and returns the
    15.0 degrees of the data sheet, and [read_pressure] raises. *)
Lemma read_pressure_before_the_bus_is_opened_witness :
  let s := (Client.__init__ (handle:=Z) 1 1 1 1 false, @nil (Z * Z * Z)) in
  Client._bmp180_calibration (fst s) = None /\
  snd (Client.read_temperature (F:=float) bench bench_BMP180
         (Client.bus bench bench_LSM9DS0 bench_BMP180 1) s) =
    Returns (27898%Z, 15%float) /\
  Client.read_pressure (F:=float) bench bench_BMP180
    (Client.bus bench bench_LSM9DS0 bench_BMP180 1) s =
    (s, Raises (Std TypeError)).
Proof.
  cbv zeta. split; [ reflexivity | ]. split; [ vm_compute; reflexivity | ].
  apply (@read_pressure_before_the_bus_is_opened _ _ bench bench_BMP180
           float binary64).
  reflexivity.
Defined.

Lemma read_accelerometer_is_16_bit_witness :
  let s := (Client.__init__ (handle:=Z) 1 1 1 1 false, @nil (Z * Z * Z)) in
  let run := Client.read_accelerometer bench bench_LSM9DS0
               (Client.bus bench bench_LSM9DS0 bench_BMP180 1) s in
  snd run = Returns (V3 (-14136) (-14136) (-14136))%Z /\
  (-32768 <= -14136 < 32768)%Z.
Proof.
  cbv zeta. split; [ vm_compute; reflexivity | ].
  refine (proj1 (@read_accelerometer_is_16_bit _ _ bench bench_LSM9DS0 _
                   (Client.bus bench bench_LSM9DS0 bench_BMP180 1)
                   (Client.__init__ (handle:=Z) 1 1 1 1 false, [])
                   _ (V3 (-14136) (-14136) (-14136))%Z _)).
  - intros h address register w w' b E. cbn in E. injection E as _ <-. lia.
  - vm_compute. reflexivity.
Defined.

Lemma calib_values_of_a_short_block_witness :
  let s := (Client.set__bmp180_calibration (Some (firstn 21 bench_calibration))
              (Client.__init__ (handle:=Z) 1 1 1 1 false), tt) in
  (List.length (firstn 21 bench_calibration) < 22)%nat /\
  Client._get_bmp180_calib_values s = (s, Raises IndexError).
Proof.
  cbv zeta. split; [ cbn; lia | ].
  apply (@calib_values_of_a_short_block unit Z _ (firstn 21 bench_calibration)).
  - reflexivity.
  - cbn. lia.
Defined.

(** The calibration values of the data sheet. *)
Lemma calib_values_are_16_bit_words_witness :
  let s := (Client.set__bmp180_calibration (Some bench_calibration)
              (Client.__init__ (handle:=Z) 1 1 1 1 false), tt) in
  Client._get_bmp180_calib_values s =
    (s, Returns [408; -72; -14383; 32741; 32757; 23153;
                 6190; 4; -32768; -8711; 2868]%Z) /\
  exists ac1 ac2 ac3 ac4 ac5 ac6 b1 b2 mb mc md : Z,
    Client._get_bmp180_calib_values s =
      (s, Returns [ac1; ac2; ac3; ac4; ac5; ac6; b1; b2; mb; mc; md]) /\
    Forall (fun v => -32768 <= v < 32768)%Z [ac1; ac2; ac3; b1; b2; mb; mc; md] /\
    Forall (fun v => 0 <= v < 65536)%Z [ac4; ac5; ac6] /\
    Forall2 (fun v raw => (v - raw) mod 65536 = 0)%Z
      [ac1; ac2; ac3; ac4; ac5; ac6; b1; b2; mb; mc; md]
      (map (fun i => 256 * nth (2 * i) bench_calibration 0
                     + nth (2 * i + 1) bench_calibration 0)%Z (seq 0 11)).
Proof.
  cbv zeta. split; [ reflexivity | ].
  apply (@calib_values_are_16_bit_words unit Z _ bench_calibration).
  - reflexivity.
  - reflexivity.
  - unfold bench_calibration. repeat constructor; lia.
Defined.
